(** * Deribit risk monitor: store, alert evaluator and RPC client

    A shallow embedding of [state_store.py], [monitor.py] and
    [deribit_client.py], and the properties of the specification that
    can be settled on it.

    Conventions of the embedding.
    - Python floats are IEEE 754 binary64 numbers: [spec_float] with
      the operations of [SpecFloat] at precision 53 and maximal
      exponent 1024.  Python integers that meet floats ([0], [1],
      [60], [300]) are converted first, as Python does.
    - JSON-like data (the content of [StateStore.state]) is the
      untyped [pyobject] below; a dict keeps its insertion order.
    - An operation that raises in Python returns [None] (pure helpers)
      or the outcome [Raised] (methods).  Arithmetic and order
      comparisons are modelled on numbers ([bool] counts as a number,
      as in Python); on anything else they raise.
    - [time.time()], the webhook and the HTTP transport are the
      environment: explicit arguments, or oracles indexed by the
      number of calls made so far. *)

From Stdlib Require Import ZArith List String Ascii Bool Lia.
From Stdlib Require Import Floats.PrimFloat Floats.SpecFloat Floats.FloatOps.
Import ListNotations.
Set Warnings "-inexact-float,-register-all".

Local Open Scope Z_scope.
Local Open Scope string_scope.

(** ** Python floats *)

Module PyFloat.

Definition t := spec_float.

Definition add : t -> t -> t := SFadd prec emax.
Definition sub : t -> t -> t := SFsub prec emax.
Definition mul : t -> t -> t := SFmul prec emax.
Definition div : t -> t -> t := SFdiv prec emax.
Definition abs : t -> t := SFabs.

Definition eqb : t -> t -> bool := SFeqb.
Definition ltb : t -> t -> bool := SFltb.
Definition leb : t -> t -> bool := SFleb.
Definition gtb (x y : t) : bool := SFltb y x.
Definition geb (x y : t) : bool := SFleb y x.

(** [float(n)] for a Python integer [n]. *)
Definition of_Z (n : Z) : t := binary_normalize prec emax n 0 false.

Definition zero : t := S754_zero false.
Definition one : t := of_Z 1.

Definition is_nan (x : t) : bool :=
  match x with S754_nan => true | _ => false end.

(** [math.isfinite(x)] *)
Definition is_finite (x : t) : bool :=
  match x with S754_zero _ | S754_finite _ _ _ => true | _ => false end.

(** An order-preserving code of the floats that are not NaN: class,
    then exponent, then mantissa, negated below zero. *)
Definition rank (x : t) : Z * Z * Z :=
  match x with
  | S754_nan => (0, 0, 0)
  | S754_zero _ => (0, 0, 0)
  | S754_infinity true => (-2, 0, 0)
  | S754_infinity false => (2, 0, 0)
  | S754_finite true m e => (-1, - e, Z.neg m)
  | S754_finite false m e => (1, e, Z.pos m)
  end.

Definition lex3 (a b : Z * Z * Z) : comparison :=
  let '(a1, a2, a3) := a in
  let '(b1, b2, b3) := b in
  match (a1 ?= b1)%Z with
  | Eq => match (a2 ?= b2)%Z with Eq => (a3 ?= b3)%Z | c => c end
  | c => c
  end.

End PyFloat.

Declare Scope pyfloat_scope.
Delimit Scope pyfloat_scope with py.
Notation "x - y" := (PyFloat.sub x y) : pyfloat_scope.
Notation "x + y" := (PyFloat.add x y) : pyfloat_scope.
Notation "x / y" := (PyFloat.div x y) : pyfloat_scope.
Notation "x * y" := (PyFloat.mul x y) : pyfloat_scope.
Notation "x >=? y" := (PyFloat.geb x y) (at level 70) : pyfloat_scope.
Notation "x >? y" := (PyFloat.gtb x y) (at level 70) : pyfloat_scope.
Notation "x <? y" := (PyFloat.ltb x y) (at level 70) : pyfloat_scope.
Notation "x <=? y" := (PyFloat.leb x y) (at level 70) : pyfloat_scope.
Notation "x ==? y" := (PyFloat.eqb x y) (at level 70) : pyfloat_scope.

(** A float literal of the source: the binary64 number that Python
    reads it as, computed where it is written. *)
Notation "'float:(' x ')'" :=
  (ltac:(let v := eval vm_compute in (Prim2SF x%float) in exact v))
  (only parsing).

(** ** Python dicts: insertion-ordered association lists *)

Module Dict.
Section Dict.
Context {V : Type}.

Definition t := list (string * V).

(** [d.get(k)], [None] when the key is absent. *)
Fixpoint get (d : t) (k : string) : option V :=
  match d with
  | [] => None
  | (k', v) :: r => if String.eqb k' k then Some v else get r k
  end.

(** [k in d] *)
Definition mem (d : t) (k : string) : bool :=
  match get d k with Some _ => true | None => false end.

(** [d.get(k, default)] *)
Definition get_default (d : t) (k : string) (default : V) : V :=
  match get d k with Some v => v | None => default end.

(** [d[k] = v]: in place when the key exists, at the end otherwise. *)
Fixpoint put (k : string) (v : V) (d : t) : t :=
  match d with
  | [] => [(k, v)]
  | (k', v') :: r =>
      if String.eqb k' k then (k, v) :: r else (k', v') :: put k v r
  end.

(** [del d[k]].  A dict holds a key once; every binding of [k] goes. *)
Fixpoint del (k : string) (d : t) : t :=
  match d with
  | [] => []
  | (k', v') :: r =>
      if String.eqb k' k then del k r else (k', v') :: del k r
  end.

(** [list(d.keys())] *)
Definition keys (d : t) : list string := map fst d.

End Dict.
Arguments t : clear implicits.
End Dict.

(** ** Python values *)

Inductive pyobject : Type :=
| VNone
| VBool (b : bool)
| VNum (x : PyFloat.t)
| VStr (s : string)
| VList (l : list pyobject)
| VDict (d : list (string * pyobject)).

Module Py.

(** Truth value of an object ([if x:], [not x]). *)
Definition truthy (v : pyobject) : bool :=
  match v with
  | VNone => false
  | VBool b => b
  | VNum x => negb (PyFloat.eqb x PyFloat.zero)
  | VStr s => negb (String.eqb s "")
  | VList l => match l with [] => false | _ => true end
  | VDict d => match d with [] => false | _ => true end
  end.

(** The number an object stands for in arithmetic; [None] is a
    [TypeError]. *)
Definition num (v : pyobject) : option PyFloat.t :=
  match v with
  | VNum x => Some x
  | VBool true => Some PyFloat.one
  | VBool false => Some PyFloat.zero
  | _ => None
  end.

(** [x.get(k, default)]; [None] is the [AttributeError] of an
    object that is no dict. *)
Definition get (x : pyobject) (k : string) (default : pyobject) : option pyobject :=
  match x with
  | VDict d => Some (Dict.get_default d k default)
  | _ => None
  end.

(** [isinstance(x, dict) and k in x] *)
Definition dict_has (x : pyobject) (k : string) : bool :=
  match x with
  | VDict d => Dict.mem d k
  | _ => false
  end.

(** The elements [for h in x] goes through; [None] when [x] is not
    iterable.  A dict yields its keys, a string its characters. *)
Definition iter (x : pyobject) : option (list pyobject) :=
  match x with
  | VList l => Some l
  | VDict d => Some (map VStr (Dict.keys d))
  | VStr s => Some (map (fun c => VStr (String c "")) (list_ascii_of_string s))
  | _ => None
  end.

(** [[x for x in l if p(x)]], where [p] may raise. *)
Fixpoint filter (p : pyobject -> option bool) (l : list pyobject)
  : option (list pyobject) :=
  match l with
  | [] => Some []
  | x :: r =>
      match p x with
      | None => None
      | Some b =>
          match filter p r with
          | None => None
          | Some r' => Some (if b then x :: r' else r')
          end
      end
  end.

(** Stable sorting by a numeric key, with [<] only, as [sorted] and
    [list.sort] do: an element goes before the first one that is not
    smaller than it.  On keys that [<] orders totally (numbers other
    than NaN) a stable sort has one possible result, this one. *)
Fixpoint insert (k : PyFloat.t) (x : pyobject) (l : list (PyFloat.t * pyobject))
  : list (PyFloat.t * pyobject) :=
  match l with
  | [] => [(k, x)]
  | (k', y) :: r =>
      if PyFloat.ltb k' k then (k', y) :: insert k x r
      else (k, x) :: (k', y) :: r
  end.

Fixpoint sort_keyed (l : list (PyFloat.t * pyobject)) : list (PyFloat.t * pyobject) :=
  match l with
  | [] => []
  | (k, x) :: r => insert k x (sort_keyed r)
  end.

(** The keys are computed first, in order; a key that raises, or
    that is no number, makes the call raise. *)
Fixpoint with_keys (key : pyobject -> option PyFloat.t) (l : list pyobject)
  : option (list (PyFloat.t * pyobject)) :=
  match l with
  | [] => Some []
  | x :: r =>
      match key x with
      | None => None
      | Some k =>
          match with_keys key r with
          | None => None
          | Some r' => Some ((k, x) :: r')
          end
      end
  end.

Definition sorted (key : pyobject -> option PyFloat.t) (l : list pyobject)
  : option (list pyobject) :=
  match with_keys key l with
  | None => None
  | Some kl => Some (map snd (sort_keyed kl))
  end.

(** [s.lower()], for the ASCII letters. *)
Definition lower_ascii (c : ascii) : ascii :=
  let n := nat_of_ascii c in
  if (65 <=? n)%nat && (n <=? 90)%nat then ascii_of_nat (n + 32) else c.

Fixpoint lower (s : string) : string :=
  match s with
  | EmptyString => EmptyString
  | String c r => String (lower_ascii c) (lower r)
  end.

(** [sub in s] for two strings. *)
Fixpoint contains (sub s : string) : bool :=
  String.prefix sub s ||
  match s with
  | EmptyString => false
  | String _ r => contains sub r
  end.

(** [list(range(n))] *)
Definition range (n : Z) : list Z := map Z.of_nat (seq 0 (Z.to_nat n)).

(** [min(l, key=key)]: the keys are computed as the elements come, an
    element replaces the best one so far when its key is below with
    [<]; [None] is the [ValueError] of an empty list, or what a key
    raised. *)
Fixpoint min_from (key : pyobject -> option PyFloat.t) (best : pyobject)
  (best_key : PyFloat.t) (l : list pyobject) : option pyobject :=
  match l with
  | [] => Some best
  | x :: r =>
      match key x with
      | None => None
      | Some k =>
          if PyFloat.ltb k best_key then min_from key x k r
          else min_from key best best_key r
      end
  end.

Definition min_by (key : pyobject -> option PyFloat.t) (l : list pyobject)
  : option pyobject :=
  match l with
  | [] => None
  | x :: r =>
      match key x with
      | None => None
      | Some k => min_from key x k r
      end
  end.

End Py.

(** Sequencing of helpers that may raise. *)
Notation "x <- e ;; k" :=
  (match e with Some x => k | None => None end)
  (at level 61, e at next level, right associativity).

(** How a method call ends. *)
Inductive outcome : Type := Returned | Raised.

(** ** state_store.py *)

Module StateStore.

(** The object: [self.filename] plays no part in what follows and the
    file behind it is not modelled; [self.state] is the store. *)
Record self : Type := mk {
  max_history_minutes : Z;
  state : Dict.t pyobject
}.

Definition with_state (s : self) (st : Dict.t pyobject) : self :=
  mk (max_history_minutes s) st.

(** [StateStore(max_history_minutes=...)] when no state file exists. *)
Definition __init__ (max_history_minutes : Z) : self :=
  mk max_history_minutes [].

(** [key.startswith("_") or key == "last_alert_times"] *)
Definition reserved (key : string) : bool :=
  String.prefix "_" key || String.eqb key "last_alert_times".

(** [item.get("timestamp", 0)] as a number *)
Definition timestamp_of (item : pyobject) : option PyFloat.t :=
  ts <- Py.get item "timestamp" (VNum PyFloat.zero) ;; Py.num ts.

(** [item.get("timestamp", 0) >= cutoff_time] *)
Definition fresh_enough (cutoff_time : PyFloat.t) (item : pyobject) : option bool :=
  t <- timestamp_of item ;; Some (t >=? cutoff_time)%py.

(** What one turn of the loop of [_cleanup_old_data] does with
    [self.state[key]]. *)
Inductive cleaned : Type :=
| Keep (data : pyobject)
| Delete
| Fail.

Definition cleanup_data (cutoff_time : PyFloat.t) (data : pyobject) : cleaned :=
  match data with
  | VDict d =>
      if Dict.mem d "history" then
        match Dict.get d "history" with
        | Some (VList history) =>
            match Py.filter (fresh_enough cutoff_time) history with
            | None => Fail
            | Some kept =>
                let d' := Dict.put "history" (VList kept) d in
                if negb (Py.truthy (VList kept)) && negb (Dict.mem d' "latest")
                then Delete
                else Keep (VDict d')
            end
        | _ => Keep data
        end
      else if Dict.mem d "timestamp" then
        match timestamp_of data with
        | None => Fail
        | Some t => if (t <? cutoff_time)%py then Delete else Keep data
        end
      else Keep data
  | _ => Keep data
  end.

(** The loop [for key in list(self.state.keys())]; an exception leaves
    it with the state reached so far. *)
Fixpoint cleanup_loop (cutoff_time : PyFloat.t) (keys : list string)
  (st : Dict.t pyobject) : outcome * Dict.t pyobject :=
  match keys with
  | [] => (Returned, st)
  | key :: rest =>
      if reserved key then cleanup_loop cutoff_time rest st
      else
        match Dict.get st key with
        | None => (Raised, st)
        | Some data =>
            match cleanup_data cutoff_time data with
            | Fail => (Raised, st)
            | Delete => cleanup_loop cutoff_time rest (Dict.del key st)
            | Keep data' => cleanup_loop cutoff_time rest (Dict.put key data' st)
            end
        end
  end.

(** [cutoff_time = current_time - (self.max_history_minutes * 60)] *)
Definition cutoff (s : self) (current_time : PyFloat.t) : PyFloat.t :=
  (current_time - PyFloat.of_Z (max_history_minutes s * 60))%py.

Definition _cleanup_old_data (current_time : PyFloat.t) (s : self)
  : outcome * self :=
  let (o, st) :=
    cleanup_loop (cutoff s current_time) (Dict.keys (state s)) (state s) in
  (o, with_state s st).

(** [save_state]: the clean-up, then the dump to the file; whatever
    is raised is logged and dropped. *)
Definition save_state (current_time : PyFloat.t) (s : self) : self :=
  snd (_cleanup_old_data current_time s).

(** [get_latest(key)]; Python's [None] is [VNone]. *)
Definition get_latest (s : self) (key : string) : option pyobject :=
  match Dict.get (state s) key with
  | None | Some VNone => Some VNone
  | Some data =>
      let direct :=
        if Py.dict_has data "value" && Py.dict_has data "timestamp"
        then Some data else Some VNone in
      if Py.dict_has data "history" then
        history <- Py.get data "history" (VList []) ;;
        if Py.truthy history then
          items <- Py.iter history ;;
          ordered <- Py.sorted timestamp_of items ;;
          latest <- Some (last ordered VNone) ;;
          v <- Py.get latest "value" VNone ;;
          t <- Py.get latest "timestamp" VNone ;;
          Some (VDict [("value", v); ("timestamp", t)])
        else direct
      else direct
  end.

(** [get_history(key, minutes)], the clock read at [current_time]. *)
Definition get_history (s : self) (key : string) (minutes : Z)
  (current_time : PyFloat.t) : option (list pyobject) :=
  match Dict.get (state s) key with
  | None | Some VNone => Some []
  | Some data =>
      let cutoff_time := (current_time - PyFloat.of_Z (minutes * 60))%py in
      if Py.dict_has data "history" then
        history <- Py.get data "history" (VList []) ;;
        items <- Py.iter history ;;
        Py.filter (fresh_enough cutoff_time) items
      else if Py.dict_has data "timestamp" then
        b <- fresh_enough cutoff_time data ;;
        Some (if b then [data] else [])
      else Some []
  end.

Definition entry (v : pyobject) (timestamp : PyFloat.t) : pyobject :=
  VDict [("value", v); ("timestamp", VNum timestamp)].

Definition first_record (v : pyobject) (timestamp : PyFloat.t) : pyobject :=
  VDict [("latest", entry v timestamp);
         ("history", VList [entry v timestamp])].

(** [abs(h.get("timestamp", 0) - timestamp) > 1] *)
Definition apart (timestamp : PyFloat.t) (h : pyobject) : option bool :=
  t <- timestamp_of h ;;
  Some (PyFloat.abs (t - timestamp) >? PyFloat.one)%py.

(** The body of [set] before [self.save_state()]. *)
Definition upsert (key : string) (v : pyobject) (timestamp : PyFloat.t)
  (st : Dict.t pyobject) : outcome * Dict.t pyobject :=
  match Dict.get st key with
  | None => (Returned, Dict.put key (first_record v timestamp) st)
  | Some (VDict d) =>
      let d1 := Dict.put "latest" (entry v timestamp) d in
      let st1 := Dict.put key (VDict d1) st in
      match
        (items <- Py.iter (Dict.get_default d1 "history" (VList [])) ;;
         kept <- Py.filter (apart timestamp) items ;;
         Py.sorted timestamp_of (kept ++ [entry v timestamp]))
      with
      | None => (Raised, st1)
      | Some history =>
          (Returned,
           Dict.put key (VDict (Dict.put "history" (VList history) d1)) st1)
      end
  | Some _ => (Returned, Dict.put key (first_record v timestamp) st)
  end.

(** [set(key, value, timestamp)].  [time_time] is what [time.time()]
    returns on entry, read only when no timestamp is given;
    [current_time] is what it returns in the clean-up. *)
Definition set (key : string) (v : pyobject) (timestamp : option PyFloat.t)
  (time_time current_time : PyFloat.t) (s : self) : outcome * self :=
  let timestamp :=
    match timestamp with Some t => t | None => time_time end in
  match upsert key v timestamp (state s) with
  | (Raised, st) => (Raised, with_state s st)
  | (Returned, st) => (Returned, save_state current_time (with_state s st))
  end.

(** [get_last_alert_time(alert_key)] *)
Definition get_last_alert_time (s : self) (alert_key : string) : option pyobject :=
  match Dict.get (state s) "last_alert_times" with
  | None => Some VNone
  | Some table => Py.get table alert_key VNone
  end.

(** [set_last_alert_time(alert_key, timestamp)], with the two clock
    readings of [set]. *)
Definition set_last_alert_time (alert_key : string)
  (timestamp : option PyFloat.t) (time_time current_time : PyFloat.t)
  (s : self) : outcome * self :=
  let timestamp :=
    match timestamp with Some t => t | None => time_time end in
  let st :=
    if Dict.mem (state s) "last_alert_times" then state s
    else Dict.put "last_alert_times" (VDict []) (state s) in
  match Dict.get st "last_alert_times" with
  | Some (VDict table) =>
      let st' :=
        Dict.put "last_alert_times"
          (VDict (Dict.put alert_key (VNum timestamp) table)) st in
      (Returned, save_state current_time (with_state s st'))
  | _ => (Raised, with_state s st)
  end.

(** [abs(x.get("timestamp", 0) - target_time)] *)
Definition distance (target_time : PyFloat.t) (x : pyobject)
  : option PyFloat.t :=
  t <- timestamp_of x ;; Some (PyFloat.abs (t - target_time))%py.

(** [get_value_at_time(key, target_time)], the clock read at
    [current_time]. *)
Definition get_value_at_time (s : self) (key : string)
  (target_time current_time : PyFloat.t) : option pyobject :=
  history <- get_history s key (max_history_minutes s) current_time ;;
  if negb (Py.truthy (VList history)) then Some VNone
  else
    closest <- Py.min_by (distance target_time) history ;;
    Py.get closest "value" VNone.

End StateStore.

(** ** deribit_client.py *)

Module DeribitClient.

Record OptionPosition : Type := {
  instrument_name : string;
  kind : string;
  direction : string;
  size : PyFloat.t;
  mark_iv : PyFloat.t;
  gamma : PyFloat.t;
  delta : PyFloat.t;
  theta : PyFloat.t;
  vega : PyFloat.t
}.

Record DvolData : Type := {
  value : PyFloat.t;
  timestamp : PyFloat.t;
  iv_percentile : option PyFloat.t
}.

(** The fields of the client that change or that a request carries;
    the URL is a constant of no consequence here. *)
Record self : Type := mk {
  client_id : string;
  client_secret : string;
  token : pyobject;
  token_expires_at : PyFloat.t;
  request_id : Z
}.

Definition with_request_id (c : self) (n : Z) : self :=
  mk (client_id c) (client_secret c) (token c) (token_expires_at c) n.

Definition with_token (c : self) (tok : pyobject) : self :=
  mk (client_id c) (client_secret c) tok (token_expires_at c) (request_id c).

Definition with_token_expires_at (c : self) (t : PyFloat.t) : self :=
  mk (client_id c) (client_secret c) (token c) t (request_id c).

(** What [response.json()] holds when the status is 200: an error
    object that is true, with its code and message, or none, and then
    [result.get("result")]. *)
Inductive body : Type :=
| Error (error_code : Z) (error_msg : string)
| Result (result : pyobject).

(** How one [requests.post] ends: a response, or the clause of
    [_make_request] that catches what it raised, the clauses being
    tried in the order of the source (lines 151-185): [Timeout],
    [SSLError], [RequestException], [json.JSONDecodeError],
    [Exception].  A body that is no JSON makes [response.json()] raise
    [requests.exceptions.JSONDecodeError] since requests 2.27, a
    [RequestException]: that is the reply [RequestException];
    [JSONDecodeError] is an exception of that name that is no
    [RequestException], as [response.json()] raised before. *)
Inductive reply : Type :=
| Response (status_code : Z) (json : body)
| Timeout
| SSLError
| RequestException
| JSONDecodeError
| OtherException.

(** What goes on the wire: the request body and the bearer token of
    the [Authorization] header, when there is one. *)
Record request : Type := {
  method : string;
  params : pyobject;
  id : Z;
  authorization : option pyobject
}.

(** The environment: the reply to the n-th POST of the client, and
    the n-th reading of [time.time()]. *)
Record env : Type := {
  post : nat -> reply;
  time_time : nat -> PyFloat.t
}.

(** What the client has done to the environment so far: the requests
    in the order sent, the waits of [time.sleep], the clock readings. *)
Record net : Type := {
  sent : list request;
  slept : list Z;
  clock_reads : nat
}.

Definition net0 : net := {| sent := []; slept := []; clock_reads := 0 |}.

Definition requests_post (e : env) (r : request) (n : net) : reply * net :=
  (post e (List.length (sent n)),
   {| sent := sent n ++ [r]; slept := slept n; clock_reads := clock_reads n |}).

Definition time_sleep (wait_time : Z) (n : net) : net :=
  {| sent := sent n; slept := slept n ++ [wait_time];
     clock_reads := clock_reads n |}.

Definition read_clock (e : env) (n : net) : PyFloat.t * net :=
  (time_time e (clock_reads n),
   {| sent := sent n; slept := slept n; clock_reads := S (clock_reads n) |}).

Definition _get_next_request_id (c : self) : Z * self :=
  let c' := with_request_id c (request_id c + 1) in
  (request_id c', c').

(** [method_name.startswith("private/")] *)
Definition is_private (method_name : string) : bool :=
  String.prefix "private/" method_name.

(** [error_code in (13009, 13000) and "unauthorized" in error_msg.lower()] *)
Definition is_auth_error (error_code : Z) (error_msg : string) : bool :=
  ((error_code =? 13009) || (error_code =? 13000))%Z
  && Py.contains "unauthorized" (Py.lower error_msg).

(** The loop [for attempt in range(retry_times)] of [_make_request].
    [authenticate] is the method of that name; [authorization] is
    the header as it stands.  [None] is an exception that leaves
    the method, [Some VNone] its [return None]. *)
Fixpoint attempts
  (authenticate : self * net -> option bool * (self * net)) (e : env)
  (method_name : string) (params : pyobject) (id : Z) (retry_times : Z)
  (range : list Z) (authorization : option pyobject) (s : self * net)
  : option pyobject * (self * net) :=
  match range with
  | [] => (Some VNone, s)
  | attempt :: rest =>
      let next := attempts authenticate e method_name params id retry_times rest in
      let '(c, n) := s in
      let '(r, n1) :=
        requests_post e
          {| method := method_name; params := params; id := id;
             authorization := authorization |} n in
      (* [if attempt < retry_times - 1: time.sleep(wait_time); continue] *)
      let retry (wait_time : Z) (s' : self * net) :=
        if (attempt <? retry_times - 1)%Z
        then next authorization (fst s', time_sleep wait_time (snd s'))
        else next authorization s' in
      match r with
      | Response status_code json =>
          if (status_code =? 200)%Z then
            match json with
            | Error error_code error_msg =>
                if is_auth_error error_code error_msg
                   && is_private method_name
                then
                  match authenticate (c, n1) with
                  | (None, s2) => retry (2 ^ attempt)%Z s2
                  | (Some false, s2) => (Some VNone, s2)
                  | (Some true, s2) =>
                      if (attempt <? retry_times - 1)%Z
                      then next (Some (token (fst s2))) s2
                      else (Some VNone, s2)
                  end
                else (Some VNone, (c, n1))
            | Result result => (Some result, (c, n1))
            end
          else retry (2 ^ attempt)%Z (c, n1)
      | Timeout => retry (2 ^ attempt)%Z (c, n1)
      | SSLError => retry (3 + 2 ^ attempt)%Z (c, n1)
      | RequestException => retry (2 ^ attempt)%Z (c, n1)
      | JSONDecodeError => (Some VNone, (c, n1))
      | OtherException => retry (2 ^ attempt)%Z (c, n1)
      end
  end.

(** [_make_request(method_name, params, retry_times)], given the
    method [authenticate] it calls. *)
Definition _make_request_with
  (authenticate : self * net -> option bool * (self * net)) (e : env)
  (method_name : string) (params : pyobject) (retry_times : Z)
  (s : self * net) : option pyobject * (self * net) :=
  let send (authorization : option pyobject) (s : self * net) :=
    let '(request_id, c) := _get_next_request_id (fst s) in
    attempts authenticate e method_name params request_id retry_times
      (Py.range retry_times) authorization (c, snd s) in
  if is_private method_name then
    (* [not self.token or time.time() >= self.token_expires_at] *)
    let '(stale, n) :=
      if negb (Py.truthy (token (fst s))) then (true, snd s)
      else
        let '(now, n) := read_clock e (snd s) in
        ((now >=? token_expires_at (fst s))%py, n) in
    if stale then
      match authenticate (fst s, n) with
      | (None, s') => (None, s')
      | (Some false, s') => (Some VNone, s')
      | (Some true, s') => send (Some (token (fst s'))) s'
      end
    else send (Some (token (fst s))) (fst s, n)
  else send None s.

(** [authenticate] is never called below a method that is not private;
    this stands for it there. *)
Definition unreachable_authenticate (s : self * net)
  : option bool * (self * net) := (Some false, s).

Definition auth_params (c : self) : pyobject :=
  VDict [("grant_type", VStr "client_credentials");
         ("client_id", VStr (client_id c));
         ("client_secret", VStr (client_secret c))].

(** [authenticate()]; its request is [public/auth], sent once. *)
Definition authenticate (e : env) (s : self * net)
  : option bool * (self * net) :=
  match
    _make_request_with unreachable_authenticate e "public/auth"
      (auth_params (fst s)) 1 s
  with
  | (None, s') => (None, s')
  | (Some result, (c, n)) =>
      if Py.truthy result then
        match Py.get result "access_token" VNone with
        | None => (None, (c, n))
        | Some access_token =>
            let c := with_token c access_token in
            match Py.get result "expires_in" (VNum (PyFloat.of_Z 3600)) with
            | None => (None, (c, n))
            | Some expires_in =>
                let '(now, n) := read_clock e n in
                match Py.num expires_in with
                | None => (None, (c, n))
                | Some x =>
                    (Some true,
                     (with_token_expires_at c
                        ((now + x) - PyFloat.of_Z 60)%py, n))
                end
            end
        end
      else (Some false, (c, n))
  end.

(** [_make_request(method_name, params, retry_times=3)] *)
Definition _make_request (e : env) (method_name : string) (params : pyobject)
  (retry_times : Z) (s : self * net) : option pyobject * (self * net) :=
  _make_request_with (authenticate e) e method_name params retry_times s.

Definition default_retry_times : Z := 3.

(** [DeribitClient(client_id, client_secret)] *)
Definition __init__ (e : env) (client_id client_secret : string) (n : net)
  : option bool * (self * net) :=
  authenticate e (mk client_id client_secret VNone PyFloat.zero 0, n).

(** *** What the client makes of the answers *)

(** Python's reading of text as a number, and the formatting of a
    local time: built-ins that are part of the environment.
    [fromtimestamp_ok t] says whether
    [dt.fromtimestamp(t).strftime(...)] returns. *)
Record builtins : Type := {
  str_float : string -> option PyFloat.t;
  str_int : string -> option Z;
  fromtimestamp_ok : PyFloat.t -> bool
}.

(** [float(x)]; [None] is its [TypeError] or [ValueError]. *)
Definition float_ (b : builtins) (x : pyobject) : option PyFloat.t :=
  match x with
  | VNum v => Some v
  | VBool true => Some PyFloat.one
  | VBool false => Some PyFloat.zero
  | VStr s => str_float b s
  | _ => None
  end.

(** The integer part of a float, towards zero; none for NaN and the
    infinities. *)
Definition trunc (x : PyFloat.t) : option Z :=
  match x with
  | S754_zero _ => Some 0
  | S754_finite s m e =>
      Some (cond_Zopp s
              (if (0 <=? e)%Z then Z.pos m * 2 ^ e else Z.pos m / 2 ^ (- e)))
  | _ => None
  end.

(** [int(x)] *)
Definition int_ (b : builtins) (x : pyobject) : option Z :=
  match x with
  | VNum v => trunc v
  | VBool true => Some 1
  | VBool false => Some 0
  | VStr s => str_int b s
  | _ => None
  end.

(** [x or y] *)
Definition or_ (x y : pyobject) : pyobject := if Py.truthy x then x else y.

(** [isinstance(x, dict)] *)
Definition is_dict (x : pyobject) : bool :=
  match x with VDict _ => true | _ => false end.

(** [k in x] for a string [k]: a key of a dict, an element of a list,
    a part of a string; [None] is the [TypeError] of the rest. *)
Definition py_in (k : string) (x : pyobject) : option bool :=
  match x with
  | VDict d => Some (Dict.mem d k)
  | VList l =>
      Some (existsb (fun y => match y with
                              | VStr s => String.eqb s k
                              | _ => false
                              end) l)
  | VStr s => Some (Py.contains k s)
  | _ => None
  end.

(** [float(d.get(k, 0) or 0)] *)
Definition float_or_0 (b : builtins) (d : pyobject) (k : string)
  : option PyFloat.t :=
  v <- Py.get d k (VNum PyFloat.zero) ;;
  float_ b (or_ v (VNum PyFloat.zero)).

(** The threshold [1e-8] below which a size or a Greek counts as zero. *)
Definition tiny : PyFloat.t := float:(1e-8).

(** An [OptionPosition] as [get_account_option_positions] builds it.
    The dataclass does not check its fields: the name and the kind
    are whatever the exchange sent. *)
Record untyped_position : Type := {
  u_instrument_name : pyobject;
  u_kind : pyobject;
  u_direction : string;
  u_size : PyFloat.t;
  u_mark_iv : PyFloat.t;
  u_gamma : PyFloat.t;
  u_delta : PyFloat.t;
  u_theta : PyFloat.t;
  u_vega : PyFloat.t
}.

(** The position with its fields typed as the dataclass declares
    them, when the name and the kind are strings. *)
Definition typed (p : untyped_position) : option OptionPosition :=
  match u_instrument_name p, u_kind p with
  | VStr name, VStr k =>
      Some {| instrument_name := name; kind := k;
              direction := u_direction p; size := u_size p;
              mark_iv := u_mark_iv p; gamma := u_gamma p;
              delta := u_delta p; theta := u_theta p; vega := u_vega p |}
  | _, _ => None
  end.

(** The Greeks read off the position itself (lines 254-273):
    [(mark_iv, gamma, delta, theta, vega)], each from the position
    and, when that is below [1e-8] in magnitude, from its [greeks]
    dict if it has one. *)
Definition own_greeks (b : builtins) (pos : pyobject)
  : option (PyFloat.t * PyFloat.t * PyFloat.t * PyFloat.t * PyFloat.t) :=
  mark_iv <- float_or_0 b pos "mark_iv" ;;
  gamma <- float_or_0 b pos "gamma" ;;
  delta <- float_or_0 b pos "delta" ;;
  theta <- float_or_0 b pos "theta" ;;
  vega <- float_or_0 b pos "vega" ;;
  greeks <- Py.get pos "greeks" (VDict []) ;;
  if Py.truthy greeks && is_dict greeks then
    let again (x : PyFloat.t) (k : string) :=
      if (PyFloat.abs x <? tiny)%py then float_or_0 b greeks k else Some x in
    gamma <- again gamma "gamma" ;;
    delta <- again delta "delta" ;;
    theta <- again theta "theta" ;;
    vega <- again vega "vega" ;;
    Some (mark_iv, gamma, delta, theta, vega)
  else Some (mark_iv, gamma, delta, theta, vega).

(** The Gamma and the Vega of the position once the order book has
    been asked (lines 282-323): those of one contract times the size
    when the order book gives them, the magnitudes of the position's
    own otherwise. *)
Definition total_greeks (b : builtins) (order_book : pyobject)
  (size gamma vega : PyFloat.t) : option (PyFloat.t * PyFloat.t) :=
  has_greeks <-
    (if Py.truthy order_book then py_in "greeks" order_book else Some false) ;;
  if has_greeks then
    greeks_from_orderbook <- Py.get order_book "greeks" (VDict []) ;;
    if Py.dict_has greeks_from_orderbook "gamma" then
      gamma_per_unit <- float_or_0 b greeks_from_orderbook "gamma" ;;
      vega_per_unit <- float_or_0 b greeks_from_orderbook "vega" ;;
      if (PyFloat.abs size >? tiny)%py
      then Some (PyFloat.abs gamma_per_unit * PyFloat.abs size,
                 PyFloat.abs vega_per_unit * PyFloat.abs size)%py
      else Some (PyFloat.abs gamma_per_unit, PyFloat.abs vega_per_unit)
    else Some (PyFloat.abs gamma, PyFloat.abs vega)
  else Some (PyFloat.abs gamma, PyFloat.abs vega).

Definition order_book_params (instrument_name : pyobject) : pyobject :=
  VDict [("instrument_name", instrument_name); ("depth", VNum PyFloat.one)].

(** One turn of the loop over the positions: [Some None] is its
    [continue], for a size below [1e-8] in magnitude. *)
Definition position_of (b : builtins) (e : env) (kind : string)
  (pos : pyobject) (s : self * net)
  : option (option untyped_position) * (self * net) :=
  match
    (size <- (v <- Py.get pos "size" (VNum PyFloat.zero) ;; float_ b v) ;;
     if (PyFloat.abs size <? tiny)%py then Some None
     else
       instrument_name <- Py.get pos "instrument_name" (VStr "") ;;
       greeks <- own_greeks b pos ;;
       Some (Some (size, instrument_name, greeks)))
  with
  | None => (None, s)
  | Some None => (Some None, s)
  | Some (Some (size, instrument_name, (mark_iv, gamma, delta, theta, vega))) =>
      match
        _make_request e "public/get_order_book"
          (order_book_params instrument_name) default_retry_times s
      with
      | (None, s') => (None, s')
      | (Some order_book, s') =>
          match
            (totals <- total_greeks b order_book size gamma vega ;;
             k <- Py.get pos "kind" (VStr kind) ;;
             Some (totals, k))
          with
          | None => (None, s')
          | Some ((gamma_total, vega_total), k) =>
              (Some (Some
                 {| u_instrument_name := instrument_name;
                    u_kind := k;
                    u_direction :=
                      if (size >? PyFloat.zero)%py then "buy" else "sell";
                    u_size := PyFloat.abs size;
                    u_mark_iv := mark_iv;
                    u_gamma := gamma_total;
                    u_delta := delta;
                    u_theta := theta;
                    u_vega := vega_total |}), s')
          end
      end
  end.

(** The loop [for pos in result]. *)
Fixpoint collect_positions (b : builtins) (e : env) (kind : string)
  (result : list pyobject) (s : self * net)
  : option (list untyped_position) * (self * net) :=
  match result with
  | [] => (Some [], s)
  | pos :: rest =>
      match position_of b e kind pos s with
      | (None, s') => (None, s')
      | (Some p, s') =>
          match collect_positions b e kind rest s' with
          | (None, s'') => (None, s'')
          | (Some positions, s'') =>
              (Some match p with
                    | Some position => position :: positions
                    | None => positions
                    end, s'')
          end
      end
  end.

Definition get_positions_params (currency kind : string) : pyobject :=
  VDict [("currency", VStr currency); ("kind", VStr kind)].

(** [if not isinstance(result, list): result = [result]] *)
Definition as_list (result : pyobject) : list pyobject :=
  match result with VList l => l | _ => [result] end.

(** [get_account_option_positions(currency, kind)] *)
Definition get_account_option_positions (b : builtins) (e : env)
  (currency kind : string) (s : self * net)
  : option (list untyped_position) * (self * net) :=
  match
    _make_request e "private/get_positions"
      (get_positions_params currency kind) default_retry_times s
  with
  | (None, s') => (None, s')
  | (Some VNone, s') => (Some [], s')
  | (Some result, s') => collect_positions b e kind (as_list result) s'
  end.

(** [order_kind != kind] *)
Definition differs (order_kind : pyobject) (kind : string) : bool :=
  match order_kind with
  | VStr k => negb (String.eqb k kind)
  | _ => true
  end.

(** The dict [get_open_orders] makes of an order. *)
Definition order_info (b : builtins) (order order_kind : pyobject)
  : option pyobject :=
  order_id <- Py.get order "order_id" (VStr "") ;;
  instrument_name <- Py.get order "instrument_name" (VStr "") ;;
  direction <- Py.get order "direction" (VStr "") ;;
  price <- (v <- Py.get order "price" (VNum PyFloat.zero) ;; float_ b v) ;;
  amount <- (v <- Py.get order "amount" (VNum PyFloat.zero) ;; float_ b v) ;;
  filled <-
    (v <- Py.get order "filled_amount" (VNum PyFloat.zero) ;; float_ b v) ;;
  order_type <- Py.get order "order_type" (VStr "") ;;
  order_state <- Py.get order "order_state" (VStr "") ;;
  time_in_force <- Py.get order "time_in_force" (VStr "") ;;
  creation_timestamp <-
    Py.get order "creation_timestamp" (VNum PyFloat.zero) ;;
  last_update_timestamp <-
    Py.get order "last_update_timestamp" (VNum PyFloat.zero) ;;
  Some (VDict [("order_id", order_id);
               ("instrument_name", instrument_name);
               ("direction", direction);
               ("price", VNum price);
               ("amount", VNum amount);
               ("filled", VNum filled);
               ("remaining", VNum (amount - filled)%py);
               ("order_type", order_type);
               ("order_state", order_state);
               ("time_in_force", time_in_force);
               ("kind", order_kind);
               ("creation_timestamp", creation_timestamp);
               ("last_update_timestamp", last_update_timestamp)]).

(** The loop [for order in result] of [get_open_orders]; [kind] is
    [None] when the argument is [None]. *)
Fixpoint collect_orders (b : builtins) (kind : option string)
  (result : list pyobject) : option (list pyobject) :=
  match result with
  | [] => Some []
  | order :: rest =>
      order_kind <- Py.get order "kind" (VStr "") ;;
      let skip :=
        match kind with
        | Some k => negb (String.eqb k "") && differs order_kind k
        | None => false
        end in
      if skip then collect_orders b kind rest
      else
        info <- order_info b order order_kind ;;
        orders <- collect_orders b kind rest ;;
        Some (info :: orders)
  end.

(** [get_open_orders(currency, kind)] *)
Definition get_open_orders (b : builtins) (e : env) (currency : string)
  (kind : option string) (s : self * net)
  : option (list pyobject) * (self * net) :=
  match
    _make_request e "private/get_open_orders_by_currency"
      (VDict [("currency", VStr currency)]) default_retry_times s
  with
  | (None, s') => (None, s')
  | (Some VNone, s') => (Some [], s')
  | (Some result, s') => (collect_orders b kind (as_list result), s')
  end.

(** [int(time.time() * 1000)] *)
Definition now_ms (e : env) (n : net) : option Z * net :=
  let '(now, n') := read_clock e n in
  (trunc (now * PyFloat.of_Z 1000)%py, n').

Definition ms_per_day : Z := 24 * 60 * 60 * 1000.

(** The parameters of [public/get_volatility_index_data].  The two
    timestamps are Python integers; they are carried as the floats
    that equal them, as every number of a JSON value is here, which
    is exact below 2^53. *)
Definition dvol_params (currency : string) (start_timestamp end_timestamp : Z)
  (resolution : string) : pyobject :=
  VDict [("currency", VStr currency);
         ("start_timestamp", VNum (PyFloat.of_Z start_timestamp));
         ("end_timestamp", VNum (PyFloat.of_Z end_timestamp));
         ("resolution", VStr resolution)].

(** [f"{x:.2f}"] goes through for a number and raises for the rest. *)
Definition formats (x : pyobject) : bool :=
  match x with VNum _ | VBool _ => true | _ => false end.

(** [timestamp_ms / 1000.0] for an integer; [None] is the
    [OverflowError] of an integer beyond the floats. *)
Definition ms_to_seconds (timestamp_ms : Z) : option PyFloat.t :=
  let x := PyFloat.of_Z timestamp_ms in
  if PyFloat.is_finite x then Some (x / PyFloat.of_Z 1000)%py else None.

(** What [get_btc_dvol] reads off the latest data point (lines
    462-484): [Some None] is its [return None], [None] an
    exception. *)
Definition candle_reading (b : builtins) (latest : pyobject)
  : option (option DvolData) :=
  match latest with
  | VList candle =>
      if (Z.of_nat (List.length candle) <? 5)%Z then Some None
      else
        timestamp_ms <- int_ b (nth 0 candle VNone) ;;
        dvol_value <- float_ b (nth 4 candle VNone) ;;
        timestamp <- ms_to_seconds timestamp_ms ;;
        if fromtimestamp_ok b timestamp
           && formats (nth 1 candle VNone) && formats (nth 2 candle VNone)
           && formats (nth 3 candle VNone) && formats (nth 4 candle VNone)
        then Some (Some {| value := dvol_value; timestamp := timestamp;
                           iv_percentile := None |})
        else None
  | _ => Some None
  end.

(** The branch [isinstance(result, dict)] (lines 454-484). *)
Definition dict_reading (b : builtins) (result : pyobject)
  : option (option DvolData) :=
  data_array <- Py.get result "data" (VList []) ;;
  if negb (Py.truthy data_array) then Some None
  else
    match data_array with
    | VList l => candle_reading b (last l VNone)
    | VStr _ => Some None
    | _ => None
    end.

(** The branch [isinstance(result, list)] (lines 485-502) for a list
    that is not empty. *)
Definition legacy_reading (b : builtins) (e : env) (result : list pyobject)
  (n : net) : option (option DvolData) * net :=
  match last result VNone with
  | VDict latest =>
      let dvol_value :=
        or_ (Dict.get_default latest "volatility" VNone)
            (Dict.get_default latest "value" VNone) in
      match now_ms e n with
      | (None, n1) => (None, n1)
      | (Some default, n1) =>
          let timestamp_ms :=
            Dict.get_default latest "timestamp" (VNum (PyFloat.of_Z default)) in
          match dvol_value with
          | VNone => (Some None, n1)
          | _ =>
              match Py.num timestamp_ms with
              | None => (None, n1)
              | Some ms =>
                  let '(timestamp, n2) :=
                    if (ms >? PyFloat.of_Z 1000000000000)%py
                    then ((ms / PyFloat.of_Z 1000)%py, n1)
                    else read_clock e n1 in
                  match float_ b dvol_value with
                  | None => (None, n2)
                  | Some x =>
                      (Some (Some {| value := x; timestamp := timestamp;
                                     iv_percentile := None |}), n2)
                  end
              end
          end
      end
  | _ => (Some None, n)
  end.

(** What [get_btc_dvol] makes of the result of its request. *)
Definition dvol_reading (b : builtins) (e : env) (result : pyobject) (n : net)
  : option (option DvolData) * net :=
  if negb (Py.truthy result) then (Some None, n)
  else
    match result with
    | VDict _ => (dict_reading b result, n)
    | VList l => legacy_reading b e l n
    | _ => (Some None, n)
    end.

(** [get_btc_dvol()] *)
Definition get_btc_dvol (b : builtins) (e : env) (s : self * net)
  : option (option DvolData) * (self * net) :=
  match now_ms e (snd s) with
  | (None, n) => (None, (fst s, n))
  | (Some end_timestamp, n) =>
      let start_timestamp := (end_timestamp - 2 * ms_per_day)%Z in
      match
        _make_request e "public/get_volatility_index_data"
          (dvol_params "BTC" start_timestamp end_timestamp "1H")
          default_retry_times (fst s, n)
      with
      | (None, s') => (None, s')
      | (Some result, (c, n')) =>
          let '(reading, n'') := dvol_reading b e result n' in
          (reading, (c, n''))
      end
  end.

(** [get_dvol_history(currency, start_timestamp, end_timestamp,
    resolution)]; a timestamp is [None] when the argument is. *)
Definition get_dvol_history (e : env) (currency : string)
  (start_timestamp end_timestamp : option Z) (resolution : string)
  (s : self * net) : option (list pyobject) * (self * net) :=
  let '(end_timestamp, n) :=
    match end_timestamp with
    | Some t => (Some t, snd s)
    | None => now_ms e (snd s)
    end in
  match end_timestamp with
  | None => (None, (fst s, n))
  | Some end_timestamp =>
      let start_timestamp :=
        match start_timestamp with
        | Some t => t
        | None => (end_timestamp - 30 * ms_per_day)%Z
        end in
      match
        _make_request e "public/get_volatility_index_data"
          (dvol_params currency start_timestamp end_timestamp resolution)
          default_retry_times (fst s, n)
      with
      | (None, s') => (None, s')
      | (Some result, s') =>
          (Some (if negb (Py.truthy result) then []
                 else match result with
                      | VList l => l
                      | VDict _ => [result]
                      | _ => []
                      end), s')
      end
  end.

End DeribitClient.

(** ** notifier.py *)

Module Notifier.

(** How the POST to the webhook ends: a response, with the value of
    [response.json()] or none when that raises, or the clause of
    [send_feishu_alert] that catches what was raised. *)
Inductive reply : Type :=
| Response (status_code : Z) (json : option pyobject)
| Timeout
| RequestException
| OtherException.

(** The environment: the reply to the n-th POST, and Python's [str]
    of a value that is no string. *)
Record env : Type := {
  post : nat -> reply;
  str : pyobject -> string
}.

(** What goes to the webhook. *)
Record request : Type := {
  url : string;
  json : pyobject
}.

Definition newline : string := String (ascii_of_nat 10) "".

(** [f"{value}"] *)
Definition str_ (e : env) (value : pyobject) : string :=
  match value with
  | VStr s => s
  | _ => str e value
  end.

(** The loop [for key, value in detail.items()]. *)
Fixpoint detail_lines (e : env) (detail : Dict.t pyobject) : string :=
  match detail with
  | [] => ""
  | (key, value) :: rest =>
      newline ++ key ++ ": " ++ str_ e value ++ detail_lines e rest
  end.

(** [full_message]; [detail] is [None] when the argument is. *)
Definition full_message (e : env) (title message : string)
  (detail : option (Dict.t pyobject)) : string :=
  title ++ newline ++ newline ++ message
  ++ match detail with
     | Some (binding :: rest) =>
         newline ++ newline ++ "详细信息：" ++ detail_lines e (binding :: rest)
     | _ => ""
     end.

Definition payload (text : string) : pyobject :=
  VDict [("msg_type", VStr "text"); ("content", VDict [("text", VStr text)])].

(** [x == 0] *)
Definition equals_zero (x : pyobject) : bool :=
  match x with
  | VNum v => PyFloat.eqb v PyFloat.zero
  | VBool b => negb b
  | _ => false
  end.

(** [send_feishu_alert(title, message, webhook_url, detail)], given
    the requests sent so far. *)
Definition send_feishu_alert (e : env) (title message webhook_url : string)
  (detail : option (Dict.t pyobject)) (sent : list request)
  : bool * list request :=
  if String.eqb webhook_url "" then (false, sent)
  else
    (match post e (List.length sent) with
     | Response status_code (Some result) =>
         if (status_code =? 200)%Z then
           match Py.get result "code" VNone with
           | Some code => equals_zero code
           | None => false
           end
         else false
     | _ => false
     end,
     (sent ++ [{| url := webhook_url;
                  json := payload (full_message e title message detail) |}])%list).

End Notifier.

(** ** notifier.py and monitor.py *)

Module Monitor.

(** [self.option_thresholds.get("gamma", {})] and its like: the three
    levels, each present or not. *)
Record levels : Type := {
  level_1_light : option PyFloat.t;
  level_2_medium : option PyFloat.t;
  level_3_heavy : option PyFloat.t
}.

(** [self.dvol_thresholds.get("dvol_value", {})] *)
Record dvol_value : Type := {
  abs_threshold : option PyFloat.t;
  pct_change_5m : option PyFloat.t;
  abs_change_5m : option PyFloat.t;
  specific_values : list PyFloat.t;
  specific_value_tolerance : option PyFloat.t
}.

(** The monitor object: what [__init__] takes from the configuration.
    The store and the client are in the world below. *)
Record self : Type := {
  feishu_webhook_url : string;
  enable_alert : bool;
  cooldown_seconds : PyFloat.t;
  gamma_thresholds : levels;
  vega_thresholds : levels;
  dvol_value_thresholds : dvol_value
}.

(** [d.get(name, default)] on a configuration section *)
Definition or_default (x : option PyFloat.t) (default : PyFloat.t) : PyFloat.t :=
  match x with Some v => v | None => default end.

(** [config.get("alert", {}).get("cooldown_seconds", 300)] *)
Definition default_cooldown_seconds : PyFloat.t := PyFloat.of_Z 300.

(** The environment: the n-th reading of [time.time()]; whether the
    webhook acknowledges the n-th alert handed to [send_feishu_alert]
    (status 200 and code 0); Python's [str] of a number, which is not
    modelled and only names the specific-value alert. *)
Record env : Type := {
  time_time : nat -> PyFloat.t;
  feishu : nat -> bool;
  str_of : PyFloat.t -> string
}.

(** One call of [send_feishu_alert]: the key of the alert it was made
    for, the time of the cycle, what the call returned. *)
Record alert : Type := {
  alert_key : string;
  current_time : PyFloat.t;
  success : bool
}.

Record world : Type := {
  state_store : StateStore.self;
  clock_reads : nat;
  alerts : list alert
}.

(** Methods: they change the world and return, or raise. *)
Definition M (A : Type) : Type := world -> option A * world.

Definition ret {A : Type} (a : A) : M A := fun w => (Some a, w).

Definition raise {A : Type} : M A := fun w => (None, w).

Definition bind {A B : Type} (m : M A) (k : A -> M B) : M B :=
  fun w =>
    match m w with
    | (Some a, w') => k a w'
    | (None, w') => (None, w')
    end.

Definition lift {A : Type} (o : option A) : M A := fun w => (o, w).

Notation "'let*' x ':=' m 'in' k" := (bind m (fun x => k))
  (at level 10, x name, m at level 100, k at level 200).
Notation "m ';;;' k" := (bind m (fun _ => k))
  (at level 100, k at level 200, right associativity).

Definition time_time_ (e : env) : M PyFloat.t :=
  fun w =>
    (Some (time_time e (clock_reads w)),
     {| state_store := state_store w; clock_reads := S (clock_reads w);
        alerts := alerts w |}).

(** A method of the store that reads the clock once. *)
Definition on_store (e : env)
  (f : PyFloat.t -> StateStore.self -> outcome * StateStore.self) : M unit :=
  let* now := time_time_ e in
  fun w =>
    let '(o, s) := f now (state_store w) in
    (match o with Returned => Some tt | Raised => None end,
     {| state_store := s; clock_reads := clock_reads w; alerts := alerts w |}).

(** [self.state_store.set(key, value, timestamp)] *)
Definition state_store_set (e : env) (key : string) (v : pyobject)
  (timestamp : PyFloat.t) : M unit :=
  on_store e (fun now => StateStore.set key v (Some timestamp) now now).

(** [self.state_store.set_last_alert_time(alert_key, timestamp)] *)
Definition state_store_set_last_alert_time (e : env) (alert_key : string)
  (timestamp : PyFloat.t) : M unit :=
  on_store e
    (fun now => StateStore.set_last_alert_time alert_key (Some timestamp) now now).

(** [self.state_store.get_history(key, minutes)] *)
Definition state_store_get_history (e : env) (key : string) (minutes : Z)
  : M (list pyobject) :=
  let* now := time_time_ e in
  fun w => (StateStore.get_history (state_store w) key minutes now, w).

(** [send_feishu_alert(title, message, webhook_url, detail)]: [False]
    without a URL, else what the webhook answers. *)
Definition send_feishu_alert (e : env) (webhook_url : string)
  (key : string) (now : PyFloat.t) : M bool :=
  fun w =>
    let ok :=
      if String.eqb webhook_url "" then false
      else feishu e (List.length (alerts w)) in
    (Some ok,
     {| state_store := state_store w; clock_reads := clock_reads w;
        alerts := (alerts w ++ [{| alert_key := key; current_time := now;
                                   success := ok |}])%list |}).

(** [_should_alert(alert_key, current_time)] *)
Definition _should_alert (m : self) (key : string) (now : PyFloat.t) : M bool :=
  let* last_alert_time :=
    (fun w => (StateStore.get_last_alert_time (state_store w) key, w)) in
  match last_alert_time with
  | VNone => ret true
  | _ =>
      let* last := lift (Py.num last_alert_time) in
      ret ((now - last) >=? cooldown_seconds m)%py
  end.

(** What every alert of the monitor does once its rule has matched:
    the cool-down check, the delivery when alerts are enabled, the
    record of the firing time when the delivery succeeded.  The
    source writes this sequence out five times, the same but for the
    key and the text of the message: lines 198-232 (Gamma), 269-303
    (Vega), 385-411, 417-441 and 447-470 (the three alerts of the
    index). *)
Definition fire (e : env) (m : self) (key : string) (now : PyFloat.t) : M unit :=
  let* ok := _should_alert m key now in
  if negb ok then ret tt
  else if enable_alert m then
    let* sent := send_feishu_alert e (feishu_webhook_url m) key now in
    if sent then state_store_set_last_alert_time e key now else ret tt
  else ret tt.

Inductive severity : Type := Light | Medium | Heavy.

(** [alert_severity]: the Chinese words for heavy, medium, light. *)
Definition severity_name (s : severity) : string :=
  match s with
  | Heavy => "重度"
  | Medium => "中度"
  | Light => "轻度"
  end.

(** The [if]/[elif] chain of [_check_gamma_levels] (lines 184-192)
    and of [_check_vega_threshold] (lines 255-263):
    [(alert_level, alert_severity)], or nothing when both stay
    [None]. *)
Definition alert_level (x level_1 level_2 level_3 : PyFloat.t)
  : option (PyFloat.t * severity) :=
  if (x >=? level_3)%py then Some (level_3, Heavy)
  else if (x >=? level_2)%py then Some (level_2, Medium)
  else if (x >=? level_1)%py then Some (level_1, Light)
  else None.

(** The two level checks differ in the metric, its name in the key
    and the defaults of the thresholds only. *)
Definition check_levels (e : env) (m : self) (metric : string)
  (instrument : string) (x level_1 level_2 level_3 : PyFloat.t)
  (now : PyFloat.t) : M unit :=
  match alert_level x level_1 level_2 level_3 with
  | None => ret tt
  | Some (_, sev) =>
      fire e m (instrument ++ "_" ++ metric ++ "_level_" ++ severity_name sev) now
  end.

Definition _check_gamma_levels (e : env) (m : self)
  (position : DeribitClient.OptionPosition) (now : PyFloat.t) : M unit :=
  let gamma_value := PyFloat.abs (DeribitClient.gamma position) in
  let t := gamma_thresholds m in
  check_levels e m "gamma" (DeribitClient.instrument_name position) gamma_value
    (or_default (level_1_light t) float:(0.0001))
    (or_default (level_2_medium t) float:(0.0005))
    (or_default (level_3_heavy t) float:(0.001)) now.

Definition _check_vega_threshold (e : env) (m : self)
  (position : DeribitClient.OptionPosition) (now : PyFloat.t) : M unit :=
  let vega_value := PyFloat.abs (DeribitClient.vega position) in
  let t := vega_thresholds m in
  check_levels e m "vega" (DeribitClient.instrument_name position) vega_value
    (or_default (level_1_light t) float:(10.0))
    (or_default (level_2_medium t) float:(30.0))
    (or_default (level_3_heavy t) float:(50.0)) now.

(** The value [_check_positions] stores for a position. *)
Definition position_record (position : DeribitClient.OptionPosition) : pyobject :=
  VDict [("gamma", VNum (DeribitClient.gamma position));
         ("vega", VNum (DeribitClient.vega position));
         ("delta", VNum (DeribitClient.delta position));
         ("direction", VStr (DeribitClient.direction position));
         ("size", VNum (DeribitClient.size position))].

(** [sorted(history_5m, key=lambda x: abs(x.get("timestamp", 0) - target_time))] *)
Definition nearest_first (target_time : PyFloat.t) (history : list pyobject)
  : option (list pyobject) :=
  Py.sorted
    (fun x => t <- StateStore.timestamp_of x ;;
              Some (PyFloat.abs (t - target_time))%py)
    history.

(** One turn of the loop of [_check_positions]. *)
Definition check_position (e : env) (m : self)
  (position : DeribitClient.OptionPosition) (now : PyFloat.t) : M unit :=
  let instrument_name := DeribitClient.instrument_name position in
  let first_time :=
    state_store_set e instrument_name (position_record position) now ;;;
    _check_gamma_levels e m position now ;;;
    _check_vega_threshold e m position now in
  let* history_5m := state_store_get_history e instrument_name 5 in
  if negb (Py.truthy (VList history_5m)) then first_time
  else
    let target_time := (now - PyFloat.of_Z (5 * 60))%py in
    let* history_sorted := lift (nearest_first target_time history_5m) in
    if negb (Py.truthy (VList history_sorted)) then first_time
    else
      _check_gamma_levels e m position now ;;;
      _check_vega_threshold e m position now ;;;
      state_store_set e instrument_name (position_record position) now.

Fixpoint _check_positions (e : env) (m : self)
  (positions : list DeribitClient.OptionPosition) (now : PyFloat.t) : M unit :=
  match positions with
  | [] => ret tt
  | position :: rest =>
      check_position e m position now ;;; _check_positions e m rest now
  end.

(** [pct_change] and [abs_change] of [_check_dvol] *)
Definition pct_change (current_dvol previous_dvol : PyFloat.t) : PyFloat.t :=
  if (previous_dvol ==? PyFloat.zero)%py then PyFloat.zero
  else ((current_dvol - previous_dvol) / previous_dvol)%py.

Definition abs_change (current_dvol previous_dvol : PyFloat.t) : PyFloat.t :=
  (current_dvol - previous_dvol)%py.

(** [should_alert_abs_value] *)
Definition should_alert_abs_value (t : dvol_value) (current_dvol : PyFloat.t)
  : bool :=
  (current_dvol >=? or_default (abs_threshold t) float:(60.0))%py.

(** [should_alert_change] *)
Definition should_alert_change (t : dvol_value)
  (current_dvol previous_dvol : PyFloat.t) : bool :=
  (PyFloat.abs (pct_change current_dvol previous_dvol)
     >? or_default (pct_change_5m t) float:(0.05))%py
  || (PyFloat.abs (abs_change current_dvol previous_dvol)
        >? or_default (abs_change_5m t) float:(5.0))%py.

(** The loop over [specific_values], left at the first match. *)
Fixpoint matched_specific_value (values : list PyFloat.t)
  (tolerance current_dvol : PyFloat.t) : option PyFloat.t :=
  match values with
  | [] => None
  | target_value :: rest =>
      if (PyFloat.abs (current_dvol - target_value) <=? tolerance)%py
      then Some target_value
      else matched_specific_value rest tolerance current_dvol
  end.

Definition _check_dvol (e : env) (m : self) (dvol_data : DeribitClient.DvolData)
  (now : PyFloat.t) : M unit :=
  let current_dvol := DeribitClient.value dvol_data in
  let save := state_store_set e "dvol" (VNum current_dvol) now in
  let* history_5m := state_store_get_history e "dvol" 5 in
  if negb (Py.truthy (VList history_5m)) then save
  else
    let target_time := (now - PyFloat.of_Z (5 * 60))%py in
    let* history_sorted := lift (nearest_first target_time history_5m) in
    match history_sorted with
    | [] => save
    | nearest :: _ =>
        let* previous := lift (Py.get nearest "value" VNone) in
        match previous with
        | VNone => save
        | _ =>
            let* previous_dvol := lift (Py.num previous) in
            let t := dvol_value_thresholds m in
            let tolerance :=
              or_default (specific_value_tolerance t) float:(0.5) in
            (match matched_specific_value (specific_values t) tolerance
                     current_dvol with
             | Some target_value =>
                 fire e m ("dvol_specific_" ++ str_of e target_value) now
             | None => ret tt
             end) ;;;
            (if should_alert_abs_value t current_dvol
             then fire e m "dvol_abs_value" now else ret tt) ;;;
            (if should_alert_change t current_dvol previous_dvol
             then fire e m "dvol_change" now else ret tt) ;;;
            save
        end
    end.

(** *** The cycle *)

(** The client and the world of the monitor, side by side.  The clock
    of the client and the clock of the monitor are read through two
    oracles; what holds for every pair of them holds for the one
    clock of the program. *)
Record system : Type := {
  client : DeribitClient.self * DeribitClient.net;
  its_world : world
}.

(** How [run] ends: at the end of its [try] block; in its [except]
    clause, the exception logged; or with an exception that leaves
    [run], raised by the [except] clause itself.  [Untyped] is outside
    the embedding: the exchange has reported a position whose name or
    kind is no string, and the checks, which take an [OptionPosition]
    with its fields typed, are not followed. *)
Inductive ending : Type := Completed | Caught | Escaped | Untyped.

(** The [except] clause of [run] (line 77):
    [logger.error(f"...: {e}", exc_info=True)].  The logger is
    loguru's, which formats the message with the keyword arguments it
    is given; the text of the exception is part of the message, and a
    brace in it makes [str.format] raise.  [error_logged] says whether
    the text of the exception went through; exceptions carry no text
    here, so that it is given from outside. *)
Definition except_clause (error_logged : bool) : ending :=
  if error_logged then Caught else Escaped.

(** The loop [for currency in currencies] of [run]. *)
Fixpoint fetch_positions (b : DeribitClient.builtins) (ce : DeribitClient.env)
  (currencies : list string) (c : DeribitClient.self * DeribitClient.net)
  : option (list DeribitClient.untyped_position)
    * (DeribitClient.self * DeribitClient.net) :=
  match currencies with
  | [] => (Some [], c)
  | currency :: rest =>
      match
        DeribitClient.get_account_option_positions b ce currency "option" c
      with
      | (None, c') => (None, c')
      | (Some positions, c') =>
          match fetch_positions b ce rest c' with
          | (None, c'') => (None, c'')
          | (Some more, c'') => (Some (positions ++ more)%list, c'')
          end
      end
  end.

Fixpoint all_typed (positions : list DeribitClient.untyped_position)
  : option (list DeribitClient.OptionPosition) :=
  match positions with
  | [] => Some []
  | p :: rest =>
      match DeribitClient.typed p, all_typed rest with
      | Some p', Some rest' => Some (p' :: rest')
      | _, _ => None
      end
  end.

Definition currencies : list string := ["BTC"; "USDC"; "ETH"; "SOL"].

(** [run()]: one cycle of the monitor.  Whatever is raised inside the
    [try] block goes to the [except] clause. *)
Definition run (b : DeribitClient.builtins) (ce : DeribitClient.env)
  (e : env) (m : self) (error_logged : bool) (s : system) : ending * system :=
  match time_time_ e (its_world s) with
  | (None, w) =>
      (except_clause error_logged, {| client := client s; its_world := w |})
  | (Some current_time, w) =>
      match fetch_positions b ce currencies (client s) with
      | (None, c) =>
          (except_clause error_logged, {| client := c; its_world := w |})
      | (Some all_positions, c) =>
          match all_typed all_positions with
          | None => (Untyped, {| client := c; its_world := w |})
          | Some positions =>
              match
                (* [if all_positions:] *)
                match positions with
                | [] => (Some tt, w)
                | _ :: _ => _check_positions e m positions current_time w
                end
              with
              | (None, w') =>
                  (except_clause error_logged,
                   {| client := c; its_world := w' |})
              | (Some _, w') =>
                  match DeribitClient.get_btc_dvol b ce c with
                  | (None, c') =>
                      (except_clause error_logged,
                       {| client := c'; its_world := w' |})
                  | (Some None, c') =>
                      (Completed, {| client := c'; its_world := w' |})
                  | (Some (Some dvol_data), c') =>
                      match _check_dvol e m dvol_data current_time w' with
                      | (None, w'') =>
                          (except_clause error_logged,
                           {| client := c'; its_world := w'' |})
                      | (Some _, w'') =>
                          (Completed, {| client := c'; its_world := w'' |})
                      end
                  end
              end
          end
      end
  end.

End Monitor.

(** ** Notions the properties are stated with *)

Module StoreSpec.

(** The history list kept under a key; empty when there is none. *)
Definition history_of (data : pyobject) : list pyobject :=
  match data with
  | VDict d =>
      match Dict.get d "history" with
      | Some (VList l) => l
      | _ => []
      end
  | _ => []
  end.

Definition history (st : Dict.t pyobject) (key : string) : list pyobject :=
  match Dict.get st key with
  | Some data => history_of data
  | None => []
  end.

(** An item with a numeric timestamp, or none (it then counts as 0). *)
Definition timestamped (item : pyobject) : bool :=
  match StateStore.timestamp_of item with Some _ => true | None => false end.

(** Data the clean-up can go through: the items of a history list are
    timestamped, and so is a single record. *)
Definition well_formed_data (data : pyobject) : bool :=
  match data with
  | VDict d =>
      match Dict.get d "history" with
      | Some (VList l) => forallb timestamped l
      | Some _ => true
      | None => if Dict.mem d "timestamp" then timestamped data else true
      end
  | _ => true
  end.

Fixpoint unique (keys : list string) : bool :=
  match keys with
  | [] => true
  | k :: r => negb (existsb (String.eqb k) r) && unique r
  end.

(** A store as the program builds it: a dict (each key once) whose
    series, the reserved keys apart, hold well-formed data. *)
Definition well_formed (st : Dict.t pyobject) : bool :=
  unique (Dict.keys st)
  && forallb (fun b => StateStore.reserved (fst b) || well_formed_data (snd b)) st.

(** The items the clean-up keeps are not older than the cutoff. *)
Definition pruned (cutoff : PyFloat.t) (data : pyobject) : Prop :=
  forall item, In item (history_of data) ->
    exists t, StateStore.timestamp_of item = Some t
              /\ PyFloat.ltb t cutoff = false.

(** The state of a store between two turns of the loop: the keys
    still to come are there, once each, with well-formed data; the
    others are pruned already. *)
Definition pending (cutoff : PyFloat.t) (keys : list string)
  (st : Dict.t pyobject) : Prop :=
  NoDup keys
  /\ NoDup (Dict.keys st)
  /\ (forall k, In k keys -> Dict.get st k <> None)
  /\ (forall k data, StateStore.reserved k = false ->
        Dict.get st k = Some data ->
        well_formed_data data = true /\ (~ In k keys -> pruned cutoff data)).

(** An element of a keyed list whose key no other exceeds. *)
Definition greatest (a : PyFloat.t * pyobject) (l : list (PyFloat.t * pyobject)) : Prop :=
  In a l /\ forall b, In b l -> PyFloat.leb (fst b) (fst a) = true.

End StoreSpec.

Module HistorySpec.

(** [a] carries a timestamp that is not above the one of [b]. *)
Definition before (a b : pyobject) : Prop :=
  exists ta tb,
    StateStore.timestamp_of a = Some ta /\ StateStore.timestamp_of b = Some tb
    /\ PyFloat.leb ta tb = true.

(** A history in the order of its timestamps. *)
Fixpoint ascending (l : list pyobject) : Prop :=
  match l with
  | [] => True
  | x :: r => (forall y, In y r -> before x y) /\ ascending r
  end.

(** The timestamp [set] files a value under: the one given, or the
    reading of the clock. *)
Definition stamp (timestamp : option PyFloat.t) (time_time : PyFloat.t)
  : PyFloat.t :=
  match timestamp with Some t => t | None => time_time end.

(** A keyed list in the order of its keys. *)
Fixpoint sorted_keys (l : list (PyFloat.t * pyobject)) : Prop :=
  match l with
  | [] => True
  | a :: r =>
      (forall b, In b r -> PyFloat.leb (fst a) (fst b) = true) /\ sorted_keys r
  end.

(** What the clean-up leaves of a history [h]: [h] itself when it has
    not come to it, or the items of [h] that are fresh enough. *)
Definition left_of (cutoff : PyFloat.t) (h h' : list pyobject) : Prop :=
  h' = h \/ Py.filter (StateStore.fresh_enough cutoff) h = Some h'.

(** Data as [set] leaves it and the clean-up keeps it: a [latest]
    field, and of the history [h] what the clean-up leaves. *)
Definition shaped (cutoff : PyFloat.t) (latest : pyobject) (h : list pyobject)
  (data : pyobject) : Prop :=
  exists d h',
    data = VDict d
    /\ Dict.get d "latest" = Some latest
    /\ Dict.get d "history" = Some (VList h')
    /\ left_of cutoff h h'.

(** Data the clean-up leaves as it is. *)
Definition stable (cutoff : PyFloat.t) (data : pyobject) : Prop :=
  StateStore.cleanup_data cutoff data = StateStore.Keep data.

(** A key as [set] leaves it: a dict with a [latest] field and a
    [history] field. *)
Definition tracked (st : Dict.t pyobject) (key : string) : Prop :=
  exists d latest,
    Dict.get st key = Some (VDict d)
    /\ Dict.get d "latest" = Some latest
    /\ Dict.mem d "history" = true.

(** The [latest] field stored under a key. *)
Definition latest_of (st : Dict.t pyobject) (key : string) : option pyobject :=
  match Dict.get st key with
  | Some (VDict d) => Dict.get d "latest"
  | _ => None
  end.

End HistorySpec.

Module LevelSpec.

(** The threshold of a tier, and the order of the tiers. *)
Definition threshold (level_1 level_2 level_3 : PyFloat.t)
  (s : Monitor.severity) : PyFloat.t :=
  match s with
  | Monitor.Light => level_1
  | Monitor.Medium => level_2
  | Monitor.Heavy => level_3
  end.

Definition tier (s : Monitor.severity) : nat :=
  match s with
  | Monitor.Light => 1
  | Monitor.Medium => 2
  | Monitor.Heavy => 3
  end.

End LevelSpec.

Module ClientSpec.
Import DeribitClient.

(** The request of [authenticate], and a request of the call itself. *)
Definition auth_request (c : self) (id : Z) : request :=
  {| method := "public/auth"; params := auth_params c; id := id;
     authorization := None |}.

Definition own_request (method_name : string) (params : pyobject) (id : Z)
  (authorization : option pyobject) : request :=
  {| method := method_name; params := params; id := id;
     authorization := authorization |}.

(** The client holds a token that the next reading of the clock finds
    valid: [_make_request] will not authenticate before it sends. *)
Definition session_valid (e : env) (c : self) (n : net) : bool :=
  Py.truthy (token c)
  && negb (time_time e (clock_reads n) >=? token_expires_at c)%py.

(** The requests sent by the loop of one call whose identifier is
    [id0], from the moment the counter stands at [lo] to the moment it
    stands at [hi]: attempts of the call itself, which carry [id0],
    and requests of [authenticate], each with the next identifier. *)
Inductive loop_trace (method_name : string) (id0 : Z)
  : Z -> list request -> Z -> Prop :=
| trace_end (lo : Z) : loop_trace method_name id0 lo [] lo
| trace_own (lo hi : Z) (r : request) (rest : list request) :
    method r = method_name -> id r = id0 ->
    loop_trace method_name id0 lo rest hi ->
    loop_trace method_name id0 lo (r :: rest) hi
| trace_auth (lo hi : Z) (r : request) (rest : list request) :
    method r = "public/auth" -> id r = lo + 1 ->
    loop_trace method_name id0 (lo + 1) rest hi ->
    loop_trace method_name id0 lo (r :: rest) hi.

(** What [_make_request] returns to [authenticate] for a reply:
    the result of a response without error, and [None] otherwise. *)
Definition auth_result (r : reply) : pyobject :=
  match r with
  | Response status_code (Result result) =>
      if (status_code =? 200)%Z then result else VNone
  | _ => VNone
  end.

(** The environment after a request went out. *)
Definition after_post (r : request) (n : net) : net :=
  {| sent := (sent n ++ [r])%list; slept := slept n;
     clock_reads := clock_reads n |}.

(** The environment once a private call has looked at its token: the
    clock is read when there is a token. *)
Definition after_check (e : env) (c : self) (n : net) : net :=
  if Py.truthy (token c) then snd (read_clock e n) else n.





(** A reply after which [_make_request] returns without another
    attempt: a response of status 200, whatever it holds (lines
    113-139), or an exception that reaches the clause
    [except json.JSONDecodeError] of line 176.  That clause stands
    after [except requests.exceptions.RequestException]: a body that
    is no JSON makes [response.json()] raise
    [requests.exceptions.JSONDecodeError] since requests 2.27, which
    is a [RequestException], the reply [RequestException] here, and
    the attempt is then tried again. *)
Definition ends_call (r : reply) : bool :=
  match r with
  | Response status_code _ => (status_code =? 200)%Z
  | JSONDecodeError => true
  | _ => false
  end.

(** The wait before the next attempt, after the attempt numbered
    [attempt] got the reply [r]. *)
Definition wait_after (r : reply) (attempt : Z) : Z :=
  match r with
  | SSLError => 3 + 2 ^ attempt
  | _ => 2 ^ attempt
  end.

(** A number that is not below zero: zero, above it, or NaN. *)
Definition not_negative (x : PyFloat.t) : Prop :=
  (x <? PyFloat.zero)%py = false.

(** What every position that [get_account_option_positions] returns
    satisfies. *)
Definition sound_position (p : untyped_position) : Prop :=
  (u_size p <? tiny)%py = false
  /\ not_negative (u_size p)
  /\ not_negative (u_gamma p)
  /\ not_negative (u_vega p)
  /\ (u_direction p = "buy" \/ u_direction p = "sell").

End ClientSpec.

Module CooldownSpec.
Import Monitor.

(** The latest successful delivery for a key in a log of alerts,
    oldest first. *)
Fixpoint last_success (key : string) (log : list alert) : option alert :=
  match log with
  | [] => None
  | a :: rest =>
      match last_success key rest with
      | Some b => Some b
      | None =>
          if success a && String.eqb (alert_key a) key then Some a else None
      end
  end.

(** Every successful delivery of [log] comes at least [cooldown]
    after the successful delivery for the same key that precedes it,
    in [earlier] or in [log] itself. *)
Fixpoint spaced_after (cooldown : PyFloat.t) (earlier log : list alert) : Prop :=
  match log with
  | [] => True
  | a :: rest =>
      (success a = true ->
       forall b, last_success (alert_key a) earlier = Some b ->
                 ((current_time a - current_time b) >=? cooldown)%py = true)
      /\ spaced_after cooldown (earlier ++ [a]) rest
  end.

Definition spaced (cooldown : PyFloat.t) (log : list alert) : Prop :=
  spaced_after cooldown [] log.

(** The store holds, for every key, the time of its latest successful
    delivery. *)
Definition recorded (w : world) : Prop :=
  forall key b,
    last_success key (alerts w) = Some b ->
    StateStore.get_last_alert_time (state_store w) key
    = Some (VNum (current_time b)).

(** What the cycles of a monitor keep true. *)
Definition cooled (m : self) (w : world) : Prop :=
  recorded w /\ spaced (cooldown_seconds m) (alerts w).

(** [preserves P m]: the method [m] keeps [P], returning or raising. *)
Definition preserves {A : Type} (P : world -> Prop) (m : M A) : Prop :=
  forall w, P w -> P (snd (m w)).

End CooldownSpec.

Module CycleSpec.
Import Monitor.

(** [triple P m Q]: from a world where [P] holds the method [m] leads
    to one where [Q] holds, returning or raising. *)
Definition triple {A : Type} (P : world -> Prop) (m : M A)
  (Q : world -> Prop) : Prop :=
  forall w, P w -> Q (snd (m w)).

(** The table of last alert times as the store holds it. *)
Definition table (w : world) : option pyobject :=
  Dict.get (StateStore.state (state_store w)) "last_alert_times".

Definition failed (a : alert) : Prop := success a = false.

(** What the checks of a cycle at [now] may have made of the world
    [w0] with at most [k] alerts: the log has grown by the alerts
    [new], all handed to the webhook at [now]; there is none when
    alerts are disabled, and none succeeds without a URL; the table
    of last alert times is as it was unless one of them succeeded. *)
Definition within (m : self) (now : PyFloat.t) (w0 : world) (k : nat)
  (w : world) : Prop :=
  exists new,
    alerts w = (alerts w0 ++ new)%list
    /\ (List.length new <= k)%nat
    /\ Forall (fun a => current_time a = now) new
    /\ (enable_alert m = false -> new = [])
    /\ (feishu_webhook_url m = "" -> Forall failed new)
    /\ (Forall failed new -> table w = table w0).

(** The store holds, under [name], a series whose [latest] field is
    [latest]. *)
Definition holds_latest (w : world) (name : string) (latest : pyobject)
  : Prop :=
  exists d,
    Dict.get (StateStore.state (state_store w)) name = Some (VDict d)
    /\ Dict.get d "latest" = Some latest
    /\ Dict.mem d "history" = true.

(** The world after one more reading of the clock. *)
Definition clock_read (w : world) : world :=
  {| state_store := state_store w; clock_reads := S (clock_reads w);
     alerts := alerts w |}.

(** An alert for [key] at [now] passes the cool-down: the store
    holds no time for the key, or one that lies [cooldown_seconds]
    back or more. *)
Definition eligible (m : self) (key : string) (now : PyFloat.t) (w : world)
  : Prop :=
  let last := StateStore.get_last_alert_time (state_store w) key in
  last = Some VNone
  \/ exists v t, last = Some v /\ Py.num v = Some t
                 /\ ((now - t) >=? cooldown_seconds m)%py = true.

(** The table of last alert times reads: for every key it holds
    nothing or a number, as it does when only the monitor wrote it. *)
Definition readable (w : world) : Prop :=
  forall key,
    exists v,
      StateStore.get_last_alert_time (state_store w) key = Some v
      /\ (v = VNone \/ exists t, Py.num v = Some t).

(** An alert for [key] at [now] is among [new]. *)
Definition fired (key : string) (now : PyFloat.t) (new : list alert) : Prop :=
  exists ok,
    In {| alert_key := key; current_time := now; success := ok |} new.

(** The check of the index finds a value to compare with: the
    history of the last five minutes is not empty, and the item of it
    nearest to five minutes ago holds the number [previous]. *)
Definition previous_value (e : env) (now : PyFloat.t) (w : world)
  (previous : PyFloat.t) : Prop :=
  exists h nearest rest v,
    StateStore.get_history (state_store w) "dvol" 5
      (time_time e (clock_reads w)) = Some h
    /\ h <> []
    /\ nearest_first (now - PyFloat.of_Z (5 * 60))%py h = Some (nearest :: rest)
    /\ Py.get nearest "value" VNone = Some v
    /\ v <> VNone
    /\ Py.num v = Some previous.

(** No position is named as the table of last alert times is. *)
Definition named_apart (positions : list DeribitClient.OptionPosition) : Prop :=
  Forall (fun p => DeribitClient.instrument_name p <> "last_alert_times")
    positions.

End CycleSpec.

(** ** Stores, clients and worlds the properties are tried on *)

Module Examples.

Definition t (n : Z) : PyFloat.t := PyFloat.of_Z n.

(** An empty store keeping one hour. *)
Definition store0 : StateStore.self := StateStore.__init__ 60.

(** The index was 50 at second 1000. *)
Definition store1 : StateStore.self :=
  snd (StateStore.set "dvol" (VNum (t 50)) (Some (t 1000)) (t 1000) (t 1000) store0).

(** [store1] with an alert recorded at second 0. *)
Definition store2 : StateStore.self :=
  snd (StateStore.set_last_alert_time "dvol_change" (Some (t 0)) (t 0) (t 1000) store1).

(** A monitor with the default thresholds and cool-down, alerts
    enabled, and a webhook that acknowledges everything. *)
Definition no_levels : Monitor.levels :=
  {| Monitor.level_1_light := None; Monitor.level_2_medium := None;
     Monitor.level_3_heavy := None |}.

Definition no_dvol_value : Monitor.dvol_value :=
  {| Monitor.abs_threshold := None; Monitor.pct_change_5m := None;
     Monitor.abs_change_5m := None; Monitor.specific_values := [];
     Monitor.specific_value_tolerance := None |}.

Definition monitor0 : Monitor.self :=
  {| Monitor.feishu_webhook_url := "https://open.feishu.cn/hook";
     Monitor.enable_alert := true;
     Monitor.cooldown_seconds := Monitor.default_cooldown_seconds;
     Monitor.gamma_thresholds := no_levels;
     Monitor.vega_thresholds := no_levels;
     Monitor.dvol_value_thresholds := no_dvol_value |}.

(** The clock stands at [now]; every alert is acknowledged. *)
Definition env_at (now : PyFloat.t) : Monitor.env :=
  {| Monitor.time_time := fun _ => now;
     Monitor.feishu := fun _ => true;
     Monitor.str_of := fun _ => "" |}.

Definition world_of (s : StateStore.self) : Monitor.world :=
  {| Monitor.state_store := s; Monitor.clock_reads := 0; Monitor.alerts := [] |}.

(** A position whose Gamma is 0.002, above the heavy level. *)
Definition position0 : DeribitClient.OptionPosition :=
  {| DeribitClient.instrument_name := "BTC-27DEC24-100000-C";
     DeribitClient.kind := "option";
     DeribitClient.direction := "buy";
     DeribitClient.size := t 1;
     DeribitClient.mark_iv := t 60;
     DeribitClient.gamma := float:(0.002);
     DeribitClient.delta := float:(0.5);
     DeribitClient.theta := PyFloat.zero;
     DeribitClient.vega := t 1 |}.

Definition dvol (x : PyFloat.t) (now : PyFloat.t) : DeribitClient.DvolData :=
  {| DeribitClient.value := x; DeribitClient.timestamp := now;
     DeribitClient.iv_percentile := None |}.

Definition keys_of (w : Monitor.world) : list string :=
  map Monitor.alert_key (Monitor.alerts w).

(** A client that has not authenticated yet, and one that holds a
    token good until second 5000. *)
Definition client0 : DeribitClient.self :=
  DeribitClient.mk "client" "secret" VNone PyFloat.zero 0.

Definition client1 : DeribitClient.self :=
  DeribitClient.mk "client" "secret" (VStr "token-1") (t 5000) 7.

(** The transport answers with the replies of a script, in order, and
    with timeouts once the script is over; the clock stands at second
    1000. *)
Definition scripted (replies : list DeribitClient.reply) : DeribitClient.env :=
  {| DeribitClient.post := fun k => nth k replies DeribitClient.Timeout;
     DeribitClient.time_time := fun _ => t 1000 |}.

(** The answer to a successful authentication. *)
Definition auth_ok : DeribitClient.reply :=
  DeribitClient.Response 200
    (DeribitClient.Result
       (VDict [("access_token", VStr "token-2"); ("expires_in", VNum (t 900))])).

Definition rpc_error (code : Z) (message : string) : DeribitClient.reply :=
  DeribitClient.Response 200 (DeribitClient.Error code message).

Definition rpc_result (v : pyobject) : DeribitClient.reply :=
  DeribitClient.Response 200 (DeribitClient.Result v).

Definition positions_params : pyobject :=
  VDict [("currency", VStr "BTC"); ("kind", VStr "option")].

(** What was sent: method, identifier, bearer token. *)
Definition wire (n : DeribitClient.net)
  : list (string * Z * option pyobject) :=
  map (fun r => (DeribitClient.method r, DeribitClient.id r,
                 DeribitClient.authorization r)) (DeribitClient.sent n).

(** Built-ins that read no text as a number and format every time. *)
Definition builtins0 : DeribitClient.builtins :=
  {| DeribitClient.str_float := fun _ => None;
     DeribitClient.str_int := fun _ => None;
     DeribitClient.fromtimestamp_ok := fun _ => true |}.

(** The answer to [private/get_positions]: two contracts sold, with
    the Greeks of the position, and a position of size zero. *)
Definition positions_reply : DeribitClient.reply :=
  rpc_result
    (VList [VDict [("instrument_name", VStr "BTC-27DEC24-100000-C");
                   ("kind", VStr "option");
                   ("size", VNum float:(-2.0));
                   ("mark_iv", VNum float:(61.5));
                   ("gamma", VNum float:(-0.0004));
                   ("delta", VNum float:(-1.1));
                   ("theta", VNum float:(12.0));
                   ("vega", VNum float:(-45.0))];
            VDict [("instrument_name", VStr "BTC-27DEC24-90000-P");
                   ("size", VNum float:(0.0))]]).

(** The answer to [public/get_order_book]: the Greeks of one contract. *)
Definition order_book_reply : DeribitClient.reply :=
  rpc_result
    (VDict [("greeks", VDict [("gamma", VNum float:(0.0003));
                              ("vega", VNum float:(20.0))])]).

(** The answer to [public/get_volatility_index_data]: two hourly data
    points, the index closing at 52.4 and then at 53.1. *)
Definition dvol_reply : DeribitClient.reply :=
  rpc_result
    (VDict [("data",
             VList [VList [VNum (t 1700000000000); VNum float:(52.0);
                           VNum float:(52.9); VNum float:(51.8);
                           VNum float:(52.4)];
                    VList [VNum (t 1700003600000); VNum float:(52.4);
                           VNum float:(53.5); VNum float:(52.2);
                           VNum float:(53.1)]]);
            ("continuation", VNone)]).

(** Two open orders, an option and a future. *)
Definition orders_reply : DeribitClient.reply :=
  rpc_result
    (VList [VDict [("order_id", VStr "ETH-1"); ("kind", VStr "option");
                   ("price", VNum float:(0.05)); ("amount", VNum (t 3));
                   ("filled_amount", VNum (t 1))];
            VDict [("order_id", VStr "ETH-2"); ("kind", VStr "future");
                   ("price", VNum (t 60000)); ("amount", VNum (t 10));
                   ("filled_amount", VNum (t 0))]]).

(** [monitor0] without a webhook URL. *)
Definition monitor_without_url : Monitor.self :=
  {| Monitor.feishu_webhook_url := "";
     Monitor.enable_alert := true;
     Monitor.cooldown_seconds := Monitor.default_cooldown_seconds;
     Monitor.gamma_thresholds := no_levels;
     Monitor.vega_thresholds := no_levels;
     Monitor.dvol_value_thresholds := no_dvol_value |}.

(** A client with a valid session and a monitor with an empty store. *)
Definition system0 : Monitor.system :=
  {| Monitor.client := (client1, DeribitClient.net0);
     Monitor.its_world := world_of store0 |}.

(** A position whose size is a text that [float] does not read, and
    whose braces the logger of [run] stumbles on. *)
Definition unreadable_position : pyobject :=
  VDict [("instrument_name", VStr "BTC-27DEC24-90000-P");
         ("size", VStr "{x}")].

(** The answer to [private/get_positions] with that position after
    one that is in order. *)
Definition second_unreadable_result : pyobject :=
  VList [VDict [("instrument_name", VStr "BTC-27DEC24-100000-C");
                ("kind", VStr "option");
                ("size", VNum float:(-2.0));
                ("gamma", VNum float:(-0.0004));
                ("vega", VNum float:(-45.0))];
         unreadable_position].

Definition second_unreadable_reply : DeribitClient.reply :=
  rpc_result second_unreadable_result.

(** A webhook that acknowledges the first alert and rejects the second. *)
Definition webhook : Notifier.env :=
  {| Notifier.post := fun k =>
       nth k [Notifier.Response 200 (Some (VDict [("code", VNum PyFloat.zero)]));
              Notifier.Response 200
                (Some (VDict [("code", VNum (t 19001)); ("msg", VStr "bad")]))]
         Notifier.Timeout;
     Notifier.str := fun _ => "" |}.

End Examples.

(** * Properties *)

(** ** The order of Python floats *)

Module PyFloatFacts.

Lemma compare_rank (x y : PyFloat.t) :
  PyFloat.is_nan x = false -> PyFloat.is_nan y = false ->
  SFcompare x y = Some (PyFloat.lex3 (PyFloat.rank x) (PyFloat.rank y)).
Proof.
  destruct x as [sx|sx| |sx mx ex], y as [sy|sy| |sy my ey];
    try discriminate; intros _ _;
    try (destruct sx); try (destruct sy); try reflexivity.
  cbn. rewrite Z.compare_opp, (Z.compare_antisym ex ey).
  destruct (ex ?= ey)%Z; reflexivity.
Qed.

Lemma lex3_Lt_iff (a b : Z * Z * Z) :
  PyFloat.lex3 a b = Lt <->
  let '(a1, a2, a3) := a in
  let '(b1, b2, b3) := b in
  (a1 < b1 \/ (a1 = b1 /\ (a2 < b2 \/ (a2 = b2 /\ a3 < b3))))%Z.
Proof.
  destruct a as [[a1 a2] a3], b as [[b1 b2] b3]. cbn.
  destruct (Z.compare_spec a1 b1); [destruct (Z.compare_spec a2 b2)|..];
    try destruct (Z.compare_spec a3 b3); split; intros; try discriminate;
    try reflexivity; lia.
Qed.

Lemma lex3_Gt_iff (a b : Z * Z * Z) :
  PyFloat.lex3 a b = Gt <-> PyFloat.lex3 b a = Lt.
Proof.
  destruct a as [[a1 a2] a3], b as [[b1 b2] b3]. cbn.
  rewrite (Z.compare_antisym a1 b1), (Z.compare_antisym a2 b2),
    (Z.compare_antisym a3 b3).
  destruct (a1 ?= b1)%Z, (a2 ?= b2)%Z, (a3 ?= b3)%Z; cbn;
    split; intros; congruence.
Qed.

(** [x <= y] excludes [y < x], NaN or not. *)
Lemma leb_not_gt (x y : PyFloat.t) :
  PyFloat.leb x y = true -> PyFloat.ltb y x = false.
Proof.
  unfold PyFloat.leb, PyFloat.ltb, SFleb, SFltb.
  destruct (PyFloat.is_nan x) eqn:Hx; [destruct x; discriminate|].
  destruct (PyFloat.is_nan y) eqn:Hy; [destruct x, y; discriminate|].
  rewrite (compare_rank x y Hx Hy), (compare_rank y x Hy Hx).
  destruct (PyFloat.lex3 (PyFloat.rank y) (PyFloat.rank x)) eqn:E;
    try reflexivity.
  apply lex3_Gt_iff in E. rewrite E. reflexivity || discriminate.
Qed.

(** Away from NaN the order is total ... *)
Lemma not_lt_ge (x y : PyFloat.t) :
  PyFloat.is_nan x = false -> PyFloat.is_nan y = false ->
  PyFloat.ltb x y = false -> PyFloat.leb y x = true.
Proof.
  unfold PyFloat.leb, PyFloat.ltb, SFleb, SFltb. intros Hx Hy.
  rewrite (compare_rank x y Hx Hy), (compare_rank y x Hy Hx).
  destruct (PyFloat.lex3 (PyFloat.rank y) (PyFloat.rank x)) eqn:E;
    try reflexivity.
  apply lex3_Gt_iff in E. rewrite E. discriminate.
Qed.

(** ... and transitive. *)
Lemma leb_trans (x y z : PyFloat.t) :
  PyFloat.leb x y = true -> PyFloat.leb y z = true -> PyFloat.leb x z = true.
Proof.
  unfold PyFloat.leb, SFleb.
  destruct (PyFloat.is_nan x) eqn:Hx; [destruct x; discriminate|].
  destruct (PyFloat.is_nan y) eqn:Hy; [destruct x, y; discriminate|].
  destruct (PyFloat.is_nan z) eqn:Hz; [destruct y, z; discriminate|].
  rewrite (compare_rank x y Hx Hy), (compare_rank y z Hy Hz),
    (compare_rank x z Hx Hz).
  intros H1 H2.
  destruct (PyFloat.lex3 (PyFloat.rank x) (PyFloat.rank z)) eqn:E;
    try reflexivity.
  exfalso. apply lex3_Gt_iff in E.
  assert (G1 : PyFloat.lex3 (PyFloat.rank y) (PyFloat.rank x) <> Lt).
  { intros G. apply lex3_Gt_iff in G. rewrite G in H1. discriminate. }
  assert (G2 : PyFloat.lex3 (PyFloat.rank z) (PyFloat.rank y) <> Lt).
  { intros G. apply lex3_Gt_iff in G. rewrite G in H2. discriminate. }
  rewrite lex3_Lt_iff in E, G1, G2.
  destruct (PyFloat.rank x) as [[x1 x2] x3], (PyFloat.rank y) as [[y1 y2] y3],
    (PyFloat.rank z) as [[z1 z2] z3].
  lia.
Qed.

Lemma leb_refl (x : PyFloat.t) :
  PyFloat.is_nan x = false -> PyFloat.leb x x = true.
Proof.
  intros Hx. apply not_lt_ge; trivial.
  unfold PyFloat.ltb, SFltb. rewrite (compare_rank x x Hx Hx).
  destruct (PyFloat.lex3 (PyFloat.rank x) (PyFloat.rank x)) eqn:E;
    try reflexivity.
  exfalso. rewrite lex3_Lt_iff in E.
  destruct (PyFloat.rank x) as [[x1 x2] x3]. lia.
Qed.

Lemma leb_not_nan (x y : PyFloat.t) :
  PyFloat.leb x y = true ->
  PyFloat.is_nan x = false /\ PyFloat.is_nan y = false.
Proof.
  unfold PyFloat.leb, SFleb. destruct x, y; cbn; intros; split; congruence.
Qed.

End PyFloatFacts.

(** ** Dicts, comprehensions and sorting *)

Module DictFacts.
Section DictFacts.
Context {V : Type}.
Implicit Types (d : Dict.t V) (k : string) (v : V).

Lemma get_put_same d k v : Dict.get (Dict.put k v d) k = Some v.
Proof.
  induction d as [|[k' v'] r IH]; cbn.
  - now rewrite String.eqb_refl.
  - destruct (String.eqb k' k) eqn:E; cbn.
    + now rewrite String.eqb_refl.
    + now rewrite E.
Qed.

Lemma get_put_other d k k' v :
  k <> k' -> Dict.get (Dict.put k v d) k' = Dict.get d k'.
Proof.
  intros N. induction d as [|[k0 v0] r IH]; cbn.
  - destruct (String.eqb_spec k k'); congruence.
  - destruct (String.eqb_spec k0 k) as [->|]; cbn.
    + destruct (String.eqb_spec k k'); congruence.
    + now rewrite IH.
Qed.

Lemma get_del_same d k : Dict.get (Dict.del k d) k = None.
Proof.
  induction d as [|[k0 v0] r IH]; cbn; trivial.
  destruct (String.eqb k0 k) eqn:E; cbn; trivial. now rewrite E.
Qed.

Lemma get_del_other d k k' :
  k <> k' -> Dict.get (Dict.del k d) k' = Dict.get d k'.
Proof.
  intros N. induction d as [|[k0 v0] r IH]; cbn; trivial.
  destruct (String.eqb_spec k0 k) as [->|]; cbn.
  - destruct (String.eqb_spec k k'); congruence.
  - now rewrite IH.
Qed.

Lemma get_in_keys d k v : Dict.get d k = Some v -> In k (Dict.keys d).
Proof.
  induction d as [|[k0 v0] r IH]; cbn; try discriminate.
  destruct (String.eqb_spec k0 k); auto.
Qed.

Lemma get_not_in_keys d k : ~ In k (Dict.keys d) -> Dict.get d k = None.
Proof.
  induction d as [|[k0 v0] r IH]; cbn; trivial.
  intros N. destruct (String.eqb_spec k0 k); [tauto | apply IH; tauto].
Qed.

Lemma in_keys_put d k k' v :
  In k' (Dict.keys (Dict.put k v d)) <-> k' = k \/ In k' (Dict.keys d).
Proof.
  induction d as [|[k0 v0] r IH]; cbn.
  - intuition.
  - destruct (String.eqb_spec k0 k) as [->|]; cbn; intuition.
Qed.

Lemma in_keys_del d k k' :
  In k' (Dict.keys (Dict.del k d)) <-> k' <> k /\ In k' (Dict.keys d).
Proof.
  induction d as [|[k0 v0] r IH]; cbn.
  - intuition.
  - destruct (String.eqb_spec k0 k) as [->|]; cbn; rewrite IH.
    + intuition. subst. tauto.
    + intuition. subst. tauto.
Qed.

(** A dict holds a key once, and keeps doing so. *)
Lemma nodup_put d k v : NoDup (Dict.keys d) -> NoDup (Dict.keys (Dict.put k v d)).
Proof.
  induction d as [|[k0 v0] r IH]; cbn; intros H.
  - constructor; [intros [] | constructor].
  - inversion H as [|? ? Hn Hr]; subst.
    destruct (String.eqb_spec k0 k) as [->|N]; cbn.
    + constructor; trivial.
    + constructor; [|auto]. fold (Dict.keys (Dict.put k v r)).
      rewrite in_keys_put. intuition.
Qed.

Lemma nodup_del d k : NoDup (Dict.keys d) -> NoDup (Dict.keys (Dict.del k d)).
Proof.
  induction d as [|[k0 v0] r IH]; cbn; intros H; trivial.
  inversion H as [|? ? Hn Hr]; subst.
  destruct (String.eqb_spec k0 k) as [->|N]; cbn; auto.
  constructor; [|auto]. fold (Dict.keys (Dict.del k r)).
  rewrite in_keys_del. tauto.
Qed.

End DictFacts.
End DictFacts.

Module PyFacts.
Import StoreSpec.

Lemma filter_some (p : pyobject -> option bool) (l : list pyobject) :
  Forall (fun x => p x <> None) l -> exists l', Py.filter p l = Some l'.
Proof.
  induction 1 as [|x r Hx _ [r' IH]]; cbn; eauto.
  destruct (p x); [|congruence]. rewrite IH. eauto.
Qed.

Lemma filter_in (p : pyobject -> option bool) (l l' : list pyobject) (x : pyobject) :
  Py.filter p l = Some l' -> In x l' -> In x l /\ p x = Some true.
Proof.
  revert l'. induction l as [|y r IH]; cbn; intros l' E H.
  - injection E as <-. destruct H.
  - destruct (p y) as [b|] eqn:Ey; [|discriminate].
    destruct (Py.filter p r) as [r'|]; [|discriminate].
    injection E as <-. destruct b.
    + destruct H as [<-|H]; [auto | destruct (IH _ eq_refl H); auto].
    + destruct (IH _ eq_refl H); auto.
Qed.

Lemma filter_all (p : pyobject -> option bool) (l l' : list pyobject) :
  Py.filter p l = Some l' -> Forall (fun x => p x <> None) l.
Proof.
  revert l'. induction l as [|y r IH]; cbn; intros l' E; constructor.
  - destruct (p y); congruence.
  - destruct (p y); [|discriminate].
    destruct (Py.filter p r) eqn:Er; [eauto | discriminate].
Qed.

Lemma in_insert k x l b :
  In b (Py.insert k x l) <-> b = (k, x) \/ In b l.
Proof.
  induction l as [|[k' y] r IH]; cbn.
  - intuition.
  - destruct (PyFloat.ltb k' k); cbn; [rewrite IH|]; intuition.
Qed.

Lemma in_sort_keyed l b : In b (Py.sort_keyed l) <-> In b l.
Proof.
  induction l as [|[k x] r IH]; cbn; [tauto|].
  rewrite in_insert, IH. intuition.
Qed.

Lemma with_keys_some key l :
  Forall (fun x => key x <> None) l -> exists kl, Py.with_keys key l = Some kl.
Proof.
  induction 1 as [|x r Hx _ [r' IH]]; cbn; eauto.
  destruct (key x); [|congruence]. rewrite IH. eauto.
Qed.

Lemma with_keys_spec key l kl :
  Py.with_keys key l = Some kl ->
  map snd kl = l /\ Forall (fun b => key (snd b) = Some (fst b)) kl.
Proof.
  revert kl. induction l as [|x r IH]; cbn; intros kl E.
  - injection E as <-. auto.
  - destruct (key x) as [k|] eqn:Ek; [|discriminate].
    destruct (Py.with_keys key r) as [r'|]; [|discriminate].
    injection E as <-. destruct (IH _ eq_refl) as [E1 E2]. cbn.
    split; [now rewrite E1 | constructor; auto].
Qed.

(** [sorted] returns the elements it was given. *)
Lemma sorted_in key l l' x :
  Py.sorted key l = Some l' -> (In x l' <-> In x l).
Proof.
  unfold Py.sorted. destruct (Py.with_keys key l) as [kl|] eqn:E; [|discriminate].
  intros [= <-]. destruct (with_keys_spec _ _ _ E) as [<- _].
  rewrite !in_map_iff. split; intros [b [Hb H]]; exists b; split; trivial;
    now apply in_sort_keyed.
Qed.

Lemma sorted_keys key l l' :
  Py.sorted key l = Some l' -> Forall (fun x => key x <> None) l.
Proof.
  unfold Py.sorted. destruct (Py.with_keys key l) as [kl|] eqn:E; [|discriminate].
  intros _. destruct (with_keys_spec _ _ _ E) as [<- F].
  rewrite Forall_forall in *. intros x Hx. apply in_map_iff in Hx.
  destruct Hx as [b [<- Hb]]. rewrite (F _ Hb). discriminate.
Qed.

Lemma in_last {A : Type} (l : list A) (d : A) : l <> [] -> In (last l d) l.
Proof.
  induction l as [|a [|b r] IH]; [congruence | now left |].
  intros _. right. apply IH. discriminate.
Qed.

Lemma last_cons {A : Type} (a : A) (l : list A) (d : A) :
  l <> [] -> last (a :: l) d = last l d.
Proof. destruct l; [congruence | reflexivity]. Qed.

Lemma insert_not_nil k x l : Py.insert k x l <> [].
Proof. destruct l as [|[k' y] r]; cbn; [|destruct (PyFloat.ltb k' k)]; discriminate. Qed.

Lemma ltb_leb (x y : PyFloat.t) : PyFloat.ltb x y = true -> PyFloat.leb x y = true.
Proof.
  unfold PyFloat.leb, PyFloat.ltb, SFleb, SFltb.
  destruct (SFcompare x y) as [[]|]; congruence.
Qed.

(** Where the last element of [insert k x l] comes from, when the
    last element of [l] is the greatest of [l]. *)
Lemma last_insert_cases k x l d :
  PyFloat.is_nan k = false ->
  Forall (fun b => PyFloat.is_nan (fst b) = false) l ->
  (l <> [] -> greatest (last l d) l) ->
  (last (Py.insert k x l) d = (k, x)
   /\ forall b, In b l -> PyFloat.leb (fst b) k = true)
  \/ (l <> [] /\ last (Py.insert k x l) d = last l d
      /\ PyFloat.leb k (fst (last l d)) = true).
Proof.
  intros Hk. induction l as [|[k' y] r IH]; intros Hl Hg.
  - left. cbn. split; [trivial | intros b []].
  - inversion Hl as [|? ? Hk' Hr]; subst. cbn in Hk'. cbn [Py.insert].
    destruct (Hg ltac:(discriminate)) as [_ G].
    destruct (PyFloat.ltb k' k) eqn:E.
    + rewrite (last_cons _ _ _ (insert_not_nil k x r)).
      destruct r as [|b0 r0].
      * left. cbn. split; trivial. intros b [<-|[]]. now apply ltb_leb.
      * rewrite last_cons in G |- * by discriminate.
        destruct IH as [[E1 E2]|[_ [E1 E2]]]; trivial.
        -- intros N. split; [now apply in_last|]. intros b Hb. apply G. now right.
        -- left. split; trivial.
           intros b [<-|Hb]; [now apply ltb_leb | now apply E2].
        -- right. split; [discriminate|]. now split.
    + right. split; [discriminate|]. split; [reflexivity|].
      apply PyFloatFacts.leb_trans with k'.
      * now apply PyFloatFacts.not_lt_ge.
      * apply (G (k', y)). now left.
Qed.

Lemma last_insert k x l d :
  PyFloat.is_nan k = false ->
  Forall (fun b => PyFloat.is_nan (fst b) = false) l ->
  (l <> [] -> greatest (last l d) l) ->
  greatest (last (Py.insert k x l) d) (Py.insert k x l).
Proof.
  intros Hk Hl Hg.
  destruct (last_insert_cases k x l d Hk Hl Hg) as [[E G]|[N [E L]]];
    rewrite E; split.
  - apply in_insert. now left.
  - intros b Hb. apply in_insert in Hb.
    destruct Hb as [->|Hb]; [now apply PyFloatFacts.leb_refl | now apply G].
  - apply in_insert. right. now apply Hg.
  - intros b Hb. apply in_insert in Hb.
    destruct Hb as [->|Hb]; [exact L | now apply Hg].
Qed.

Lemma sort_keyed_not_nil l : l <> [] -> Py.sort_keyed l <> [].
Proof.
  destruct l as [|[k x] r]; [congruence|]. intros _ E.
  assert (H : In (k, x) (Py.sort_keyed ((k, x) :: r))) by (apply in_sort_keyed; now left).
  rewrite E in H. destruct H.
Qed.

Lemma last_sort_keyed l d :
  Forall (fun b => PyFloat.is_nan (fst b) = false) l -> l <> [] ->
  greatest (last (Py.sort_keyed l) d) l.
Proof.
  intros Hl N.
  assert (G : greatest (last (Py.sort_keyed l) d) (Py.sort_keyed l)).
  { induction l as [|[k x] r IH]; [congruence|].
    inversion Hl as [|? ? Hk Hr]; subst. cbn [Py.sort_keyed].
    apply last_insert; trivial.
    - rewrite Forall_forall in *. intros b Hb. apply Hr. now apply in_sort_keyed.
    - intros Ns. apply IH; trivial. intros ->. now apply Ns. }
  destruct G as [G1 G2]. split.
  - now apply in_sort_keyed.
  - intros b Hb. apply G2. now apply in_sort_keyed.
Qed.

End PyFacts.

(** ** The store *)

Module StoreFacts.
Import StoreSpec.

Lemma unique_NoDup (ks : list string) : unique ks = true <-> NoDup ks.
Proof.
  induction ks as [|k r IH]; cbn.
  - split; [constructor | trivial].
  - rewrite andb_true_iff, negb_true_iff, IH. split.
    + intros [E H]. constructor; trivial. intros Hin.
      assert (X : existsb (String.eqb k) r = true).
      { apply existsb_exists. exists k. split; trivial. apply String.eqb_refl. }
      congruence.
    + intros H. inversion H as [|? ? Hn Hr]; subst. split; trivial.
      destruct (existsb (String.eqb k) r) eqn:E; trivial.
      apply existsb_exists in E. destruct E as [k' [Hin E]].
      apply String.eqb_eq in E. subst. tauto.
Qed.

Lemma get_in (st : Dict.t pyobject) key data :
  Dict.get st key = Some data -> In (key, data) st.
Proof.
  induction st as [|[k v] r IH]; cbn; [discriminate|].
  destruct (String.eqb_spec k key) as [->|]; [intros [= ->]; now left | auto].
Qed.

Lemma in_get (st : Dict.t pyobject) key data :
  NoDup (Dict.keys st) -> In (key, data) st -> Dict.get st key = Some data.
Proof.
  induction st as [|[k v] r IH]; cbn; [tauto|]. intros H Hin.
  inversion H as [|? ? Hn Hr]; subst.
  destruct Hin as [[= -> ->]|Hin]; [now rewrite String.eqb_refl|].
  destruct (String.eqb_spec k key) as [->|]; [|auto].
  exfalso. apply Hn. change key with (fst (key, data)). now apply in_map.
Qed.

(** [well_formed] in words. *)
Lemma well_formed_iff (st : Dict.t pyobject) :
  well_formed st = true <->
  NoDup (Dict.keys st)
  /\ forall key data, StateStore.reserved key = false ->
       Dict.get st key = Some data -> well_formed_data data = true.
Proof.
  unfold well_formed. rewrite andb_true_iff, unique_NoDup, forallb_forall.
  split; intros [U W]; split; trivial.
  - intros key data R G. apply get_in in G. apply W in G. cbn in G.
    now rewrite R in G.
  - intros [k v] Hin. cbn. destruct (StateStore.reserved k) eqn:R; trivial.
    apply (W k v R). now apply in_get.
Qed.

(** *** What the clean-up leaves alone *)

Lemma reserved_neq (k k' : string) :
  StateStore.reserved k = true -> StateStore.reserved k' = false -> k' <> k.
Proof. intros H H' ->. congruence. Qed.

Lemma cleanup_loop_reserved cutoff keys st k :
  StateStore.reserved k = true ->
  Dict.get (snd (StateStore.cleanup_loop cutoff keys st)) k = Dict.get st k.
Proof.
  intros R. revert st. induction keys as [|key rest IH]; intros st; cbn; trivial.
  destruct (StateStore.reserved key) eqn:Rk; [apply IH|].
  pose proof (reserved_neq _ _ R Rk) as N.
  destruct (Dict.get st key) as [data|]; trivial.
  destruct (StateStore.cleanup_data cutoff data); trivial; rewrite IH.
  - now apply DictFacts.get_put_other.
  - now apply DictFacts.get_del_other.
Qed.

Lemma save_state_reserved now s k :
  StateStore.reserved k = true ->
  Dict.get (StateStore.state (StateStore.save_state now s)) k
  = Dict.get (StateStore.state s) k.
Proof.
  intros R. unfold StateStore.save_state, StateStore._cleanup_old_data.
  pose proof (cleanup_loop_reserved (StateStore.cutoff s now)
                (Dict.keys (StateStore.state s)) (StateStore.state s) k R) as H.
  destruct (StateStore.cleanup_loop _ _ _). exact H.
Qed.

Lemma upsert_other key v timestamp st k :
  key <> k ->
  Dict.get (snd (StateStore.upsert key v timestamp st)) k = Dict.get st k.
Proof.
  intros N. unfold StateStore.upsert.
  destruct (Dict.get st key) as [[| | | | |d]|]; cbn;
    try now apply DictFacts.get_put_other.
  match goal with |- context [match ?o with Some _ => _ | None => _ end] =>
    destruct o end; cbn; now rewrite ?DictFacts.get_put_other.
Qed.

Lemma set_reserved key v timestamp t0 now s k :
  StateStore.reserved k = true -> key <> k ->
  Dict.get (StateStore.state (snd (StateStore.set key v timestamp t0 now s))) k
  = Dict.get (StateStore.state s) k.
Proof.
  intros R N. unfold StateStore.set.
  pose proof (upsert_other key v
    (match timestamp with Some t => t | None => t0 end) (StateStore.state s) k N) as H.
  destruct (StateStore.upsert _ _ _ _) as [[] st]; cbn in *; trivial.
  now rewrite save_state_reserved.
Qed.

End StoreFacts.

Module Retention.
Import StoreSpec StoreFacts.

Lemma timestamped_iff item :
  timestamped item = true <-> StateStore.timestamp_of item <> None.
Proof. unfold timestamped. destruct (StateStore.timestamp_of item); split; congruence. Qed.

Lemma fresh_enough_timestamped cutoff item :
  StateStore.fresh_enough cutoff item <> None <-> timestamped item = true.
Proof.
  unfold StateStore.fresh_enough, timestamped.
  destruct (StateStore.timestamp_of item); split; congruence.
Qed.

Lemma fresh_enough_true cutoff item :
  StateStore.fresh_enough cutoff item = Some true ->
  exists t, StateStore.timestamp_of item = Some t /\ PyFloat.ltb t cutoff = false.
Proof.
  unfold StateStore.fresh_enough.
  destruct (StateStore.timestamp_of item) as [t|]; [|discriminate].
  intros [= E]. exists t. split; trivial. now apply PyFloatFacts.leb_not_gt.
Qed.

Lemma history_of_put_history d l :
  history_of (VDict (Dict.put "history" (VList l) d)) = l.
Proof. cbn. now rewrite DictFacts.get_put_same. Qed.

Lemma cleanup_data_keep cutoff data data' :
  StateStore.cleanup_data cutoff data = StateStore.Keep data' ->
  pruned cutoff data'
  /\ (well_formed_data data = true -> well_formed_data data' = true).
Proof.
  unfold StateStore.cleanup_data.
  destruct data as [| | | | |d]; try (intros [= <-]; split; [intros ? []|trivial]).
  unfold Dict.mem.
  destruct (Dict.get d "history") as [h|] eqn:Eh.
  - destruct h as [| | | |l|]; try (intros [= <-]; split;
      [intros item; cbn; rewrite Eh; intros [] | trivial]).
    destruct (Py.filter (StateStore.fresh_enough cutoff) l) as [kept|] eqn:Ef;
      [|discriminate].
    destruct (_ && _); [discriminate|]. intros [= <-]. split.
    + intros item. rewrite history_of_put_history. intros Hin.
      apply fresh_enough_true.
      now destruct (PyFacts.filter_in _ _ _ _ Ef Hin).
    + intros _. cbn. rewrite DictFacts.get_put_same.
      apply forallb_forall. intros item Hin.
      destruct (PyFacts.filter_in _ _ _ _ Ef Hin) as [_ E].
      apply (fresh_enough_timestamped cutoff). congruence.
  - destruct (Dict.get d "timestamp");
      [destruct (StateStore.timestamp_of (VDict d)) as [t|];
       [destruct (PyFloat.ltb t cutoff)|]|];
      try discriminate; intros [= <-];
      (split; [intros item; cbn; rewrite Eh; intros [] | trivial]).
Qed.

Lemma cleanup_data_total cutoff data :
  well_formed_data data = true ->
  StateStore.cleanup_data cutoff data <> StateStore.Fail.
Proof.
  unfold StateStore.cleanup_data, well_formed_data.
  destruct data as [| | | | |d]; try discriminate.
  unfold Dict.mem.
  destruct (Dict.get d "history") as [h|] eqn:Eh.
  - destruct h as [| | | |l|]; try discriminate. intros W.
    destruct (PyFacts.filter_some (StateStore.fresh_enough cutoff) l) as [kept ->].
    + rewrite forallb_forall in W. apply Forall_forall. intros item Hin.
      apply fresh_enough_timestamped. auto.
    + destruct (_ && _); discriminate.
  - destruct (Dict.get d "timestamp"); [|discriminate].
    unfold timestamped.
    destruct (StateStore.timestamp_of (VDict d)) as [t|]; [|discriminate].
    destruct (PyFloat.ltb t cutoff); discriminate.
Qed.

Lemma cleanup_loop_prunes cutoff keys st :
  pending cutoff keys st ->
  exists st', StateStore.cleanup_loop cutoff keys st = (Returned, st')
              /\ pending cutoff [] st'.
Proof.
  revert st. induction keys as [|key rest IH]; intros st P; cbn.
  - eauto.
  - destruct P as (Uk & Ud & Hin & Hd).
    inversion Uk as [|? ? Hn Ur]; subst.
    destruct (StateStore.reserved key) eqn:R.
    { apply IH. repeat split; trivial.
      - intros k Hk. apply Hin. now right.
      - now apply (Hd k data).
      - intros Hk. apply (Hd k data); trivial. intros [->|]; [congruence|tauto]. }
    destruct (Dict.get st key) as [data|] eqn:G;
      [|exfalso; apply (Hin key); [now left | trivial]].
    destruct (Hd key data R G) as [W _].
    pose proof (cleanup_data_total cutoff data W) as T.
    destruct (StateStore.cleanup_data cutoff data) as [data'| |] eqn:C;
      [| |congruence]; apply IH; repeat split; trivial.
    + now apply DictFacts.nodup_put.
    + intros k Hk. rewrite DictFacts.get_put_other; [apply Hin; now right|].
      intros ->. tauto.
    + destruct (String.eqb_spec key k) as [->|N].
      * rewrite DictFacts.get_put_same in H0. injection H0 as <-.
        now apply (cleanup_data_keep _ _ _ C).
      * rewrite DictFacts.get_put_other in H0 by trivial. now apply (Hd k data0).
    + destruct (String.eqb_spec key k) as [->|N].
      * rewrite DictFacts.get_put_same in H0. injection H0 as <-.
        intros _. now apply (cleanup_data_keep _ _ _ C).
      * rewrite DictFacts.get_put_other in H0 by trivial. intros Hk.
        apply (Hd k data0); trivial. intros [->|]; tauto.
    + now apply DictFacts.nodup_del.
    + intros k Hk. rewrite DictFacts.get_del_other; [apply Hin; now right|].
      intros ->. tauto.
    + destruct (String.eqb_spec key k) as [->|N].
      * rewrite DictFacts.get_del_same in H0. discriminate.
      * rewrite DictFacts.get_del_other in H0 by trivial. now apply (Hd k data0).
    + destruct (String.eqb_spec key k) as [->|N].
      * rewrite DictFacts.get_del_same in H0. discriminate.
      * rewrite DictFacts.get_del_other in H0 by trivial. intros Hk.
        apply (Hd k data0); trivial. intros [->|]; tauto.
Qed.

Lemma pending_start cutoff st :
  well_formed st = true -> pending cutoff (Dict.keys st) st.
Proof.
  rewrite well_formed_iff. intros [U W]. repeat split; trivial.
  - intros k Hk E. apply in_map_iff in Hk. destruct Hk as [[k' v] [<- Hin]].
    apply in_get in Hin; trivial. cbn in E. congruence.
  - now apply (W k data).
  - intros N. exfalso. apply N. now apply DictFacts.get_in_keys with data.
Qed.

Lemma pending_end cutoff st :
  pending cutoff [] st ->
  well_formed st = true
  /\ forall k data, StateStore.reserved k = false ->
       Dict.get st k = Some data -> pruned cutoff data.
Proof.
  intros (_ & Ud & _ & Hd). split.
  - apply well_formed_iff. split; trivial. intros k data R G.
    now apply (Hd k data).
  - intros k data R G. apply (Hd k data); trivial. intros [].
Qed.

(** On a well-formed store the clean-up runs through, and prunes. *)
Lemma cleanup_prunes now s :
  well_formed (StateStore.state s) = true ->
  exists st',
    StateStore._cleanup_old_data now s = (Returned, StateStore.with_state s st')
    /\ well_formed st' = true
    /\ forall k data, StateStore.reserved k = false ->
         Dict.get st' k = Some data -> pruned (StateStore.cutoff s now) data.
Proof.
  intros W. unfold StateStore._cleanup_old_data.
  destruct (cleanup_loop_prunes _ _ _ (pending_start (StateStore.cutoff s now) _ W))
    as [st' [-> P]].
  exists st'. split; trivial. now apply pending_end.
Qed.

(** [set] keeps a store well formed. *)
Lemma timestamped_entry v timestamp :
  timestamped (StateStore.entry v timestamp) = true.
Proof. reflexivity. Qed.

Lemma upsert_well_formed key v timestamp st st' :
  well_formed st = true ->
  StateStore.upsert key v timestamp st = (Returned, st') ->
  well_formed st' = true.
Proof.
  rewrite !well_formed_iff. intros [U W]. unfold StateStore.upsert.
  assert (F : forall data, well_formed_data data = true ->
    NoDup (Dict.keys (Dict.put key data st))
    /\ forall k data', StateStore.reserved k = false ->
         Dict.get (Dict.put key data st) k = Some data' ->
         well_formed_data data' = true).
  { intros data Wd. split; [now apply DictFacts.nodup_put|].
    intros k data' R. destruct (String.eqb_spec key k) as [->|N].
    - rewrite DictFacts.get_put_same. now intros [= <-].
    - rewrite DictFacts.get_put_other by trivial. now apply W. }
  destruct (Dict.get st key) as [[| | | | |d]|] eqn:G;
    try (intros [= <-]; now apply F).
  match goal with |- context [match ?o with Some _ => _ | None => _ end] =>
    destruct o as [h|] eqn:E end; [|discriminate].
  intros [= <-].
  destruct (Py.iter _) as [items|]; [|discriminate].
  destruct (Py.filter _ items) as [kept|]; [|discriminate].
  assert (Wd : well_formed_data
    (VDict (Dict.put "history" (VList h)
       (Dict.put "latest" (StateStore.entry v timestamp) d))) = true).
  { cbn. rewrite DictFacts.get_put_same. apply forallb_forall. intros item Hin.
    apply timestamped_iff.
    pose proof (PyFacts.sorted_keys _ _ _ E) as K. rewrite Forall_forall in K.
    apply K. now apply (PyFacts.sorted_in _ _ _ item E). }
  split.
  - now apply DictFacts.nodup_put, DictFacts.nodup_put.
  - intros k data' R. destruct (String.eqb_spec key k) as [->|N].
    + rewrite DictFacts.get_put_same. now intros [= <-].
    + rewrite !DictFacts.get_put_other by trivial. now apply W.
Qed.

Lemma set_prunes s key v timestamp t0 now s' :
  well_formed (StateStore.state s) = true ->
  StateStore.set key v timestamp t0 now s = (Returned, s') ->
  well_formed (StateStore.state s') = true
  /\ forall k data, StateStore.reserved k = false ->
       Dict.get (StateStore.state s') k = Some data ->
       pruned (StateStore.cutoff s now) data.
Proof.
  intros W. unfold StateStore.set.
  destruct (StateStore.upsert _ _ _ _) as [[] st] eqn:U; [|discriminate].
  intros [= <-]. apply upsert_well_formed in U; trivial.
  unfold StateStore.save_state.
  destruct (cleanup_prunes now (StateStore.with_state s st) U) as (st' & -> & W' & P).
  now split.
Qed.

(** The stores the program builds are well formed: the empty one is,
    and [set_last_alert_time] keeps them so, as [set] does. *)
Lemma init_well_formed max_history_minutes :
  well_formed (StateStore.state (StateStore.__init__ max_history_minutes)) = true.
Proof. reflexivity. Qed.

Lemma put_reserved_well_formed st key data :
  well_formed st = true -> StateStore.reserved key = true ->
  well_formed (Dict.put key data st) = true.
Proof.
  rewrite !well_formed_iff. intros [U W] R. split.
  - now apply DictFacts.nodup_put.
  - intros k data' Rk G. rewrite DictFacts.get_put_other in G.
    + now apply (W k).
    + intros ->. congruence.
Qed.

Lemma save_state_well_formed now s :
  well_formed (StateStore.state s) = true ->
  well_formed (StateStore.state (StateStore.save_state now s)) = true.
Proof.
  intros W. unfold StateStore.save_state.
  now destruct (cleanup_prunes now s W) as (st' & -> & W' & _).
Qed.

Lemma set_last_alert_time_well_formed alert_key timestamp t0 now s :
  well_formed (StateStore.state s) = true ->
  well_formed
    (StateStore.state
       (snd (StateStore.set_last_alert_time alert_key timestamp t0 now s)))
  = true.
Proof.
  intros W. unfold StateStore.set_last_alert_time.
  set (st := if Dict.mem (StateStore.state s) "last_alert_times"
             then StateStore.state s
             else Dict.put "last_alert_times" (VDict []) (StateStore.state s)).
  assert (Wst : well_formed st = true).
  { unfold st. destruct (Dict.mem _ _); trivial.
    now apply put_reserved_well_formed. }
  destruct (Dict.get st "last_alert_times") as [[| | | | |table]|]; cbn [snd];
    trivial.
  apply save_state_well_formed. now apply put_reserved_well_formed.
Qed.

End Retention.

(** ** The claims on the store *)

(** C7, as amended.  On a well-formed store, when [set] has returned:
    the store is well formed again, and under every key that neither
    starts with an underscore nor is ["last_alert_times"] each item of
    the history has a timestamp that is not below
    [now - max_history_minutes * 60].  The keys the clean-up skips, the
    one being set apart, hold what they held. *)
Theorem C7_set_prunes_series
  (s s' : StateStore.self) (key : string) (v : pyobject)
  (timestamp : option PyFloat.t) (t0 now : PyFloat.t) :
  StoreSpec.well_formed (StateStore.state s) = true ->
  StateStore.set key v timestamp t0 now s = (Returned, s') ->
  StoreSpec.well_formed (StateStore.state s') = true
  /\ (forall k item,
        StateStore.reserved k = false ->
        In item (StoreSpec.history (StateStore.state s') k) ->
        exists t, StateStore.timestamp_of item = Some t
                  /\ (t <? now - PyFloat.of_Z (StateStore.max_history_minutes s * 60))%py
                     = false)
  /\ (forall k, StateStore.reserved k = true -> k <> key ->
        Dict.get (StateStore.state s') k = Dict.get (StateStore.state s) k).
Proof.
  intros W E. destruct (Retention.set_prunes _ _ _ _ _ _ _ W E) as [W' P].
  split; [exact W'|]. split.
  - intros k item R Hin. unfold StoreSpec.history in Hin.
    destruct (Dict.get (StateStore.state s') k) as [data|] eqn:G; [|destruct Hin].
    exact (P k data R G item Hin).
  - intros k R N.
    pose proof (StoreFacts.set_reserved key v timestamp t0 now s k R
                  (fun H => N (eq_sym H))) as H.
    now rewrite E in H.
Qed.

(** C7, as stated, fails: an entry set under a key that starts with
    an underscore stays, however old its timestamp. *)
Lemma C7_underscore_key_is_never_pruned :
  let now := PyFloat.of_Z 10000 in
  let r := StateStore.set "_meta" (VNum PyFloat.one) (Some PyFloat.zero)
             now now (StateStore.__init__ 60) in
  fst r = Returned
  /\ ~ (forall k item t,
          In item (StoreSpec.history (StateStore.state (snd r)) k) ->
          StateStore.timestamp_of item = Some t ->
          (t <? now - PyFloat.of_Z (60 * 60))%py = false).
Proof.
  split; [reflexivity|]. intros H.
  specialize (H "_meta" (StateStore.entry (VNum PyFloat.one) PyFloat.zero)
                PyFloat.zero (or_introl eq_refl) eq_refl).
  vm_compute in H. discriminate.
Qed.

(** C8.  A [set] on a key other than ["last_alert_times"] leaves the
    whole table of last alert times as it was, whether it returns or
    raises, and so does the clean-up of every [save_state]; what
    [get_last_alert_time] answers is unchanged. *)
Theorem C8_set_keeps_last_alert_times
  (s : StateStore.self) (key : string) (v : pyobject)
  (timestamp : option PyFloat.t) (t0 now : PyFloat.t) (alert_key : string) :
  key <> "last_alert_times" ->
  Dict.get (StateStore.state (snd (StateStore.set key v timestamp t0 now s)))
    "last_alert_times"
  = Dict.get (StateStore.state s) "last_alert_times"
  /\ StateStore.get_last_alert_time
       (snd (StateStore.set key v timestamp t0 now s)) alert_key
     = StateStore.get_last_alert_time s alert_key
  /\ StateStore.get_last_alert_time (StateStore.save_state now s) alert_key
     = StateStore.get_last_alert_time s alert_key.
Proof.
  intros N.
  pose proof (StoreFacts.set_reserved key v timestamp t0 now s
                "last_alert_times" eq_refl N) as H.
  unfold StateStore.get_last_alert_time.
  rewrite H, (StoreFacts.save_state_reserved now s "last_alert_times" eq_refl).
  auto.
Qed.

Lemma C7_set_prunes_series_witness :
  let s := Examples.store1 in
  let r := StateStore.set "dvol" (VNum (Examples.t 55)) (Some (Examples.t 5000))
             (Examples.t 5000) (Examples.t 5000) s in
  StoreSpec.well_formed (StateStore.state s) = true
  /\ r = (Returned, snd r)
  /\ StoreSpec.well_formed (StateStore.state (snd r)) = true
  /\ (forall k item,
        StateStore.reserved k = false ->
        In item (StoreSpec.history (StateStore.state (snd r)) k) ->
        exists t, StateStore.timestamp_of item = Some t
                  /\ (t <? Examples.t 5000
                           - PyFloat.of_Z (StateStore.max_history_minutes s * 60))%py
                     = false)
  /\ (forall k, StateStore.reserved k = true -> k <> "dvol" ->
        Dict.get (StateStore.state (snd r)) k = Dict.get (StateStore.state s) k).
Proof.
  cbv zeta.
  split; [vm_compute; reflexivity|].
  split; [vm_compute; reflexivity|].
  apply (C7_set_prunes_series Examples.store1 _ "dvol" (VNum (Examples.t 55))
           (Some (Examples.t 5000)) (Examples.t 5000) (Examples.t 5000));
    vm_compute; reflexivity.
Defined.

Lemma C8_set_keeps_last_alert_times_witness :
  let s := Examples.store2 in
  let r := StateStore.set "dvol" (VNum (Examples.t 55)) (Some (Examples.t 900000))
             (Examples.t 900000) (Examples.t 900000) s in
  "dvol" <> "last_alert_times"
  /\ Dict.get (StateStore.state (snd r)) "last_alert_times"
     = Dict.get (StateStore.state s) "last_alert_times"
  /\ StateStore.get_last_alert_time (snd r) "dvol_change"
     = StateStore.get_last_alert_time s "dvol_change"
  /\ StateStore.get_last_alert_time
       (StateStore.save_state (Examples.t 900000) s) "dvol_change"
     = StateStore.get_last_alert_time s "dvol_change".
Proof.
  cbv zeta. split; [discriminate|].
  apply (C8_set_keeps_last_alert_times Examples.store2 "dvol"). discriminate.
Defined.

(** *** [get_latest] *)

Lemma last_map {A B : Type} (f : A -> B) (l : list A) (d : A) :
  last (map f l) (f d) = f (last l d).
Proof. induction l as [|a [|b r] IH]; trivial. Qed.

(** C10.  For a key held as [{latest, history}] whose history items
    are entries with timestamps other than NaN: [get_latest] answers
    [None] when the history is empty, and otherwise an entry of the
    history whose timestamp no other entry exceeds.  The [latest]
    field has no part in the answer. *)
Theorem C10_get_latest_reads_history
  (s : StateStore.self) (key : string) (latest : pyobject) (h : list pyobject) :
  Dict.get (StateStore.state s) key
  = Some (VDict [("latest", latest); ("history", VList h)]) ->
  Forall (fun item => exists v t, item = StateStore.entry v t
                                  /\ PyFloat.is_nan t = false) h ->
  match h with
  | [] => StateStore.get_latest s key = Some VNone
  | _ :: _ =>
      exists v t,
        StateStore.get_latest s key = Some (StateStore.entry v t)
        /\ In (StateStore.entry v t) h
        /\ forall v' t', In (StateStore.entry v' t') h -> (t' <=? t)%py = true
  end.
Proof.
  intros G F. unfold StateStore.get_latest. rewrite G.
  destruct h as [|item0 h0]; [reflexivity|].
  set (h := item0 :: h0) in *.
  assert (K : Forall (fun x => StateStore.timestamp_of x <> None) h).
  { rewrite Forall_forall in *. intros x Hx.
    destruct (F x Hx) as (v & t & -> & _). discriminate. }
  destruct (PyFacts.with_keys_some _ _ K) as [kl Ekl].
  destruct (PyFacts.with_keys_spec _ _ _ Ekl) as [Em Ek].
  assert (Nkl : kl <> []) by (intros ->; discriminate).
  assert (Fk : Forall (fun b => PyFloat.is_nan (fst b) = false) kl).
  { rewrite Forall_forall in *. intros [k x] Hb. cbn.
    specialize (Ek _ Hb). cbn in Ek.
    assert (Hx : In x h) by (rewrite <- Em; now apply (in_map snd _ (k, x))).
    destruct (F x Hx) as (v & t & -> & Hn). cbn in Ek. congruence. }
  destruct (PyFacts.last_sort_keyed kl (PyFloat.zero, VNone) Fk Nkl) as [Hin Hmax].
  destruct (last (Py.sort_keyed kl) (PyFloat.zero, VNone)) as [k x] eqn:El.
  rewrite Forall_forall in Ek. pose proof (Ek _ Hin) as Ex. cbn in Ex.
  assert (Hx : In x h) by (rewrite <- Em; now apply (in_map snd _ (k, x))).
  rewrite Forall_forall in F. destruct (F x Hx) as (v & t & -> & Hn).
  cbn in Ex. injection Ex as <-.
  exists v, t. split; [|split; trivial].
  - cbn -[Py.sorted last h]. unfold Py.sorted. rewrite Ekl.
    change VNone with (snd (PyFloat.zero, VNone)).
    rewrite last_map, El. reflexivity.
  - intros v' t' Hin'.
    assert (Hb : In (t', StateStore.entry v' t') kl).
    { rewrite <- Em in Hin'. apply in_map_iff in Hin'.
      destruct Hin' as [[k' x'] [E' Hb]]. cbn in E'. subst x'.
      specialize (Ek _ Hb). cbn in Ek. now injection Ek as <-. }
    exact (Hmax _ Hb).
Qed.

Lemma C10_get_latest_reads_history_witness :
  let latest := StateStore.entry (VNum (Examples.t 7)) (Examples.t 9000) in
  let h := [StateStore.entry (VNum (Examples.t 50)) (Examples.t 1000);
            StateStore.entry (VNum (Examples.t 55)) (Examples.t 1060)] in
  let s := StateStore.mk 60
             [("dvol", VDict [("latest", latest); ("history", VList h)])] in
  Dict.get (StateStore.state s) "dvol"
  = Some (VDict [("latest", latest); ("history", VList h)])
  /\ Forall (fun item => exists v t, item = StateStore.entry v t
                                     /\ PyFloat.is_nan t = false) h
  /\ exists v t,
       StateStore.get_latest s "dvol" = Some (StateStore.entry v t)
       /\ In (StateStore.entry v t) h
       /\ forall v' t', In (StateStore.entry v' t') h -> (t' <=? t)%py = true.
Proof.
  cbv zeta.
  assert (F : Forall (fun item => exists v t, item = StateStore.entry v t
                                              /\ PyFloat.is_nan t = false)
                [StateStore.entry (VNum (Examples.t 50)) (Examples.t 1000);
                 StateStore.entry (VNum (Examples.t 55)) (Examples.t 1060)]).
  { repeat constructor; eexists; eexists; split; reflexivity. }
  split; [reflexivity|]. split; [exact F|].
  exact (C10_get_latest_reads_history
           (StateStore.mk 60 [("dvol", VDict [("latest", _); ("history", VList _)])])
           "dvol" _ _ eq_refl F).
Defined.

(** A history pruned to nothing: the key stays, with its [latest]
    field, and [get_latest] answers [None]. *)
Example C10_pruned_history_reports_nothing :
  let s := snd (StateStore.set "BTC-PERPETUAL" (VNum (Examples.t 1)) None
                  (Examples.t 9000) (Examples.t 9000) Examples.store1) in
  Dict.get (StateStore.state s) "dvol"
  = Some (VDict [("latest", StateStore.entry (VNum (Examples.t 50)) (Examples.t 1000));
                 ("history", VList [])])
  /\ StateStore.get_latest s "dvol" = Some VNone
  /\ StateStore.get_latest Examples.store1 "dvol"
     = Some (StateStore.entry (VNum (Examples.t 50)) (Examples.t 1000)).
Proof. vm_compute. repeat split. Qed.

(** ** The alert evaluator *)

Module MonitorFacts.
Import Monitor.

(** [set_last_alert_time] records, where [get_last_alert_time] did
    not raise. *)
Lemma set_last_alert_time_records s key timestamp t0 now :
  StateStore.get_last_alert_time s key <> None ->
  exists s',
    StateStore.set_last_alert_time key (Some timestamp) t0 now s = (Returned, s')
    /\ StateStore.get_last_alert_time s' key = Some (VNum timestamp).
Proof.
  unfold StateStore.get_last_alert_time, StateStore.set_last_alert_time, Dict.mem.
  destruct (Dict.get (StateStore.state s) "last_alert_times") as [table|] eqn:G.
  - rewrite G. destruct table as [| | | | |d]; cbn; try congruence. intros _.
    eexists. split; [reflexivity|].
    rewrite StoreFacts.save_state_reserved by reflexivity. cbn.
    rewrite DictFacts.get_put_same. cbn. unfold Dict.get_default.
    now rewrite DictFacts.get_put_same.
  - intros _. rewrite DictFacts.get_put_same.
    eexists. split; [reflexivity|].
    rewrite StoreFacts.save_state_reserved by reflexivity. cbn.
    rewrite DictFacts.get_put_same. cbn. unfold Dict.get_default. cbn.
    now rewrite String.eqb_refl.
Qed.

(** ... and leaves the times of the other keys as they were. *)
Lemma set_last_alert_time_other s key key' timestamp t0 now :
  key' <> key ->
  StateStore.get_last_alert_time
    (snd (StateStore.set_last_alert_time key' timestamp t0 now s)) key
  = StateStore.get_last_alert_time s key.
Proof.
  intros N. unfold StateStore.get_last_alert_time, StateStore.set_last_alert_time,
    Dict.mem.
  destruct (Dict.get (StateStore.state s) "last_alert_times") as [table|] eqn:G.
  - rewrite G. destruct table as [| | | | |d]; cbn [snd StateStore.with_state
      StateStore.state]; rewrite ?G; trivial.
    rewrite StoreFacts.save_state_reserved by reflexivity. cbn [StateStore.state
      StateStore.with_state].
    rewrite DictFacts.get_put_same. cbn. unfold Dict.get_default.
    now rewrite DictFacts.get_put_other.
  - rewrite DictFacts.get_put_same. cbn [snd].
    rewrite StoreFacts.save_state_reserved by reflexivity. cbn [StateStore.state
      StateStore.with_state].
    rewrite DictFacts.get_put_same. cbn. unfold Dict.get_default. cbn.
    destruct (String.eqb_spec key' key); [congruence | reflexivity].
Qed.

(** What [fire] does, case by case. *)
Lemma fire_not_eligible e m key now w t :
  StateStore.get_last_alert_time (state_store w) key = Some (VNum t) ->
  ((now - t) >=? cooldown_seconds m)%py = false ->
  fire e m key now w = (Some tt, w).
Proof.
  intros G E. unfold fire, _should_alert, bind, lift, ret. rewrite G. cbn.
  now rewrite E.
Qed.

Lemma fire_cases e m key now w :
  let last := StateStore.get_last_alert_time (state_store w) key in
  let w' := snd (fire e m key now w) in
  w' = w
  \/ exists ok,
       alerts w' = (alerts w ++ [{| alert_key := key; current_time := now;
                                    success := ok |}])%list
       /\ enable_alert m = true
       /\ (last = Some VNone
           \/ exists v t, last = Some v /\ Py.num v = Some t
                          /\ ((now - t) >=? cooldown_seconds m)%py = true)
       /\ (ok = true ->
           StateStore.get_last_alert_time (state_store w') key = Some (VNum now))
       /\ (ok = false -> state_store w' = state_store w).
Proof.
  cbv zeta. unfold fire, _should_alert, bind, lift, ret.
  destruct (StateStore.get_last_alert_time (state_store w) key) as [last|] eqn:G;
    [|now left].
  assert (S : forall (E : last = VNone
                        \/ exists t, Py.num last = Some t
                             /\ ((now - t) >=? cooldown_seconds m)%py = true),
    let r := (if enable_alert m
              then
                fun w0 =>
                  match send_feishu_alert e (feishu_webhook_url m) key now w0 with
                  | (Some a, w'0) =>
                      (if a then state_store_set_last_alert_time e key now
                       else fun w1 => (Some tt, w1)) w'0
                  | (None, w'0) => (None, w'0)
                  end
              else fun w0 => (Some tt, w0)) w in
    snd r = w
    \/ exists ok,
         alerts (snd r) = (alerts w ++ [{| alert_key := key; current_time := now;
                                           success := ok |}])%list
         /\ enable_alert m = true
         /\ (Some last = Some VNone
             \/ exists v t, Some last = Some v /\ Py.num v = Some t
                            /\ ((now - t) >=? cooldown_seconds m)%py = true)
         /\ (ok = true ->
             StateStore.get_last_alert_time (state_store (snd r)) key
             = Some (VNum now))
         /\ (ok = false -> state_store (snd r) = state_store w)).
  { intros E. cbv zeta. destruct (enable_alert m); [|now left]. right.
    unfold send_feishu_alert.
    set (ok := if String.eqb (feishu_webhook_url m) "" then false
               else feishu e (List.length (alerts w))).
    exists ok. cbn.
    assert (El : Some last = Some VNone
                 \/ exists v t, Some last = Some v /\ Py.num v = Some t
                      /\ ((now - t) >=? cooldown_seconds m)%py = true).
    { destruct E as [->|[t [E1 E2]]]; [now left | right; eauto]. }
    destruct ok; cbn.
    - unfold state_store_set_last_alert_time, on_store, bind, time_time_. cbn.
      destruct (set_last_alert_time_records (state_store w) key now
                  (time_time e (clock_reads w)) (time_time e (clock_reads w)))
        as (s' & -> & Gs); [congruence|].
      cbn. repeat split; trivial. discriminate.
    - repeat split; trivial. discriminate. }
  destruct last as [|b|x|str|l|d]; cbn.
  - apply S. now left.
  - destruct b; cbn;
      match goal with |- context [(?a >=? ?b)%py] =>
        destruct (a >=? b)%py eqn:E end; try (now left);
      apply S; right; eexists; (split; [reflexivity | exact E]).
  - destruct ((now - x) >=? cooldown_seconds m)%py eqn:E; [|now left].
    apply S. right. exists x. now split.
  - now left.
  - now left.
  - now left.
Qed.

(** With a history, [_check_dvol] compares with the value nearest to
    five minutes ago and runs its three rules in turn, then saves. *)
Lemma check_dvol_with_previous e m dvol_data now w h nearest rest previous :
  StateStore.get_history (state_store w) "dvol" 5 (time_time e (clock_reads w))
  = Some h ->
  h <> [] ->
  nearest_first (now - PyFloat.of_Z (5 * 60))%py h = Some (nearest :: rest) ->
  Py.get nearest "value" VNone = Some (VNum previous) ->
  let current := DeribitClient.value dvol_data in
  let t := dvol_value_thresholds m in
  _check_dvol e m dvol_data now w
  = ((match matched_specific_value (specific_values t)
              (or_default (specific_value_tolerance t) float:(0.5)) current with
      | Some target_value =>
          fire e m ("dvol_specific_" ++ str_of e target_value) now
      | None => ret tt
      end) ;;;
     (if should_alert_abs_value t current
      then fire e m "dvol_abs_value" now else ret tt) ;;;
     (if should_alert_change t current previous
      then fire e m "dvol_change" now else ret tt) ;;;
     state_store_set e "dvol" (VNum current) now)
      {| state_store := state_store w; clock_reads := S (clock_reads w);
         alerts := alerts w |}.
Proof.
  intros G N S V. cbv zeta.
  unfold _check_dvol, state_store_get_history, time_time_, bind, lift.
  cbn [state_store clock_reads alerts]. rewrite G.
  destruct h as [|x h0]; [congruence|]. cbn [Py.truthy negb].
  rewrite S, V. reflexivity.
Qed.

(** Without one, it saves and does nothing else. *)
Lemma check_dvol_first e m dvol_data now w :
  StateStore.get_history (state_store w) "dvol" 5 (time_time e (clock_reads w))
  = Some [] ->
  _check_dvol e m dvol_data now w
  = state_store_set e "dvol" (VNum (DeribitClient.value dvol_data)) now
      {| state_store := state_store w; clock_reads := S (clock_reads w);
         alerts := alerts w |}.
Proof.
  intros G. unfold _check_dvol, state_store_get_history, time_time_, bind.
  cbn [state_store clock_reads alerts]. rewrite G. reflexivity.
Qed.

Lemma state_store_set_alerts e key v timestamp w :
  alerts (snd (state_store_set e key v timestamp w)) = alerts w.
Proof.
  unfold state_store_set, on_store, bind, time_time_.
  cbn [state_store clock_reads alerts].
  now destruct (StateStore.set _ _ _ _ _ _) as [[] s].
Qed.

(** Whatever the index is, its first observation sends nothing. *)
Lemma check_dvol_first_sends_nothing e m dvol_data now w :
  Dict.get (StateStore.state (state_store w)) "dvol" = None ->
  alerts (snd (_check_dvol e m dvol_data now w)) = alerts w.
Proof.
  intros G. rewrite check_dvol_first.
  - now rewrite state_store_set_alerts.
  - unfold StateStore.get_history. now rewrite G.
Qed.

(** The recorded time of a key is not touched by the alerts of the
    other keys, nor by the series the monitor writes. *)
Lemma fire_other_key e m key key' now w :
  key' <> key ->
  StateStore.get_last_alert_time (state_store (snd (fire e m key' now w))) key
  = StateStore.get_last_alert_time (state_store w) key.
Proof.
  intros N. unfold fire, _should_alert, bind, lift, ret.
  destruct (StateStore.get_last_alert_time (state_store w) key') as [last|];
    trivial.
  assert (S : forall b : bool,
    StateStore.get_last_alert_time
      (state_store
         (snd ((if negb b then fun w0 => (Some tt, w0)
                else if enable_alert m
                     then fun w0 =>
                            match send_feishu_alert e (feishu_webhook_url m)
                                    key' now w0 with
                            | (Some a, w'0) =>
                                (if a then state_store_set_last_alert_time e key' now
                                 else fun w1 => (Some tt, w1)) w'0
                            | (None, w'0) => (None, w'0)
                            end
                     else fun w0 => (Some tt, w0)) w))) key
    = StateStore.get_last_alert_time (state_store w) key).
  { intros [|]; cbn [negb]; trivial. destruct (enable_alert m); trivial.
    unfold send_feishu_alert.
    destruct (if String.eqb (feishu_webhook_url m) "" then false
              else feishu e (List.length (alerts w))); trivial.
    unfold state_store_set_last_alert_time, on_store, bind, time_time_.
    cbn [state_store clock_reads alerts].
    pose proof (set_last_alert_time_other (state_store w) key key' (Some now)
                  (time_time e (clock_reads w)) (time_time e (clock_reads w)) N)
      as H.
    now destruct (StateStore.set_last_alert_time _ _ _ _ _) as [[] s']. }
  destruct last as [|[|]|x|str|l|d]; cbn;
    try match goal with |- context [(?a >=? ?b)%py] =>
          destruct (a >=? b)%py end;
    first [reflexivity | exact (S true) | exact (S false)].
Qed.

Lemma state_store_set_keeps_alert_times e series v timestamp key w :
  series <> "last_alert_times" ->
  StateStore.get_last_alert_time
    (state_store (snd (state_store_set e series v timestamp w))) key
  = StateStore.get_last_alert_time (state_store w) key.
Proof.
  intros N. unfold state_store_set, on_store, bind, time_time_.
  cbn [state_store clock_reads alerts].
  pose proof (StoreFacts.set_reserved series v (Some timestamp)
                (time_time e (clock_reads w)) (time_time e (clock_reads w))
                (state_store w) "last_alert_times" eq_refl N) as H.
  destruct (StateStore.set _ _ _ _ _ _) as [[] s']; cbn in *;
    unfold StateStore.get_last_alert_time; now rewrite H.
Qed.

End MonitorFacts.

Module CooldownFacts.
Import Monitor CooldownSpec.

Lemma last_success_snoc key log a :
  last_success key (log ++ [a])
  = if success a && String.eqb (alert_key a) key then Some a
    else last_success key log.
Proof.
  induction log as [|x rest IH]; cbn.
  - now destruct (success a && String.eqb (alert_key a) key).
  - rewrite IH. destruct (success a && String.eqb (alert_key a) key); trivial.
Qed.

Lemma spaced_after_app cooldown earlier l1 l2 :
  spaced_after cooldown earlier (l1 ++ l2)
  <-> spaced_after cooldown earlier l1
      /\ spaced_after cooldown (earlier ++ l1) l2.
Proof.
  revert earlier. induction l1 as [|a rest IH]; intros earlier; cbn.
  - rewrite app_nil_r. tauto.
  - rewrite IH, <- app_assoc. cbn. tauto.
Qed.

Lemma spaced_snoc cooldown log a :
  spaced cooldown (log ++ [a])
  <-> spaced cooldown log
      /\ (success a = true ->
          forall b, last_success (alert_key a) log = Some b ->
                    ((current_time a - current_time b) >=? cooldown)%py = true).
Proof. unfold spaced. rewrite spaced_after_app. cbn. tauto. Qed.

Lemma preserves_ret {A : Type} P (a : A) : preserves P (ret a).
Proof. intros w H. exact H. Qed.

Lemma preserves_lift {A : Type} P (o : option A) : preserves P (lift o).
Proof. intros w H. exact H. Qed.

Lemma preserves_bind {A B : Type} P (m : M A) (k : A -> M B) :
  preserves P m -> (forall a, preserves P (k a)) -> preserves P (bind m k).
Proof.
  intros Hm Hk w H. unfold bind. specialize (Hm w H).
  destruct (m w) as [[a|] w']; cbn in *; [now apply Hk | exact Hm].
Qed.

(** [spaced], said of any two deliveries that follow each other. *)
Lemma spaced_spec cooldown log pre a post b :
  spaced cooldown log -> log = (pre ++ a :: post)%list ->
  success a = true -> last_success (alert_key a) pre = Some b ->
  ((current_time a - current_time b) >=? cooldown)%py = true.
Proof.
  unfold spaced. intros S -> Ha Hb. apply spaced_after_app in S.
  destruct S as [_ [S _]]. now apply S.
Qed.

Lemma cooled_ext m w w' :
  state_store w' = state_store w -> alerts w' = alerts w ->
  cooled m w -> cooled m w'.
Proof.
  unfold cooled, recorded. intros Es Ea [R G]. rewrite Es, Ea. now split.
Qed.

Lemma fire_cooled e m key now : preserves (cooled m) (fire e m key now).
Proof.
  intros w [R G].
  destruct (MonitorFacts.fire_cases e m key now w)
    as [->|(ok & A & En & El & Rk & F)]; [now split|].
  split.
  - intros k b. rewrite A, last_success_snoc. cbn [success alert_key].
    destruct ok; cbn [andb].
    + destruct (String.eqb_spec key k) as [<-|N].
      * intros [= <-]. cbn. now apply Rk.
      * intros L. rewrite MonitorFacts.fire_other_key by trivial. now apply R.
    + intros L. rewrite (F eq_refl). now apply R.
  - rewrite A. apply spaced_snoc. split; trivial. cbn. intros -> b L.
    pose proof (R _ _ L) as Gl.
    destruct El as [El|(v & t & Ev & Nv & C)]; rewrite Gl in *; [discriminate|].
    injection Ev as <-. cbn in Nv. injection Nv as <-. exact C.
Qed.

Lemma state_store_set_cooled e m series v timestamp :
  series <> "last_alert_times" ->
  preserves (cooled m) (state_store_set e series v timestamp).
Proof.
  intros N w [R G]. split.
  - intros k b. rewrite MonitorFacts.state_store_set_alerts.
    rewrite MonitorFacts.state_store_set_keeps_alert_times by trivial.
    apply R.
  - now rewrite MonitorFacts.state_store_set_alerts.
Qed.

Lemma state_store_get_history_cooled e m key minutes :
  preserves (cooled m) (state_store_get_history e key minutes).
Proof.
  intros w H. unfold state_store_get_history, bind, time_time_. cbn.
  now apply cooled_ext with w.
Qed.

Lemma check_levels_cooled e m metric instrument x l1 l2 l3 now :
  preserves (cooled m) (check_levels e m metric instrument x l1 l2 l3 now).
Proof.
  unfold check_levels. destruct (alert_level x l1 l2 l3) as [[? sev]|].
  - apply fire_cooled.
  - apply preserves_ret.
Qed.

Lemma check_position_cooled e m position now :
  DeribitClient.instrument_name position <> "last_alert_times" ->
  preserves (cooled m) (check_position e m position now).
Proof.
  intros N. unfold check_position.
  assert (G : preserves (cooled m) (_check_gamma_levels e m position now))
    by apply check_levels_cooled.
  assert (V : preserves (cooled m) (_check_vega_threshold e m position now))
    by apply check_levels_cooled.
  assert (S : preserves (cooled m)
                (state_store_set e (DeribitClient.instrument_name position)
                   (position_record position) now))
    by now apply state_store_set_cooled.
  assert (F : preserves (cooled m)
                (state_store_set e (DeribitClient.instrument_name position)
                   (position_record position) now ;;;
                 _check_gamma_levels e m position now ;;;
                 _check_vega_threshold e m position now)).
  { repeat (apply preserves_bind; [trivial | intros _]). exact V. }
  apply preserves_bind; [apply state_store_get_history_cooled | intros h].
  destruct (negb (Py.truthy (VList h))); [exact F|].
  apply preserves_bind; [apply preserves_lift | intros hs].
  destruct (negb (Py.truthy (VList hs))); [exact F|].
  repeat (apply preserves_bind; [trivial | intros _]). exact S.
Qed.

Lemma check_positions_cooled e m positions now :
  Forall (fun p => DeribitClient.instrument_name p <> "last_alert_times")
    positions ->
  preserves (cooled m) (_check_positions e m positions now).
Proof.
  induction 1 as [|p rest Hp _ IH]; cbn [_check_positions].
  - apply preserves_ret.
  - apply preserves_bind; [now apply check_position_cooled | intros _; exact IH].
Qed.

Lemma check_dvol_cooled e m dvol_data now :
  preserves (cooled m) (_check_dvol e m dvol_data now).
Proof.
  unfold _check_dvol.
  assert (S : preserves (cooled m)
                (state_store_set e "dvol"
                   (VNum (DeribitClient.value dvol_data)) now))
    by (apply state_store_set_cooled; discriminate).
  apply preserves_bind; [apply state_store_get_history_cooled | intros h].
  destruct (negb (Py.truthy (VList h))); [exact S|].
  apply preserves_bind; [apply preserves_lift | intros [|nearest rest]];
    [exact S|].
  apply preserves_bind; [apply preserves_lift | intros previous].
  assert (Rules : forall previous_dvol,
    preserves (cooled m)
      ((match matched_specific_value
                (specific_values (dvol_value_thresholds m))
                (or_default (specific_value_tolerance (dvol_value_thresholds m))
                   float:(0.5))
                (DeribitClient.value dvol_data) with
        | Some target_value =>
            fire e m ("dvol_specific_" ++ str_of e target_value) now
        | None => ret tt
        end) ;;;
       (if should_alert_abs_value (dvol_value_thresholds m)
             (DeribitClient.value dvol_data)
        then fire e m "dvol_abs_value" now else ret tt) ;;;
       (if should_alert_change (dvol_value_thresholds m)
             (DeribitClient.value dvol_data) previous_dvol
        then fire e m "dvol_change" now else ret tt) ;;;
       state_store_set e "dvol" (VNum (DeribitClient.value dvol_data)) now)).
  { intros previous_dvol.
    apply preserves_bind;
      [destruct (matched_specific_value _ _ _);
         [apply fire_cooled | apply preserves_ret] | intros _].
    apply preserves_bind;
      [destruct (should_alert_abs_value _ _);
         [apply fire_cooled | apply preserves_ret] | intros _].
    apply preserves_bind;
      [destruct (should_alert_change _ _ _);
         [apply fire_cooled | apply preserves_ret] | intros _].
    exact S. }
  destruct previous; trivial;
    (apply preserves_bind; [apply preserves_lift | intros y; apply Rules]).
Qed.

End CooldownFacts.

(** ** The rules of the index, one by one *)

Module RuleFacts.
Import Monitor CycleSpec.

(** [fire] returns when the time the store holds for the key reads. *)
Lemma fire_returns e m key now w :
  (exists v,
     StateStore.get_last_alert_time (state_store w) key = Some v
     /\ (v = VNone \/ exists t, Py.num v = Some t)) ->
  fst (fire e m key now w) = Some tt.
Proof.
  intros (v & G & R). unfold fire, _should_alert, bind, lift, ret. rewrite G.
  assert (Send : forall ok : bool,
    fst ((if negb ok then fun w0 => (Some tt, w0)
          else if enable_alert m
               then fun w0 =>
                      match send_feishu_alert e (feishu_webhook_url m) key now w0
                      with
                      | (Some a, w'0) =>
                          (if a then state_store_set_last_alert_time e key now
                           else fun w1 => (Some tt, w1)) w'0
                      | (None, w'0) => (None, w'0)
                      end
               else fun w0 => (Some tt, w0)) w) = Some tt).
  { intros [|]; cbn [negb]; trivial. destruct (enable_alert m); trivial.
    unfold send_feishu_alert.
    destruct (if String.eqb (feishu_webhook_url m) "" then false
              else feishu e (List.length (alerts w))); trivial.
    unfold state_store_set_last_alert_time, on_store, bind, time_time_.
    cbn [state_store clock_reads alerts].
    destruct (MonitorFacts.set_last_alert_time_records (state_store w) key now
                (time_time e (clock_reads w)) (time_time e (clock_reads w)))
      as (s' & -> & _); [congruence | reflexivity]. }
  destruct R as [->|[t Nv]]; [exact (Send true)|].
  destruct v as [|b|x|str|l|d]; try discriminate Nv; cbn.
  - destruct b; cbn; apply Send.
  - apply Send.
Qed.

(** What [fire] adds to the log is for its key. *)
Lemma fire_log e m key now w :
  exists new,
    alerts (snd (fire e m key now w)) = (alerts w ++ new)%list
    /\ Forall (fun a => alert_key a = key) new.
Proof.
  destruct (MonitorFacts.fire_cases e m key now w)
    as [->|(ok & A & _)].
  - exists []. rewrite app_nil_r. split; [reflexivity | constructor].
  - eexists. split; [exact A|]. repeat constructor.
Qed.

(** It hands the alert to the webhook when alerts are enabled and the
    cool-down is over. *)
Lemma fire_delivers e m key now w :
  enable_alert m = true -> eligible m key now w ->
  exists ok,
    alerts (snd (fire e m key now w))
    = (alerts w ++ [{| alert_key := key; current_time := now;
                       success := ok |}])%list.
Proof.
  intros En El. unfold fire, _should_alert, bind, lift, ret.
  assert (Send : exists ok,
    alerts
      (snd ((if negb true then fun w0 => (Some tt, w0)
             else if enable_alert m
                  then fun w0 =>
                         match send_feishu_alert e (feishu_webhook_url m)
                                 key now w0 with
                         | (Some a, w'0) =>
                             (if a then state_store_set_last_alert_time e key now
                              else fun w1 => (Some tt, w1)) w'0
                         | (None, w'0) => (None, w'0)
                         end
                  else fun w0 => (Some tt, w0)) w))
    = (alerts w ++ [{| alert_key := key; current_time := now;
                       success := ok |}])%list).
  { cbn [negb]. rewrite En. unfold send_feishu_alert.
    set (ok := if String.eqb (feishu_webhook_url m) "" then false
               else feishu e (List.length (alerts w))).
    exists ok. destruct ok; [|reflexivity].
    unfold state_store_set_last_alert_time, on_store, bind, time_time_.
    cbn [state_store clock_reads alerts].
    now destruct (StateStore.set_last_alert_time _ _ _ _ _) as [[] s']. }
  destruct El as [G|(v & t & G & Nv & C)]; rewrite G.
  - exact Send.
  - destruct v as [|b|x|str|l|d]; try discriminate Nv.
    + destruct b; injection Nv as <-; cbn [Py.num]; rewrite C; exact Send.
    + injection Nv as <-. cbn [Py.num]. rewrite C. exact Send.
Qed.

(** The table of last alert times still reads after it. *)
Lemma fire_readable e m key now w :
  readable w -> readable (snd (fire e m key now w)).
Proof.
  intros R k. destruct (String.eqb_spec key k) as [<-|N].
  - destruct (MonitorFacts.fire_cases e m key now w)
      as [->|(ok & _ & _ & _ & Rk & F)]; [apply R|].
    destruct ok.
    + exists (VNum now). split; [now apply Rk|]. right. now exists now.
    + rewrite (F eq_refl). apply R.
  - rewrite MonitorFacts.fire_other_key by trivial. apply R.
Qed.

Section Rule.
Variables (e : env) (m : self) (now : PyFloat.t).

(** A rule of [_check_dvol]: [fire] for the key when the condition
    holds. *)
Let rule (cond : bool) (key : string) : M unit :=
  if cond then fire e m key now else ret tt.

Lemma rule_spec cond key w :
  exists new,
    alerts (snd (rule cond key w)) = (alerts w ++ new)%list
    /\ Forall (fun a => alert_key a = key /\ cond = true) new
    /\ (readable w ->
        fst (rule cond key w) = Some tt /\ readable (snd (rule cond key w)))
    /\ (forall k, k <> key ->
          StateStore.get_last_alert_time (state_store (snd (rule cond key w))) k
          = StateStore.get_last_alert_time (state_store w) k)
    /\ (cond = true -> enable_alert m = true -> eligible m key now w ->
        exists ok, new = [{| alert_key := key; current_time := now;
                             success := ok |}]).
Proof.
  unfold rule. destruct cond.
  - destruct (fire_log e m key now w) as (new & A & F).
    exists new. split; [exact A|]. split.
    { eapply Forall_impl; [|exact F]. cbn. auto. }
    split; [|split].
    + intros R. split; [apply fire_returns, R | now apply fire_readable].
    + intros k N. apply MonitorFacts.fire_other_key. congruence.
    + intros _ En El. destruct (fire_delivers e m key now w En El) as [ok A'].
      exists ok. rewrite A' in A. now apply app_inv_head in A.
  - exists []. cbn. rewrite app_nil_r. split; [reflexivity|].
    split; [constructor|]. split; [auto|]. split; [auto | discriminate].
Qed.

End Rule.

(** The keys of the three alerts of the index differ. *)
Lemma specific_key_apart (s : string) :
  "dvol_specific_" ++ s <> "dvol_abs_value"
  /\ "dvol_specific_" ++ s <> "dvol_change".
Proof. split; intros H; cbn in H; discriminate H. Qed.

(** With a value to compare with, [_check_dvol] runs its three rules
    in turn, then saves. *)
Lemma check_dvol_unfold e m dvol_data now w previous :
  previous_value e now w previous ->
  let current := DeribitClient.value dvol_data in
  let t := dvol_value_thresholds m in
  _check_dvol e m dvol_data now w
  = ((match matched_specific_value (specific_values t)
              (or_default (specific_value_tolerance t) float:(0.5)) current with
      | Some target_value =>
          fire e m ("dvol_specific_" ++ str_of e target_value) now
      | None => ret tt
      end) ;;;
     (if should_alert_abs_value t current
      then fire e m "dvol_abs_value" now else ret tt) ;;;
     (if should_alert_change t current previous
      then fire e m "dvol_change" now else ret tt) ;;;
     state_store_set e "dvol" (VNum current) now) (clock_read w).
Proof.
  intros (h & nearest & rest & v & G & N & S & V & NN & Nv). cbv zeta.
  unfold _check_dvol, state_store_get_history, time_time_, bind, lift, clock_read.
  cbn [state_store clock_reads alerts]. rewrite G.
  destruct h as [|x h0]; [congruence|]. cbn [Py.truthy negb].
  rewrite S, V.
  destruct v; try congruence; rewrite Nv; reflexivity.
Qed.

(** What the three rules add to the log: the alerts of the specific
    values, then those of the absolute rule, then those of the change
    rule; each rule's are there only when its condition holds, and are
    there when it holds, the table of last alert times reads, alerts
    are enabled and the cool-down of the key is over. *)
Lemma check_dvol_rules e m dvol_data now w previous :
  previous_value e now w previous ->
  let current := DeribitClient.value dvol_data in
  let t := dvol_value_thresholds m in
  exists nA nB nC,
    alerts (snd (_check_dvol e m dvol_data now w))
    = (alerts w ++ nA ++ nB ++ nC)%list
    /\ Forall (fun a => exists tv,
                 alert_key a = "dvol_specific_" ++ str_of e tv) nA
    /\ Forall (fun a => alert_key a = "dvol_abs_value"
                        /\ should_alert_abs_value t current = true) nB
    /\ Forall (fun a => alert_key a = "dvol_change"
                        /\ should_alert_change t current previous = true) nC
    /\ (readable w -> enable_alert m = true ->
        (should_alert_abs_value t current = true ->
         eligible m "dvol_abs_value" now w ->
         exists ok, nB = [{| alert_key := "dvol_abs_value";
                            current_time := now; success := ok |}])
        /\ (should_alert_change t current previous = true ->
            eligible m "dvol_change" now w ->
            exists ok, nC = [{| alert_key := "dvol_change";
                               current_time := now; success := ok |}])).
Proof.
  intros P. cbv zeta. rewrite (check_dvol_unfold e m dvol_data now w previous P).
  set (current := DeribitClient.value dvol_data).
  set (t := dvol_value_thresholds m).
  set (condB := should_alert_abs_value t current).
  set (condC := should_alert_change t current previous).
  assert (HA : exists condA tv,
    (match matched_specific_value (specific_values t)
             (or_default (specific_value_tolerance t) float:(0.5)) current with
     | Some target_value =>
         fire e m ("dvol_specific_" ++ str_of e target_value) now
     | None => ret tt
     end)
    = (if condA : bool then fire e m ("dvol_specific_" ++ str_of e tv) now
       else ret tt)).
  { destruct (matched_specific_value _ _ _) as [tv|].
    - now exists true, tv.
    - now exists false, PyFloat.zero. }
  destruct HA as (condA & tv & ->).
  set (keyA := "dvol_specific_" ++ str_of e tv).
  destruct (specific_key_apart (str_of e tv)) as [AB AC]. fold keyA in AB, AC.
  set (w0 := clock_read w).
  assert (Same : forall key w1,
            StateStore.get_last_alert_time (state_store w1) key
            = StateStore.get_last_alert_time (state_store w) key ->
            eligible m key now w -> eligible m key now w1).
  { intros key w1 E. unfold eligible. cbv zeta. now rewrite E. }
  unfold bind.
  destruct (rule_spec e m now condA keyA w0) as (nA & AA & FA & RA & OA & _).
  assert (FA' : Forall (fun a => exists tv0,
                          alert_key a = "dvol_specific_" ++ str_of e tv0) nA).
  { eapply Forall_impl; [|exact FA]. cbn. intros a [K _]. now exists tv. }
  destruct ((if condA then fire e m keyA now else ret tt) w0) as [[[]|] w1];
    cbn [fst snd] in *.
  2:{ exists nA, [], []. rewrite !app_nil_r. split; [exact AA|].
      split; [exact FA'|]. split; [constructor|]. split; [constructor|].
      intros R. destruct (RA R) as [X _]. discriminate X. }
  destruct (rule_spec e m now condB "dvol_abs_value" w1)
    as (nB & AB' & FB & RB & OB & DB).
  destruct ((if condB then fire e m "dvol_abs_value" now else ret tt) w1)
    as [[[]|] w2]; cbn [fst snd] in *.
  2:{ exists nA, nB, []. rewrite !app_nil_r. split; [now rewrite AB', AA, app_assoc|].
      split; [exact FA'|]. split; [exact FB|]. split; [constructor|].
      intros R. destruct (RA R) as [_ R1]. destruct (RB R1) as [X _].
      discriminate X. }
  destruct (rule_spec e m now condC "dvol_change" w2)
    as (nC & AC' & FC & RC & OC & DC).
  assert (Log : alerts
                  (snd (match (if condC then fire e m "dvol_change" now
                               else ret tt) w2 with
                        | (Some _, w') =>
                            state_store_set e "dvol" (VNum current) now w'
                        | (None, w') => (None, w')
                        end))
                = (alerts w ++ nA ++ nB ++ nC)%list).
  { destruct ((if condC then fire e m "dvol_change" now else ret tt) w2)
      as [[[]|] w3]; cbn [fst snd] in *;
      rewrite ?MonitorFacts.state_store_set_alerts, AC', AB', AA;
      now rewrite <- !app_assoc. }
  exists nA, nB, nC. split; [exact Log|]. split; [exact FA'|].
  split; [exact FB|]. split; [exact FC|].
  intros R En. split.
  - intros CB El. apply DB; trivial. apply Same; [|exact El].
    now rewrite OA by congruence.
  - intros CC El. apply DC; trivial. apply Same; [|exact El].
    rewrite OB by discriminate. now rewrite OA by congruence.
Qed.

(** An alert among those of the three rules is of the rule whose key
    it carries. *)
Lemma check_dvol_abs_value e m dvol_data now w previous :
  previous_value e now w previous ->
  let current := DeribitClient.value dvol_data in
  let t := dvol_value_thresholds m in
  exists new,
    alerts (snd (_check_dvol e m dvol_data now w)) = (alerts w ++ new)%list
    /\ ((exists a, In a new /\ alert_key a = "dvol_abs_value") ->
        should_alert_abs_value t current = true)
    /\ (should_alert_abs_value t current = true ->
        readable w -> enable_alert m = true ->
        eligible m "dvol_abs_value" now w ->
        fired "dvol_abs_value" now new).
Proof.
  intros P. cbv zeta.
  destruct (check_dvol_rules e m dvol_data now w previous P)
    as (nA & nB & nC & A & FA & FB & FC & D).
  exists (nA ++ nB ++ nC)%list. split; [exact A|]. split.
  - intros (a & I & K). rewrite Forall_forall in FA, FB, FC.
    apply in_app_or in I. destruct I as [I|I].
    { destruct (FA a I) as [tv Ka]. rewrite K in Ka.
      now destruct (specific_key_apart (str_of e tv)) as [N _]. }
    apply in_app_or in I. destruct I as [I|I].
    + now destruct (FB a I).
    + destruct (FC a I) as [Kc _]. rewrite K in Kc. discriminate Kc.
  - intros C R En El. destruct (proj1 (D R En) C El) as [ok ->].
    exists ok. apply in_or_app. right. now left.
Qed.

Lemma check_dvol_change e m dvol_data now w previous :
  previous_value e now w previous ->
  let current := DeribitClient.value dvol_data in
  let t := dvol_value_thresholds m in
  exists new,
    alerts (snd (_check_dvol e m dvol_data now w)) = (alerts w ++ new)%list
    /\ ((exists a, In a new /\ alert_key a = "dvol_change") ->
        should_alert_change t current previous = true)
    /\ (should_alert_change t current previous = true ->
        readable w -> enable_alert m = true ->
        eligible m "dvol_change" now w ->
        fired "dvol_change" now new).
Proof.
  intros P. cbv zeta.
  destruct (check_dvol_rules e m dvol_data now w previous P)
    as (nA & nB & nC & A & FA & FB & FC & D).
  exists (nA ++ nB ++ nC)%list. split; [exact A|]. split.
  - intros (a & I & K). rewrite Forall_forall in FA, FB, FC.
    apply in_app_or in I. destruct I as [I|I].
    { destruct (FA a I) as [tv Ka]. rewrite K in Ka.
      now destruct (specific_key_apart (str_of e tv)) as [_ N]. }
    apply in_app_or in I. destruct I as [I|I].
    + destruct (FB a I) as [Kb _]. rewrite K in Kb. discriminate Kb.
    + now destruct (FC a I).
  - intros C R En El. destruct (proj2 (D R En) C El) as [ok ->].
    exists ok. apply in_or_app. right. apply in_or_app. right. now left.
Qed.

(** A store without a table of last alert times reads, and every
    alert passes its cool-down. *)
Lemma no_table_readable m now w :
  table w = None -> readable w /\ forall key, eligible m key now w.
Proof.
  unfold table. intros T.
  assert (G : forall key,
            StateStore.get_last_alert_time (state_store w) key = Some VNone).
  { intros key. unfold StateStore.get_last_alert_time, Dict.get_default.
    now rewrite T. }
  split.
  - intros key. exists VNone. split; [apply G | now left].
  - intros key. left. apply G.
Qed.

End RuleFacts.

(** ** The claims on the alert evaluator *)

Import Monitor.

(** Every alert of the monitor is [fire] at its key: the level alerts
    of Gamma and Vega ... *)
Lemma check_levels_fires e m metric instrument x l1 l2 l3 now w :
  check_levels e m metric instrument x l1 l2 l3 now w
  = match alert_level x l1 l2 l3 with
    | Some (_, sev) =>
        fire e m (instrument ++ "_" ++ metric ++ "_level_" ++ severity_name sev)
          now w
    | None => (Some tt, w)
    end.
Proof. unfold check_levels. now destruct (alert_level x l1 l2 l3) as [[? ?]|]. Qed.

(** C1.  [fire] is what every alert of the monitor does at its key.
    It either leaves the world as it is, or hands one alert for that
    key to the webhook; it does the latter only when alerts are
    enabled and the store holds no last alert time for the key or
    [current_time - last_alert_time >= cooldown_seconds].  When the
    delivery succeeds the store holds [current_time] for the key, and
    then, as long as it does, [fire] for that key at a time less than
    [cooldown_seconds] later sends nothing; when the delivery fails
    the store is what it was.
    Over the cycles: from a log of alerts that is empty, through any
    checks of positions (none of them named ["last_alert_times"]) and
    of the index, every successful delivery comes at least
    [cooldown_seconds] after the successful delivery for the same key
    before it. *)
Theorem C1_cooldown_gates_delivery
  (e : env) (m : self) (key : string) (now : PyFloat.t) (w : world) :
  (let last := StateStore.get_last_alert_time (state_store w) key in
   let w' := snd (fire e m key now w) in
   w' = w
   \/ exists ok,
        alerts w' = (alerts w ++ [{| alert_key := key; current_time := now;
                                     success := ok |}])%list
        /\ enable_alert m = true
        /\ (last = Some VNone
            \/ exists v t, last = Some v /\ Py.num v = Some t
                           /\ ((now - t) >=? cooldown_seconds m)%py = true)
        /\ (ok = true ->
            StateStore.get_last_alert_time (state_store w') key = Some (VNum now)
            /\ forall e2 later w2,
                 StateStore.get_last_alert_time (state_store w2) key
                 = StateStore.get_last_alert_time (state_store w') key ->
                 ((later - now) >=? cooldown_seconds m)%py = false ->
                 fire e2 m key later w2 = (Some tt, w2))
        /\ (ok = false -> state_store w' = state_store w))
  /\ (forall s,
        CooldownSpec.cooled m
          {| state_store := s; clock_reads := 0; alerts := [] |})
  /\ (forall e' positions dvol_data now' w0,
        Forall (fun p => DeribitClient.instrument_name p <> "last_alert_times")
          positions ->
        CooldownSpec.cooled m w0 ->
        CooldownSpec.cooled m (snd (_check_positions e' m positions now' w0))
        /\ CooldownSpec.cooled m (snd (_check_dvol e' m dvol_data now' w0)))
  /\ (forall w0 pre a post b,
        CooldownSpec.cooled m w0 ->
        alerts w0 = (pre ++ a :: post)%list ->
        success a = true ->
        CooldownSpec.last_success (alert_key a) pre = Some b ->
        ((current_time a - current_time b) >=? cooldown_seconds m)%py = true).
Proof.
  split; [|split; [|split]].
  - cbv zeta.
    destruct (MonitorFacts.fire_cases e m key now w)
      as [E|(ok & A & En & El & R & F)]; [now left|right].
    exists ok. repeat split; trivial.
    + now apply R.
    + intros e2 later w2 G L.
      apply MonitorFacts.fire_not_eligible with now; trivial.
      rewrite G. now apply R.
  - intros s. split; [intros k b; discriminate | exact I].
  - intros e' positions dvol_data now' w0 F C. split.
    + now apply CooldownFacts.check_positions_cooled.
    + now apply CooldownFacts.check_dvol_cooled.
  - intros w0 pre a post b [_ S] E Ha Hb.
    now apply (CooldownFacts.spaced_spec _ _ _ _ _ _ S E).
Qed.

(** The default cool-down is 300 seconds: an alert acknowledged at
    second 1000 is recorded, one for the same key 299 seconds later
    is not sent, one 300 seconds later is. *)
Example C1_default_cooldown :
  let w1 := snd (fire (Examples.env_at (Examples.t 1000)) Examples.monitor0
                   "dvol_change" (Examples.t 1000)
                   (Examples.world_of Examples.store0)) in
  let w2 := snd (fire (Examples.env_at (Examples.t 1299)) Examples.monitor0
                   "dvol_change" (Examples.t 1299) w1) in
  let w3 := snd (fire (Examples.env_at (Examples.t 1300)) Examples.monitor0
                   "dvol_change" (Examples.t 1300) w2) in
  map current_time (alerts w1) = [Examples.t 1000]
  /\ StateStore.get_last_alert_time (state_store w1) "dvol_change"
     = Some (VNum (Examples.t 1000))
  /\ w2 = w1
  /\ map current_time (alerts w3) = [Examples.t 1000; Examples.t 1300].
Proof. vm_compute. repeat split. Qed.

(** C2, as amended.  For the Gamma and the Vega of a position the
    matched severity is the highest tier whose threshold the magnitude
    meets, the alert is the one of that tier, and nothing is sent when
    no threshold is met; with the default Gamma thresholds 0.0007 is
    medium, 0.0011 heavy and 0.00005 nothing.  The volatility index
    has one threshold ([abs_threshold], 60.0 by default) and no tier.
    In a cycle that finds a value of the index to compare with,
    [_check_dvol] hands an alert ["dvol_abs_value"] to the webhook
    only when the value meets the threshold; and it does hand one
    when the value meets it, alerts are enabled, the table of last
    alert times reads and the cool-down of the key is over. *)
Theorem C2_level_classification :
  (forall x l1 l2 l3,
     match alert_level x l1 l2 l3 with
     | Some (level, sev) =>
         level = LevelSpec.threshold l1 l2 l3 sev
         /\ (x >=? level)%py = true
         /\ forall sev', (x >=? LevelSpec.threshold l1 l2 l3 sev')%py = true ->
                         (LevelSpec.tier sev' <= LevelSpec.tier sev)%nat
     | None =>
         forall sev', (x >=? LevelSpec.threshold l1 l2 l3 sev')%py = false
     end)
  /\ (forall e m position now w,
        _check_gamma_levels e m position now w
        = match alert_level (PyFloat.abs (DeribitClient.gamma position))
                  (or_default (level_1_light (gamma_thresholds m)) float:(0.0001))
                  (or_default (level_2_medium (gamma_thresholds m)) float:(0.0005))
                  (or_default (level_3_heavy (gamma_thresholds m)) float:(0.001))
          with
          | Some (_, sev) =>
              fire e m (DeribitClient.instrument_name position
                        ++ "_gamma_level_" ++ severity_name sev) now w
          | None => (Some tt, w)
          end)
  /\ (forall e m position now w,
        _check_vega_threshold e m position now w
        = match alert_level (PyFloat.abs (DeribitClient.vega position))
                  (or_default (level_1_light (vega_thresholds m)) float:(10.0))
                  (or_default (level_2_medium (vega_thresholds m)) float:(30.0))
                  (or_default (level_3_heavy (vega_thresholds m)) float:(50.0))
          with
          | Some (_, sev) =>
              fire e m (DeribitClient.instrument_name position
                        ++ "_vega_level_" ++ severity_name sev) now w
          | None => (Some tt, w)
          end)
  /\ (let classify x :=
        option_map snd
          (alert_level (PyFloat.abs x) float:(0.0001) float:(0.0005)
             float:(0.001)) in
      classify float:(0.0007) = Some Medium
      /\ classify float:(0.0011) = Some Heavy
      /\ classify float:(0.00005) = None)
  /\ (forall t x,
        should_alert_abs_value t x
        = (x >=? or_default (abs_threshold t) float:(60.0))%py)
  /\ (forall e m dvol_data now w previous,
        CycleSpec.previous_value e now w previous ->
        let current := DeribitClient.value dvol_data in
        let threshold :=
          or_default (abs_threshold (dvol_value_thresholds m)) float:(60.0) in
        exists new,
          alerts (snd (_check_dvol e m dvol_data now w))
          = (alerts w ++ new)%list
          /\ ((exists a, In a new /\ alert_key a = "dvol_abs_value") ->
              (current >=? threshold)%py = true)
          /\ ((current >=? threshold)%py = true ->
              CycleSpec.readable w -> enable_alert m = true ->
              CycleSpec.eligible m "dvol_abs_value" now w ->
              CycleSpec.fired "dvol_abs_value" now new)).
Proof.
  split; [|split; [|split; [|split; [|split]]]].
  - intros x l1 l2 l3. unfold alert_level.
    destruct (x >=? l3)%py eqn:E3; [|destruct (x >=? l2)%py eqn:E2;
      [|destruct (x >=? l1)%py eqn:E1]].
    + repeat split; trivial. intros []; cbn; lia.
    + repeat split; trivial. intros []; cbn; intros; try lia; congruence.
    + repeat split; trivial. intros []; cbn; intros; try lia; congruence.
    + intros []; trivial.
  - intros. unfold _check_gamma_levels. now rewrite check_levels_fires.
  - intros. unfold _check_vega_threshold. now rewrite check_levels_fires.
  - vm_compute. repeat split.
  - reflexivity.
  - intros e m dvol_data now w previous P.
    exact (RuleFacts.check_dvol_abs_value e m dvol_data now w previous P).
Qed.

(** The index at 61 a minute after it was at 50: the absolute alert
    is sent. *)
Lemma C2_level_classification_witness :
  let e := Examples.env_at (Examples.t 1060) in
  let m := Examples.monitor0 in
  let now := Examples.t 1060 in
  let w := Examples.world_of Examples.store1 in
  let dvol_data := Examples.dvol (Examples.t 61) now in
  CycleSpec.previous_value e now w (Examples.t 50)
  /\ (Examples.t 61 >=? float:(60.0))%py = true
  /\ CycleSpec.readable w
  /\ enable_alert m = true
  /\ CycleSpec.eligible m "dvol_abs_value" now w
  /\ exists new,
       alerts (snd (_check_dvol e m dvol_data now w)) = (alerts w ++ new)%list
       /\ CycleSpec.fired "dvol_abs_value" now new.
Proof.
  cbv zeta.
  assert (P : CycleSpec.previous_value (Examples.env_at (Examples.t 1060))
                (Examples.t 1060) (Examples.world_of Examples.store1)
                (Examples.t 50)).
  { eexists _, _, _, _. split; [vm_compute; reflexivity|].
    split; [discriminate|]. split; [vm_compute; reflexivity|].
    split; [reflexivity|]. split; [discriminate | reflexivity]. }
  destruct (RuleFacts.no_table_readable Examples.monitor0 (Examples.t 1060)
              (Examples.world_of Examples.store1) eq_refl) as [R El].
  split; [exact P|]. split; [reflexivity|]. split; [exact R|].
  split; [reflexivity|]. split; [apply El|].
  destruct C2_level_classification as (_ & _ & _ & _ & _ & Index).
  destruct (Index (Examples.env_at (Examples.t 1060)) Examples.monitor0
              (Examples.dvol (Examples.t 61) (Examples.t 1060))
              (Examples.t 1060) (Examples.world_of Examples.store1)
              (Examples.t 50) P) as (new & A & _ & Fires).
  exists new. split; [exact A|].
  apply Fires; [reflexivity | exact R | reflexivity | apply El].
Defined.

(** C2, as stated, fails for the volatility index: its absolute check
    answers yes or no against one threshold.  The values 65 and 85
    get the same answer and the same alerts, though thresholds 60,
    70 and 80 would put them in the light and the heavy tier: no
    severity can be read off what the code decides. *)
Lemma C2_index_has_no_tiers :
  (~ exists read : bool -> option severity,
       forall x,
         read (should_alert_abs_value Examples.no_dvol_value x)
         = option_map snd
             (alert_level x (Examples.t 60) (Examples.t 70) (Examples.t 80)))
  /\ (let run x :=
        Examples.keys_of
          (snd (_check_dvol (Examples.env_at (Examples.t 1060)) Examples.monitor0
                  (Examples.dvol x (Examples.t 1060)) (Examples.t 1060)
                  (Examples.world_of Examples.store1))) in
      run (Examples.t 65) = ["dvol_abs_value"; "dvol_change"]
      /\ run (Examples.t 85) = ["dvol_abs_value"; "dvol_change"]).
Proof.
  split.
  - intros [read H].
    pose proof (H (Examples.t 65)) as H1. pose proof (H (Examples.t 85)) as H2.
    vm_compute in H1, H2. congruence.
  - vm_compute. split; reflexivity.
Qed.

(** C3: what the code does on a first observation.  With an empty
    store and the index at 100, above the threshold of 60,
    [_check_dvol] stores the observation and sends nothing: the
    absolute check is not made.  One minute later the same value is
    alerted; ten minutes later it is not, the stored observation
    being older than five minutes, which makes the new one a first
    observation again.  A position seen for the first time is stored
    and classified in the same cycle. *)
Theorem C3_first_index_observation_is_not_classified :
  let cycle now w :=
    snd (_check_dvol (Examples.env_at now) Examples.monitor0
           (Examples.dvol (Examples.t 100) now) now w) in
  let w1 := cycle (Examples.t 1000) (Examples.world_of Examples.store0) in
  let w2 := cycle (Examples.t 1060) w1 in
  let w2' := cycle (Examples.t 1600) w1 in
  let w3 := snd (check_position (Examples.env_at (Examples.t 1000))
                   Examples.monitor0 Examples.position0
                   (Examples.t 1000) (Examples.world_of Examples.store0)) in
  should_alert_abs_value (dvol_value_thresholds Examples.monitor0) (Examples.t 100)
  = true
  /\ alerts w1 = []
  /\ StateStore.get_latest (state_store w1) "dvol"
     = Some (StateStore.entry (VNum (Examples.t 100)) (Examples.t 1000))
  /\ Examples.keys_of w2 = ["dvol_abs_value"]
  /\ alerts w2' = []
  /\ StateStore.get_latest (state_store w3) "BTC-27DEC24-100000-C"
     = Some (StateStore.entry (position_record Examples.position0)
               (Examples.t 1000))
  /\ map success (alerts w3) = [true]
  /\ Examples.keys_of w3
     = ["BTC-27DEC24-100000-C_gamma_level_" ++ severity_name Heavy].
Proof. vm_compute. repeat split. Qed.

(** C6.  The trend comparison of the index: the percentage change is
    [(current - previous) / previous], and 0.0 when [previous == 0];
    the absolute change is [current - previous]; the alert is due
    exactly when the magnitude of the first exceeds [pct_change_5m]
    or that of the second exceeds [abs_change_5m], strictly.  From 50
    to 55 the changes are 0.10 and 5.0, from 0 to 5 they are 0.0 and
    5.0; from 100 to 105, at both default thresholds (0.05 and 5.0),
    no alert is due.  A cycle that finds the index at 50 a minute
    before sends the change alert at 55 and nothing at 52.
    In every cycle that finds a value of the index to compare with,
    [_check_dvol] hands an alert ["dvol_change"] to the webhook only
    when one of the two magnitudes exceeds its threshold; and it does
    hand one when one of them does, alerts are enabled, the table of
    last alert times reads and the cool-down of the key is over. *)
Theorem C6_trend_comparison :
  (forall current previous,
     pct_change current previous
     = if (previous ==? PyFloat.zero)%py then PyFloat.zero
       else ((current - previous) / previous)%py)
  /\ (forall current previous,
        abs_change current previous = (current - previous)%py)
  /\ (forall t current previous,
        should_alert_change t current previous = true
        <-> (PyFloat.abs (pct_change current previous)
               >? or_default (pct_change_5m t) float:(0.05))%py = true
            \/ (PyFloat.abs (abs_change current previous)
                  >? or_default (abs_change_5m t) float:(5.0))%py = true)
  /\ pct_change float:(55.0) float:(50.0) = float:(0.10)
  /\ abs_change float:(55.0) float:(50.0) = float:(5.0)
  /\ pct_change float:(5.0) float:(0.0) = float:(0.0)
  /\ abs_change float:(5.0) float:(0.0) = float:(5.0)
  /\ should_alert_change Examples.no_dvol_value float:(55.0) float:(50.0)
     = true
  /\ should_alert_change Examples.no_dvol_value float:(105.0) float:(100.0)
     = false
  /\ (let run current :=
        Examples.keys_of
          (snd (_check_dvol (Examples.env_at (Examples.t 1060)) Examples.monitor0
                  (Examples.dvol current (Examples.t 1060)) (Examples.t 1060)
                  (Examples.world_of Examples.store1))) in
      run float:(55.0) = ["dvol_change"] /\ run float:(52.0) = [])
  /\ (forall e m dvol_data now w previous,
        CycleSpec.previous_value e now w previous ->
        let current := DeribitClient.value dvol_data in
        let t := dvol_value_thresholds m in
        let exceeds :=
          (PyFloat.abs (pct_change current previous)
             >? or_default (pct_change_5m t) float:(0.05))%py = true
          \/ (PyFloat.abs (abs_change current previous)
                >? or_default (abs_change_5m t) float:(5.0))%py = true in
        exists new,
          alerts (snd (_check_dvol e m dvol_data now w))
          = (alerts w ++ new)%list
          /\ ((exists a, In a new /\ alert_key a = "dvol_change") -> exceeds)
          /\ (exceeds ->
              CycleSpec.readable w -> enable_alert m = true ->
              CycleSpec.eligible m "dvol_change" now w ->
              CycleSpec.fired "dvol_change" now new)).
Proof.
  assert (Due : forall t current previous,
            should_alert_change t current previous = true
            <-> (PyFloat.abs (pct_change current previous)
                   >? or_default (pct_change_5m t) float:(0.05))%py = true
                \/ (PyFloat.abs (abs_change current previous)
                      >? or_default (abs_change_5m t) float:(5.0))%py = true).
  { intros t current previous. unfold should_alert_change.
    now rewrite orb_true_iff. }
  split; [reflexivity|]. split; [reflexivity|]. split; [exact Due|].
  repeat (split; [vm_compute; repeat split|]).
  intros e m dvol_data now w previous P. cbv zeta.
  destruct (RuleFacts.check_dvol_change e m dvol_data now w previous P)
    as (new & A & OnlyIf & If).
  exists new. split; [exact A|]. split.
  - intros H. apply Due, OnlyIf, H.
  - intros H. apply If, Due, H.
Qed.

(** A fall of the index from 50 to 44 within a minute: the change
    alert is sent, the magnitudes of both changes exceeding their
    thresholds though both changes are negative. *)
Lemma C6_trend_comparison_witness :
  let e := Examples.env_at (Examples.t 1060) in
  let m := Examples.monitor0 in
  let now := Examples.t 1060 in
  let w := Examples.world_of Examples.store1 in
  let dvol_data := Examples.dvol (Examples.t 44) now in
  CycleSpec.previous_value e now w (Examples.t 50)
  /\ (pct_change (Examples.t 44) (Examples.t 50) <? PyFloat.zero)%py = true
  /\ (PyFloat.abs (abs_change (Examples.t 44) (Examples.t 50)) >? float:(5.0))%py
     = true
  /\ CycleSpec.readable w
  /\ enable_alert m = true
  /\ CycleSpec.eligible m "dvol_change" now w
  /\ exists new,
       alerts (snd (_check_dvol e m dvol_data now w)) = (alerts w ++ new)%list
       /\ CycleSpec.fired "dvol_change" now new.
Proof.
  cbv zeta.
  assert (P : CycleSpec.previous_value (Examples.env_at (Examples.t 1060))
                (Examples.t 1060) (Examples.world_of Examples.store1)
                (Examples.t 50)).
  { eexists _, _, _, _. split; [vm_compute; reflexivity|].
    split; [discriminate|]. split; [vm_compute; reflexivity|].
    split; [reflexivity|]. split; [discriminate | reflexivity]. }
  destruct (RuleFacts.no_table_readable Examples.monitor0 (Examples.t 1060)
              (Examples.world_of Examples.store1) eq_refl) as [R El].
  split; [exact P|]. split; [reflexivity|]. split; [reflexivity|].
  split; [exact R|]. split; [reflexivity|]. split; [apply El|].
  destruct C6_trend_comparison as (_ & _ & _ & _ & _ & _ & _ & _ & _ & _ & Rule).
  destruct (Rule (Examples.env_at (Examples.t 1060)) Examples.monitor0
              (Examples.dvol (Examples.t 44) (Examples.t 1060))
              (Examples.t 1060) (Examples.world_of Examples.store1)
              (Examples.t 50) P) as (new & A & _ & Fires).
  exists new. split; [exact A|].
  apply Fires; [right; reflexivity | exact R | reflexivity | apply El].
Defined.

(** ** The RPC client *)

Module ClientFacts.
Import DeribitClient ClientSpec.

Lemma range_1 : Py.range 1 = [0].
Proof. reflexivity. Qed.


(** The inner call of [authenticate]: one request, one identifier. *)
Lemma auth_call_sends e c n :
  exists res n',
    _make_request_with unreachable_authenticate e "public/auth"
      (auth_params c) 1 (c, n)
    = (Some res, (with_request_id c (request_id c + 1), n'))
    /\ sent n' = (sent n ++ [auth_request c (request_id c + 1)])%list
    /\ clock_reads n' = clock_reads n.
Proof.
  unfold _make_request_with. cbn [is_private String.prefix fst snd].
  change (String.prefix "private/" "public/auth") with false. cbv iota.
  cbn [_get_next_request_id fst snd]. rewrite range_1.
  cbn [attempts requests_post].
  change (is_private "public/auth") with false.
  change (0 <? 1 - 1)%Z with false. cbv iota.
  destruct (post e (List.length (sent n))) as [status json| | | | |];
    [destruct (status =? 200)%Z; [destruct json as [code msg|res]|]|..];
    rewrite ?andb_false_r; cbn; eexists; eexists; (split; [reflexivity|]);
    cbn; auto.
Qed.

(** [authenticate] sends one request, whatever comes of it, and draws
    one identifier. *)
Lemma authenticate_sends e c n :
  exists b c' n',
    authenticate e (c, n) = (b, (c', n'))
    /\ sent n' = (sent n ++ [auth_request c (request_id c + 1)])%list
    /\ request_id c' = request_id c + 1
    /\ client_id c' = client_id c /\ client_secret c' = client_secret c.
Proof.
  unfold authenticate. cbn [fst].
  destruct (auth_call_sends e c n) as (res & n' & -> & S & _).
  destruct (Py.truthy res); [|repeat eexists; eauto].
  destruct (Py.get res "access_token" VNone) as [tok|]; [|repeat eexists; eauto].
  destruct (Py.get res "expires_in" (VNum (PyFloat.of_Z 3600))) as [x|];
    [|repeat eexists; eauto].
  cbn [read_clock].
  destruct (Py.num x); repeat eexists; eauto.
Qed.

Lemma sent_time_sleep wait n : sent (time_sleep wait n) = sent n.
Proof. reflexivity. Qed.

Lemma loop_trace_app method_name id0 lo mid hi l1 l2 :
  loop_trace method_name id0 lo l1 mid ->
  loop_trace method_name id0 mid l2 hi ->
  loop_trace method_name id0 lo (l1 ++ l2) hi.
Proof.
  induction 1; intros H2; cbn; trivial.
  - apply trace_own; auto.
  - apply trace_auth; auto.
Qed.

(** The loop of [_make_request] sends attempts of the call, all with
    its identifier, and requests of [authenticate], each with a new
    one. *)
Lemma attempts_trace e method_name params id0 retry_times range :
  forall authorization c n,
  exists res c' n' new,
    attempts (authenticate e) e method_name params id0 retry_times range
      authorization (c, n) = (res, (c', n'))
    /\ sent n' = (sent n ++ new)%list
    /\ loop_trace method_name id0 (request_id c) new (request_id c')
    /\ match range with
       | [] => new = []
       | _ :: _ =>
           exists more,
             new = own_request method_name params id0 authorization :: more
       end.
Proof.
  induction range as [|attempt rest IH]; intros authorization c n.
  - exists (Some VNone), c, n, []. cbn. rewrite app_nil_r.
    repeat split. constructor.
  - cbn [attempts requests_post].
    set (own := {| method := method_name; params := params; id := id0;
                   authorization := authorization |}).
    set (n1 := {| sent := (sent n ++ [own])%list; slept := slept n;
                  clock_reads := clock_reads n |}).
    (* what every way on to the next turn comes to *)
    assert (Next : forall a c1 n2 extra,
      sent n2 = (sent n1 ++ extra)%list ->
      loop_trace method_name id0 (request_id c) extra (request_id c1) ->
      exists res c' n' new,
        attempts (authenticate e) e method_name params id0 retry_times rest a
          (c1, n2) = (res, (c', n'))
        /\ sent n' = (sent n ++ new)%list
        /\ loop_trace method_name id0 (request_id c) new (request_id c')
        /\ exists more, new = own :: more).
    { intros a c1 n2 extra S T.
      destruct (IH a c1 n2) as (res & c' & n' & new & E & S' & T' & _).
      exists res, c', n', (own :: extra ++ new)%list. split; [exact E|].
      split; [|split; [|eauto]].
      - rewrite S', S. cbn. now rewrite <- !app_assoc.
      - apply trace_own; trivial. now apply loop_trace_app with (request_id c1). }
    assert (Stop : forall (res : option pyobject) c1 n2 extra,
      sent n2 = (sent n1 ++ extra)%list ->
      loop_trace method_name id0 (request_id c) extra (request_id c1) ->
      exists res' c' n' new,
        (res, (c1, n2)) = (res', (c', n'))
        /\ sent n' = (sent n ++ new)%list
        /\ loop_trace method_name id0 (request_id c) new (request_id c')
        /\ exists more, new = own :: more).
    { intros res c1 n2 extra S T.
      exists res, c1, n2, (own :: extra)%list. split; [reflexivity|].
      split; [|split; [|eauto]].
      - rewrite S. cbn. now rewrite <- app_assoc.
      - now apply trace_own. }
    assert (Retry : forall wait c1 n2 extra,
      sent n2 = (sent n1 ++ extra)%list ->
      loop_trace method_name id0 (request_id c) extra (request_id c1) ->
      exists res c' n' new,
        (if (attempt <? retry_times - 1)%Z
         then attempts (authenticate e) e method_name params id0 retry_times
                rest authorization (fst (c1, n2), time_sleep wait (snd (c1, n2)))
         else attempts (authenticate e) e method_name params id0 retry_times
                rest authorization (c1, n2)) = (res, (c', n'))
        /\ sent n' = (sent n ++ new)%list
        /\ loop_trace method_name id0 (request_id c) new (request_id c')
        /\ exists more, new = own :: more).
    { intros wait c1 n2 extra S T.
      destruct (attempt <? retry_times - 1)%Z; cbn [fst snd];
        eapply Next; eauto. }
    assert (N0 : sent n1 = (sent n1 ++ [])%list) by now rewrite app_nil_r.
    assert (T0 : loop_trace method_name id0 (request_id c) [] (request_id c))
      by constructor.
    destruct (post e (List.length (sent n))) as [status json| | | | |];
      try (now apply (Retry _ c n1 [])); try (now apply (Stop _ c n1 [])).
    destruct (status =? 200)%Z; [|now apply (Retry _ c n1 [])].
    destruct json as [code msg|res]; [|now apply (Stop _ c n1 [])].
    destruct (is_auth_error code msg && is_private method_name);
      [|now apply (Stop _ c n1 [])].
    destruct (authenticate_sends e c n1) as (b & c2 & n2 & -> & S2 & R2 & _).
    assert (T2 : loop_trace method_name id0 (request_id c)
                   [auth_request c (request_id c + 1)] (request_id c2)).
    { apply trace_auth; trivial. rewrite R2. constructor. }
    destruct b as [[|]|].
    + destruct (attempt <? retry_times - 1)%Z.
      * eapply Next; eauto.
      * eapply Stop; eauto.
    + eapply Stop; eauto.
    + eapply Retry; eauto.
Qed.

(** What a trace says of the identifiers. *)
Lemma loop_trace_ids method_name id0 lo l hi :
  loop_trace method_name id0 lo l hi ->
  lo <= hi
  /\ Forall (fun r => (method r = method_name /\ id r = id0)
                      \/ (method r = "public/auth" /\ lo < id r <= hi)) l.
Proof.
  induction 1 as [lo|lo hi r rest Hm Hi _ [IH1 IH2]|lo hi r rest Hm Hi _ [IH1 IH2]].
  - split; [lia | constructor].
  - split; [lia|]. constructor; auto.
  - split; [lia|]. constructor; [right; split; [trivial | lia]|].
    eapply Forall_impl; [|exact IH2]. cbn. intros a [?|[? ?]]; [auto|right].
    split; [trivial | lia].
Qed.

Lemma loop_trace_distinct method_name id0 lo l hi :
  loop_trace method_name id0 lo l hi -> id0 <= lo ->
  method_name <> "public/auth" ->
  forall i j ri rj,
    nth_error l i = Some ri -> nth_error l j = Some rj -> id ri = id rj ->
    i = j \/ (method ri = method_name /\ method rj = method_name).
Proof.
  intros T. induction T as [lo|lo hi r rest Hm Hi T IH|lo hi r rest Hm Hi T IH];
    intros L N i j ri rj Ei Ej E.
  - destruct i; discriminate.
  - destruct (loop_trace_ids _ _ _ _ _ T) as [_ F]. rewrite Forall_forall in F.
    destruct i as [|i], j as [|j]; cbn in Ei, Ej.
    + now left.
    + injection Ei as <-. apply nth_error_In in Ej.
      destruct (F _ Ej) as [[? ?]|[? ?]]; [now right | lia].
    + injection Ej as <-. apply nth_error_In in Ei.
      destruct (F _ Ei) as [[? ?]|[? ?]]; [now right | lia].
    + destruct (IH L N i j ri rj Ei Ej E) as [->|?]; auto.
  - destruct (loop_trace_ids _ _ _ _ _ T) as [_ F]. rewrite Forall_forall in F.
    destruct i as [|i], j as [|j]; cbn in Ei, Ej.
    + now left.
    + injection Ei as <-. apply nth_error_In in Ej.
      destruct (F _ Ej) as [[? ?]|[? ?]]; lia.
    + injection Ej as <-. apply nth_error_In in Ei.
      destruct (F _ Ei) as [[? ?]|[? ?]]; lia.
    + destruct (IH ltac:(lia) N i j ri rj Ei Ej E) as [->|?]; auto.
Qed.

(** The requests of one call of [_make_request]: at most one request
    of [authenticate] before the identifier of the call is drawn, then
    the loop. *)
Lemma make_request_shape e method_name params retry_times c n :
  exists res c' n' pre body id0,
    _make_request e method_name params retry_times (c, n) = (res, (c', n'))
    /\ sent n' = (sent n ++ pre ++ body)%list
    /\ ((pre = [] /\ id0 = request_id c + 1)
        \/ (pre = [auth_request c (request_id c + 1)]
            /\ id0 = request_id c + 2))
    /\ ((pre <> [] /\ body = [] /\ request_id c' = id0 - 1)
        \/ loop_trace method_name id0 id0 body (request_id c')).
Proof.
  unfold _make_request, _make_request_with. cbn [fst snd].
  assert (Send : forall a c1 n1 pre,
    sent n1 = (sent n ++ pre)%list ->
    exists res c' n' body,
      (let '(request_id, c2) := _get_next_request_id c1 in
       attempts (authenticate e) e method_name params request_id retry_times
         (Py.range retry_times) a (c2, n1)) = (res, (c', n'))
      /\ sent n' = (sent n ++ pre ++ body)%list
      /\ loop_trace method_name (request_id c1 + 1) (request_id c1 + 1) body
           (request_id c')).
  { intros a c1 n1 pre S. cbn [_get_next_request_id].
    destruct (attempts_trace e method_name params (request_id c1 + 1) retry_times
                (Py.range retry_times) a
                (with_request_id c1 (request_id c1 + 1)) n1)
      as (res & c' & n' & body & E & S' & T & _).
    exists res, c', n', body. split; [exact E|]. split; [|exact T].
    rewrite S', S, <- app_assoc. reflexivity. }
  assert (S0 : forall n1, sent n1 = sent n -> sent n1 = (sent n ++ [])%list)
    by (intros n1 ->; now rewrite app_nil_r).
  assert (Plain : forall a n1, sent n1 = sent n ->
    exists res c' n' pre body id0,
      (let '(request_id, c2) := _get_next_request_id c in
       attempts (authenticate e) e method_name params request_id retry_times
         (Py.range retry_times) a (c2, n1)) = (res, (c', n'))
      /\ sent n' = (sent n ++ pre ++ body)%list
      /\ ((pre = [] /\ id0 = request_id c + 1)
          \/ (pre = [auth_request c (request_id c + 1)]
              /\ id0 = request_id c + 2))
      /\ ((pre <> [] /\ body = [] /\ request_id c' = id0 - 1)
          \/ loop_trace method_name id0 id0 body (request_id c'))).
  { intros a n1 S1.
    destruct (Send a c n1 [] (S0 n1 S1)) as (res & c' & n' & body & E & S' & T).
    exists res, c', n', [], body, (request_id c + 1).
    split; [exact E|]. split; [exact S'|]. split; [now left | now right]. }
  assert (Stale : forall n1, sent n1 = sent n ->
    exists res c' n' pre body id0,
      match authenticate e (c, n1) with
      | (Some true, s') =>
          let '(request_id, c2) := _get_next_request_id (fst s') in
          attempts (authenticate e) e method_name params request_id retry_times
            (Py.range retry_times) (Some (token (fst s'))) (c2, snd s')
      | (Some false, s') => (Some VNone, s')
      | (None, s') => (None, s')
      end = (res, (c', n'))
      /\ sent n' = (sent n ++ pre ++ body)%list
      /\ ((pre = [] /\ id0 = request_id c + 1)
          \/ (pre = [auth_request c (request_id c + 1)]
              /\ id0 = request_id c + 2))
      /\ ((pre <> [] /\ body = [] /\ request_id c' = id0 - 1)
          \/ loop_trace method_name id0 id0 body (request_id c'))).
  { intros n1 S1.
    destruct (authenticate_sends e c n1) as (b & c2 & n2 & -> & S2 & R2 & _).
    rewrite S1 in S2.
    assert (Fail : forall res : option pyobject,
      exists res' c' n' pre body id0,
        (res, (c2, n2)) = (res', (c', n'))
        /\ sent n' = (sent n ++ pre ++ body)%list
        /\ ((pre = [] /\ id0 = request_id c + 1)
            \/ (pre = [auth_request c (request_id c + 1)]
                /\ id0 = request_id c + 2))
        /\ ((pre <> [] /\ body = [] /\ request_id c' = id0 - 1)
            \/ loop_trace method_name id0 id0 body (request_id c'))).
    { intros res.
      exists res, c2, n2, [auth_request c (request_id c + 1)], [],
        (request_id c + 2).
      split; [reflexivity|]. split; [exact S2|]. split; [now right|].
      left. repeat split; [discriminate | lia]. }
    destruct b as [[|]|]; try apply Fail. cbn [fst snd].
    destruct (Send (Some (token c2)) c2 n2 _ S2)
      as (res & c' & n' & body & E & S' & T).
    exists res, c', n', [auth_request c (request_id c + 1)], body,
      (request_id c + 2).
    split; [exact E|]. split; [exact S'|]. split; [now right|]. right.
    replace (request_id c + 2) with (request_id c2 + 1) by lia. exact T. }
  destruct (is_private method_name); [|now apply Plain].
  destruct (negb (Py.truthy (token c))); [now apply Stale|].
  cbn [read_clock].
  destruct (_ >=? _)%py; [now apply Stale | now apply Plain].
Qed.

(** [authenticate] in terms of the reply to its request. *)
Lemma auth_call_result e c n :
  _make_request_with unreachable_authenticate e "public/auth"
    (auth_params c) 1 (c, n)
  = (Some (auth_result (post e (List.length (sent n)))),
     (with_request_id c (request_id c + 1),
      after_post (auth_request c (request_id c + 1)) n)).
Proof.
  unfold _make_request_with. cbn [fst snd].
  change (is_private "public/auth") with false. cbv iota.
  cbn [_get_next_request_id fst snd]. rewrite range_1.
  cbn [attempts requests_post].
  change (is_private "public/auth") with false.
  change (0 <? 1 - 1)%Z with false. cbv iota.
  unfold auth_result, after_post, auth_request.
  destruct (post e (List.length (sent n))) as [status json| | | | |];
    [destruct (status =? 200)%Z; [destruct json as [code msg|res]|
       destruct json]|..];
    rewrite ?andb_false_r; reflexivity.
Qed.

Lemma authenticate_timeout e c n :
  post e (List.length (sent n)) = Timeout ->
  authenticate e (c, n)
  = (Some false, (with_request_id c (request_id c + 1),
                  after_post (auth_request c (request_id c + 1)) n)).
Proof.
  intros H. unfold authenticate. cbn [fst]. rewrite auth_call_result, H.
  reflexivity.
Qed.

Lemma authenticate_ok e c n result access_token x :
  post e (List.length (sent n)) = Response 200 (Result result) ->
  Py.truthy result = true ->
  Py.get result "access_token" VNone = Some access_token ->
  (v <- Py.get result "expires_in" (VNum (PyFloat.of_Z 3600)) ;; Py.num v)
  = Some x ->
  exists c' n',
    authenticate e (c, n) = (Some true, (c', n'))
    /\ token c' = access_token
    /\ request_id c' = request_id c + 1
    /\ sent n' = (sent n ++ [auth_request c (request_id c + 1)])%list.
Proof.
  intros H T A X. unfold authenticate. cbn [fst]. rewrite auth_call_result, H.
  cbn [auth_result]. change (200 =? 200)%Z with true. cbv iota.
  rewrite T, A.
  destruct (Py.get result "expires_in" (VNum (PyFloat.of_Z 3600))) as [v|];
    [|discriminate].
  cbn [read_clock]. rewrite X. eexists; eexists. split; [reflexivity|].
  cbn. auto.
Qed.

(** Three attempts that time out. *)
Lemma attempts_all_timeout auth e method_name params id0 a c n :
  (forall k, (k < 3)%nat -> post e (List.length (sent n) + k) = Timeout) ->
  exists n',
    attempts auth e method_name params id0 3 [0; 1; 2] a (c, n)
    = (Some VNone, (c, n'))
    /\ sent n' = (sent n ++ repeat (own_request method_name params id0 a) 3)%list
    /\ slept n' = (slept n ++ [1; 2])%list.
Proof.
  intros H.
  pose proof (H 0%nat ltac:(lia)) as H0. pose proof (H 1%nat ltac:(lia)) as H1.
  pose proof (H 2%nat ltac:(lia)) as H2.
  rewrite Nat.add_0_r in H0.
  cbn [attempts requests_post fst snd time_sleep sent].
  rewrite H0. cbn [attempts requests_post fst snd time_sleep sent].
  rewrite length_app. cbn [List.length]. rewrite H1.
  cbn [attempts requests_post fst snd time_sleep sent].
  rewrite !length_app. cbn [List.length]. rewrite <- Nat.add_assoc. cbn [Nat.add].
  rewrite H2. cbn.
  eexists. split; [reflexivity|]. cbn. rewrite <- !app_assoc. cbn. auto.
Qed.

Lemma range_cons retry_times :
  1 <= retry_times ->
  Py.range retry_times
  = 0 :: map Z.of_nat (seq 1 (Z.to_nat retry_times - 1)).
Proof.
  intros H. unfold Py.range.
  replace (Z.to_nat retry_times) with (S (Z.to_nat retry_times - 1)) at 1 by lia.
  reflexivity.
Qed.

Lemma sent_after_check e c n : sent (after_check e c n) = sent n.
Proof. unfold after_check. now destruct (Py.truthy (token c)). Qed.

(** A private call with a valid session goes straight to the loop ... *)
Lemma make_request_valid e method_name params retry_times c n :
  is_private method_name = true -> session_valid e c n = true ->
  _make_request e method_name params retry_times (c, n)
  = attempts (authenticate e) e method_name params (request_id c + 1)
      retry_times (Py.range retry_times) (Some (token c))
      (with_request_id c (request_id c + 1), after_check e c n).
Proof.
  unfold session_valid, after_check. rewrite andb_true_iff, negb_true_iff.
  intros P [T V]. unfold _make_request, _make_request_with. cbn [fst snd].
  rewrite P, T. cbn [negb read_clock]. now rewrite V.
Qed.

(** ... one without authenticates first ... *)
Lemma make_request_stale e method_name params retry_times c n :
  is_private method_name = true -> session_valid e c n = false ->
  _make_request e method_name params retry_times (c, n)
  = match authenticate e (c, after_check e c n) with
    | (None, s') => (None, s')
    | (Some false, s') => (Some VNone, s')
    | (Some true, s') =>
        attempts (authenticate e) e method_name params
          (request_id (fst s') + 1) retry_times (Py.range retry_times)
          (Some (token (fst s')))
          (with_request_id (fst s') (request_id (fst s') + 1), snd s')
    end.
Proof.
  unfold session_valid, after_check. intros P V.
  unfold _make_request, _make_request_with. cbn [fst snd]. rewrite P.
  destruct (Py.truthy (token c)); cbn [negb read_clock].
  - cbn in V. apply negb_false_iff in V. rewrite V.
    now destruct (authenticate e _) as [[[|]|] [c' n']].
  - now destruct (authenticate e _) as [[[|]|] [c' n']].
Qed.

(** ... and a call that is not private never does. *)
Lemma make_request_public e method_name params retry_times c n :
  is_private method_name = false ->
  _make_request e method_name params retry_times (c, n)
  = attempts (authenticate e) e method_name params (request_id c + 1)
      retry_times (Py.range retry_times) None
      (with_request_id c (request_id c + 1), n).
Proof.
  intros P. unfold _make_request, _make_request_with. cbn [fst snd].
  now rewrite P.
Qed.

End ClientFacts.

(** ** Application errors, attempt by attempt *)

Module ErrorFacts.
Import DeribitClient ClientSpec.









End ErrorFacts.

(** ** The claims on the RPC client *)

Import DeribitClient ClientSpec.

(** C9, as amended.  One call of [_make_request] for a method other
    than the authentication itself: the counter of request identifiers
    does not decrease; every request sent during the call carries an
    identifier above the counter at its start and not above the
    counter at its end; the attempts of the call carry one and the
    same identifier; and no other two requests of the call (the
    requests of its authentications among them) share one. *)
Theorem C9_request_identifiers
  (e : env) (method_name : string) (params : pyobject) (retry_times : Z)
  (c : self) (n : net) :
  method_name <> "public/auth" ->
  exists res c' n' new,
    _make_request e method_name params retry_times (c, n) = (res, (c', n'))
    /\ sent n' = (sent n ++ new)%list
    /\ request_id c <= request_id c'
    /\ (forall r, In r new -> request_id c < id r <= request_id c')
    /\ (forall ri rj, In ri new -> In rj new ->
          method ri = method_name -> method rj = method_name -> id ri = id rj)
    /\ (forall i j ri rj,
          nth_error new i = Some ri -> nth_error new j = Some rj ->
          id ri = id rj ->
          i = j \/ (method ri = method_name /\ method rj = method_name)).
Proof.
  intros N.
  destruct (ClientFacts.make_request_shape e method_name params retry_times c n)
    as (res & c' & n' & pre & body & id0 & E & S & P & B).
  exists res, c', n', (pre ++ body)%list. split; [exact E|]. split; [exact S|].
  assert (Own : forall r, In r body -> method r = method_name ->
                loop_trace method_name id0 id0 body (request_id c') ->
                id r = id0).
  { intros r Hr Hm T. destruct (ClientFacts.loop_trace_ids _ _ _ _ _ T) as [_ F].
    rewrite Forall_forall in F. destruct (F r Hr) as [[_ ?]|[? _]]; congruence. }
  destruct P as [[-> ->]|[-> ->]]; cbn [app].
  - destruct B as [[X _]|T]; [congruence|].
    destruct (ClientFacts.loop_trace_ids _ _ _ _ _ T) as [L F].
    rewrite Forall_forall in F. split; [lia|]. split; [|split].
    + intros r Hr. destruct (F r Hr) as [[_ ->]|[_ ?]]; lia.
    + intros ri rj Hi Hj Mi Mj. rewrite (Own ri), (Own rj); trivial.
    + now apply (ClientFacts.loop_trace_distinct _ _ _ _ _ T).
  - destruct B as [(_ & -> & R)|T].
    + split; [lia|]. split; [|split].
      * intros r [<-|[]]. cbn. lia.
      * intros ri rj [<-|[]] [<-|[]]. reflexivity.
      * intros [|[|i]] [|[|j]] ri rj; cbn; try discriminate. now left.
    + destruct (ClientFacts.loop_trace_ids _ _ _ _ _ T) as [L F].
      rewrite Forall_forall in F. split; [lia|]. split; [|split].
      * intros r [<-|Hr]; [cbn; lia|].
        destruct (F r Hr) as [[_ ->]|[_ ?]]; lia.
      * intros ri rj [<-|Hi] [<-|Hj] Mi Mj; cbn in *; try congruence.
        rewrite (Own ri), (Own rj); trivial.
      * intros [|i] [|j] ri rj Ei Ej Eid; cbn in Ei, Ej.
        -- now left.
        -- injection Ei as <-. apply nth_error_In in Ej. cbn in Eid.
           destruct (F rj Ej) as [[_ ?]|[_ ?]]; lia.
        -- injection Ej as <-. apply nth_error_In in Ei. cbn in Eid.
           destruct (F ri Ei) as [[_ ?]|[_ ?]]; lia.
        -- destruct (ClientFacts.loop_trace_distinct _ _ _ _ _ T ltac:(lia) N
                       i j ri rj Ei Ej Eid) as [->|?]; auto.
Qed.

Lemma C9_request_identifiers_witness :
  let e := Examples.scripted
             [Examples.rpc_error 13009 "Unauthorized"; Examples.auth_ok;
              Examples.rpc_result (VList [])] in
  "private/get_positions" <> "public/auth"
  /\ exists res c' n' new,
       _make_request e "private/get_positions" Examples.positions_params 3
         (Examples.client1, net0) = (res, (c', n'))
       /\ sent n' = (sent net0 ++ new)%list
       /\ request_id Examples.client1 <= request_id c'
       /\ (forall r, In r new ->
             request_id Examples.client1 < id r <= request_id c')
       /\ (forall ri rj, In ri new -> In rj new ->
             method ri = "private/get_positions" ->
             method rj = "private/get_positions" -> id ri = id rj)
       /\ (forall i j ri rj,
             nth_error new i = Some ri -> nth_error new j = Some rj ->
             id ri = id rj ->
             i = j \/ (method ri = "private/get_positions"
                       /\ method rj = "private/get_positions")).
Proof.
  cbv zeta. split; [discriminate|].
  apply (C9_request_identifiers _ "private/get_positions"). discriminate.
Defined.

(** C9, as stated, fails: the envelope is built once, before the loop,
    and every attempt sends it again.  A call whose first attempt
    times out sends its second attempt under the same identifier. *)
Lemma C9_attempts_share_the_identifier :
  let e := Examples.scripted [Timeout; Examples.rpc_result (VList [])] in
  let r := _make_request e "public/get_order_book" VNone 3 (Examples.client1, net0) in
  fst r = Some (VList [])
  /\ Examples.wire (snd (snd r))
     = [("public/get_order_book", 8, None); ("public/get_order_book", 8, None)]
  /\ ~ NoDup (map id (sent (snd (snd r)))).
Proof.
  cbv zeta. split; [reflexivity|]. split; [reflexivity|].
  intros H. vm_compute in H. inversion H as [|? ? Hn _]. apply Hn. now left.
Qed.



(** An authentication reply that cannot be read: its result is a
    list.  [authenticate] raises, outside the [try] of
    [_make_request], and the exception leaves the call. *)
Example C4_authentication_raises :
  let e := Examples.scripted [Examples.rpc_result (VList [VNum PyFloat.one])] in
  let r := _make_request e "private/get_positions" Examples.positions_params 3
             (Examples.client0, net0) in
  fst r = None
  /\ Examples.wire (snd (snd r)) = [("public/auth", 1, None)].
Proof. vm_compute. split; reflexivity. Qed.

(** The default number of tries is three; with it, an authentication
    that succeeds and a call that times out make four requests. *)
Example C4_one_authentication_three_attempts :
  let e := Examples.scripted [Examples.auth_ok] in
  let r := _make_request e "private/get_positions" Examples.positions_params
             default_retry_times (Examples.client0, net0) in
  fst r = Some VNone
  /\ Examples.wire (snd (snd r))
     = [("public/auth", 1, None);
        ("private/get_positions", 2, Some (VStr "token-2"));
        ("private/get_positions", 2, Some (VStr "token-2"));
        ("private/get_positions", 2, Some (VStr "token-2"))]
  /\ slept (snd (snd r)) = [1; 2].
Proof. vm_compute. repeat split. Qed.




(** An authentication that raises: its reply carries a list.  The
    exception is caught in the loop, which waits and sends the same
    request again, with the token it had. *)
Example C5_reauthentication_raises :
  let e := Examples.scripted
             [Examples.rpc_error 13009 "Unauthorized";
              Examples.rpc_result (VList [VNum PyFloat.one]);
              Examples.rpc_result (VList [])] in
  let r := _make_request e "private/get_positions" Examples.positions_params 3
             (Examples.client1, net0) in
  fst r = Some (VList [])
  /\ Examples.wire (snd (snd r))
     = [("private/get_positions", 8, Some (VStr "token-1"));
        ("public/auth", 9, None);
        ("private/get_positions", 8, Some (VStr "token-1"))]
  /\ slept (snd (snd r)) = [1].
Proof. vm_compute. repeat split. Qed.

(** A stale token on the first attempt: one authentication, then the
    second attempt with the new token. *)
Example C5_reauthentication_then_retry :
  let e := Examples.scripted
             [Examples.rpc_error 13009 "Unauthorized"; Examples.auth_ok;
              Examples.rpc_result (VList [])] in
  let r := _make_request e "private/get_positions" Examples.positions_params 3
             (Examples.client1, net0) in
  fst r = Some (VList [])
  /\ Examples.wire (snd (snd r))
     = [("private/get_positions", 8, Some (VStr "token-1"));
        ("public/auth", 9, None);
        ("private/get_positions", 8, Some (VStr "token-2"))].
Proof. vm_compute. split; reflexivity. Qed.


(** * Further properties of the code *)

(** ** More on the order of floats *)

Module OrderFacts.
Import PyFloatFacts.

Lemma ltb_not_nan (x y : PyFloat.t) :
  PyFloat.ltb x y = true ->
  PyFloat.is_nan x = false /\ PyFloat.is_nan y = false.
Proof.
  unfold PyFloat.ltb, SFltb. destruct x, y; cbn; intros; split; congruence.
Qed.

Lemma ltb_irrefl (x : PyFloat.t) : PyFloat.ltb x x = false.
Proof.
  destruct (PyFloat.is_nan x) eqn:N.
  - destruct x; try discriminate. reflexivity.
  - apply leb_not_gt, leb_refl, N.
Qed.

Lemma ltb_asym (x y : PyFloat.t) :
  PyFloat.ltb x y = true -> PyFloat.ltb y x = false.
Proof. intros H. apply leb_not_gt. apply PyFacts.ltb_leb, H. Qed.

Lemma ltb_trans (x y z : PyFloat.t) :
  PyFloat.ltb x y = true -> PyFloat.ltb y z = true -> PyFloat.ltb x z = true.
Proof.
  intros H1 H2.
  destruct (ltb_not_nan _ _ H1) as [Hx Hy].
  destruct (ltb_not_nan _ _ H2) as [_ Hz].
  revert H1 H2. unfold PyFloat.ltb, SFltb.
  rewrite (compare_rank x y Hx Hy), (compare_rank y z Hy Hz),
    (compare_rank x z Hx Hz).
  destruct (PyFloat.lex3 (PyFloat.rank x) (PyFloat.rank y)) eqn:E1;
    try discriminate.
  destruct (PyFloat.lex3 (PyFloat.rank y) (PyFloat.rank z)) eqn:E2;
    try discriminate.
  intros _ _.
  assert (E : PyFloat.lex3 (PyFloat.rank x) (PyFloat.rank z) = Lt).
  { rewrite lex3_Lt_iff in *.
    destruct (PyFloat.rank x) as [[x1 x2] x3], (PyFloat.rank y) as [[y1 y2] y3],
      (PyFloat.rank z) as [[z1 z2] z3].
    lia. }
  now rewrite E.
Qed.

(** [x - x] is zero for a number that is finite. *)
Lemma sub_self (x : PyFloat.t) :
  PyFloat.is_finite x = true ->
  PyFloat.abs (x - x)%py = PyFloat.zero.
Proof.
  destruct x as [s|s| |s m e]; try discriminate; intros _.
  - destruct s; reflexivity.
  - unfold PyFloat.sub, SFsub, shl_align. cbv zeta.
    rewrite Z.min_id, Z.sub_diag. cbn [fst]. rewrite ?Z.sub_diag. reflexivity.
Qed.

(** A difference above one in magnitude is one of two numbers. *)
Lemma far_not_nan (x y : PyFloat.t) :
  (PyFloat.abs (x - y) >? PyFloat.one)%py = true ->
  PyFloat.is_nan x = false /\ PyFloat.is_nan y = false.
Proof.
  destruct x as [sx|sx| |sx mx ex]; [| |discriminate|];
    (destruct y as [sy|sy| |sy my ey]; [| |discriminate|]);
    intros _; split; reflexivity.
Qed.

(** Two numbers that compare equal are not more than one apart. *)
Lemma rank_eq_not_far (x y : PyFloat.t) :
  PyFloat.is_nan x = false -> PyFloat.is_nan y = false ->
  PyFloat.rank x = PyFloat.rank y ->
  (PyFloat.abs (x - y) >? PyFloat.one)%py = false.
Proof.
  destruct x as [sx|sx| |sx mx ex], y as [sy|sy| |sy my ey];
    try discriminate; intros _ _;
    try destruct sx; try destruct sy; cbn [PyFloat.rank]; intros R;
    try discriminate R; try reflexivity.
  - assert (ex = ey) by (injection R; lia).
    assert (mx = my) by (injection R; intros; congruence).
    subst. now rewrite (sub_self (S754_finite true my ey) eq_refl).
  - assert (ex = ey) by (injection R; lia).
    assert (mx = my) by (injection R; intros; congruence).
    subst. now rewrite (sub_self (S754_finite false my ey) eq_refl).
Qed.

Lemma same_not_far (x y : PyFloat.t) :
  PyFloat.leb x y = true -> PyFloat.leb y x = true ->
  (PyFloat.abs (x - y) >? PyFloat.one)%py = false.
Proof.
  intros H1 H2.
  destruct (leb_not_nan _ _ H1) as [Hx Hy].
  apply rank_eq_not_far; trivial.
  pose proof (leb_not_gt _ _ H1) as G1. pose proof (leb_not_gt _ _ H2) as G2.
  revert G1 G2. unfold PyFloat.ltb, SFltb.
  rewrite (compare_rank x y Hx Hy), (compare_rank y x Hy Hx).
  intros G1 G2.
  assert (N1 : PyFloat.lex3 (PyFloat.rank y) (PyFloat.rank x) <> Lt)
    by (intros E; rewrite E in G1; discriminate).
  assert (N2 : PyFloat.lex3 (PyFloat.rank x) (PyFloat.rank y) <> Lt)
    by (intros E; rewrite E in G2; discriminate).
  rewrite lex3_Lt_iff in N1, N2.
  destruct (PyFloat.rank x) as [[x1 x2] x3], (PyFloat.rank y) as [[y1 y2] y3].
  f_equal; [f_equal|]; lia.
Qed.

(** What is above one is not below zero. *)
Lemma far_not_below_zero (d : PyFloat.t) :
  (d >? PyFloat.one)%py = true -> (d <? PyFloat.zero)%py = false.
Proof.
  intros H. destruct (PyFloat.ltb d PyFloat.zero) eqn:E; [|reflexivity].
  pose proof (ltb_trans _ _ _ H E) as F. vm_compute in F. discriminate.
Qed.

Lemma zero_below_far (d : PyFloat.t) :
  (d >? PyFloat.one)%py = true -> (PyFloat.zero <? d)%py = true.
Proof.
  intros H. refine (ltb_trans _ PyFloat.one _ _ H). reflexivity.
Qed.

End OrderFacts.

(** ** [min] with a key *)

Module MinFacts.
Import OrderFacts.

Lemma min_from_spec key best kb l m :
  Py.min_from key best kb l = Some m ->
  key best = Some kb ->
  exists km,
    key m = Some km
    /\ ((m = best /\ km = kb) \/ (In m l /\ PyFloat.ltb km kb = true))
    /\ forall x kx, In x l -> key x = Some kx -> PyFloat.ltb kx km = false.
Proof.
  revert best kb. induction l as [|x r IH]; intros best kb E B; cbn in E.
  - injection E as <-. exists kb. split; [exact B|]. split; [now left|].
    intros x kx [].
  - destruct (key x) as [k|] eqn:K; [|discriminate].
    destruct (PyFloat.ltb k kb) eqn:L.
    + destruct (IH _ _ E K) as (km & Km & C & A). exists km.
      split; [exact Km|]. split.
      * right. destruct C as [[-> ->]|[I Lt]].
        -- split; [now left | exact L].
        -- split; [now right | exact (ltb_trans _ _ _ Lt L)].
      * intros y ky [<-|I] Ky.
        -- rewrite K in Ky. injection Ky as <-.
           destruct C as [[_ ->]|[_ Lt]];
             [apply ltb_irrefl | apply ltb_asym, Lt].
        -- exact (A y ky I Ky).
    + destruct (IH _ _ E B) as (km & Km & C & A). exists km.
      split; [exact Km|]. split.
      * destruct C as [C|[I Lt]]; [now left | right; split; [now right|exact Lt]].
      * intros y ky [<-|I] Ky.
        -- rewrite K in Ky. injection Ky as <-.
           destruct C as [[_ ->]|[_ Lt]]; [exact L|].
           destruct (PyFloat.ltb k km) eqn:F; [|reflexivity].
           rewrite (ltb_trans _ _ _ F Lt) in L. discriminate.
        -- exact (A y ky I Ky).
Qed.

(** The answer of [min] is an element whose key none is below. *)
Lemma min_by_spec key l m :
  Py.min_by key l = Some m ->
  In m l
  /\ exists km,
       key m = Some km
       /\ forall x kx, In x l -> key x = Some kx -> PyFloat.ltb kx km = false.
Proof.
  destruct l as [|x r]; [discriminate|]. cbn.
  destruct (key x) as [k|] eqn:K; [|discriminate]. intros E.
  destruct (min_from_spec _ _ _ _ _ E K) as (km & Km & C & A).
  split.
  - destruct C as [[-> _]|[I _]]; [now left | now right].
  - exists km. split; [exact Km|].
    intros y ky [<-|I] Ky; [|exact (A y ky I Ky)].
    rewrite K in Ky. injection Ky as <-.
    destruct C as [[_ ->]|[_ Lt]]; [apply ltb_irrefl | apply ltb_asym, Lt].
Qed.

Lemma min_from_some key best kb l :
  Forall (fun x => key x <> None) l ->
  exists m, Py.min_from key best kb l = Some m.
Proof.
  intros F. revert best kb. induction F as [|x r Hx _ IH]; intros best kb; cbn.
  - now exists best.
  - destruct (key x) as [k|]; [|congruence].
    destruct (PyFloat.ltb k kb); apply IH.
Qed.

Lemma min_by_some key l :
  l <> [] -> Forall (fun x => key x <> None) l ->
  exists m, Py.min_by key l = Some m.
Proof.
  destruct l as [|x r]; [congruence|]. intros _ F. cbn.
  inversion F as [|? ? Hx Hr]; subst.
  destruct (key x) as [k|]; [|congruence].
  now apply min_from_some.
Qed.

End MinFacts.

(** ** The history under a key *)

Module HistoryFacts.
Import StoreSpec HistorySpec OrderFacts PyFloatFacts.

Lemma put_same {V : Type} (d : Dict.t V) k v :
  Dict.get d k = Some v -> Dict.put k v d = d.
Proof.
  induction d as [|[k' v'] r IH]; cbn; [discriminate|].
  destruct (String.eqb k' k) eqn:E.
  - intros [= ->]. apply String.eqb_eq in E. now subst.
  - intros H. now rewrite IH.
Qed.

Lemma put_put {V : Type} (d : Dict.t V) k v v' :
  Dict.put k v (Dict.put k v' d) = Dict.put k v d.
Proof.
  induction d as [|[k' w] r IH]; cbn.
  - now rewrite String.eqb_refl.
  - destruct (String.eqb k' k) eqn:E; cbn.
    + now rewrite String.eqb_refl.
    + now rewrite E, IH.
Qed.

Lemma in_keys_get {V : Type} (d : Dict.t V) k :
  In k (Dict.keys d) -> exists v, Dict.get d k = Some v.
Proof.
  induction d as [|[k' v'] r IH]; cbn; [intros []|].
  destruct (String.eqb k' k) eqn:E; [now exists v'|].
  intros [->|I]; [now rewrite String.eqb_refl in E | exact (IH I)].
Qed.

Lemma mem_put {V : Type} (d : Dict.t V) k v k' :
  Dict.mem (Dict.put k v d) k'
  = if String.eqb k k' then true else Dict.mem d k'.
Proof.
  unfold Dict.mem. destruct (String.eqb_spec k k') as [->|N].
  - now rewrite DictFacts.get_put_same.
  - now rewrite DictFacts.get_put_other.
Qed.

(** *** Comprehensions *)

Lemma filter_idem p l l' :
  Py.filter p l = Some l' -> Py.filter p l' = Some l'.
Proof.
  revert l'. induction l as [|x r IH]; cbn; intros l'.
  - now intros [= <-].
  - destruct (p x) as [b|] eqn:Px; [|discriminate].
    destruct (Py.filter p r) as [r'|]; [|discriminate].
    intros [= <-]. specialize (IH r' eq_refl).
    destruct b; [cbn; now rewrite Px, IH | exact IH].
Qed.

Lemma filter_complete p l l' x :
  Py.filter p l = Some l' -> In x l -> p x = Some true -> In x l'.
Proof.
  revert l'. induction l as [|y r IH]; cbn; intros l'; [now intros _ []|].
  destruct (p y) as [b|] eqn:Py; [|discriminate].
  destruct (Py.filter p r) as [r'|]; [|discriminate].
  intros [= <-] [->|I] Px.
  - rewrite Px in Py. injection Py as <-. now left.
  - specialize (IH r' eq_refl I Px). destruct b; [now right | exact IH].
Qed.

Lemma filter_ascending p l l' :
  Py.filter p l = Some l' -> ascending l -> ascending l'.
Proof.
  revert l'. induction l as [|y r IH]; cbn; intros l'; [now intros [= <-]|].
  destruct (p y) as [b|] eqn:Py; [|discriminate].
  destruct (Py.filter p r) as [r'|] eqn:F; [|discriminate].
  intros [= <-] [A1 A2]. specialize (IH r' eq_refl A2).
  destruct b; [|exact IH]. split; [|exact IH].
  intros z Hz. apply A1. exact (proj1 (PyFacts.filter_in _ _ _ _ F Hz)).
Qed.

Lemma filter_none p l :
  Py.filter p l = None -> exists x, In x l /\ p x = None.
Proof.
  induction l as [|y r IH]; cbn; [discriminate|].
  destruct (p y) as [b|] eqn:Py; [|intros _; exists y; split; [now left|exact Py]].
  destruct (Py.filter p r) as [r'|]; [discriminate|].
  intros _. destruct (IH eq_refl) as (x & Hx & Px).
  exists x. split; [now right | exact Px].
Qed.

(** *** Sorting *)

Lemma insert_sorted k x l :
  PyFloat.is_nan k = false ->
  Forall (fun b => PyFloat.is_nan (fst b) = false) l ->
  sorted_keys l -> sorted_keys (Py.insert k x l).
Proof.
  intros Nk. induction l as [|[k' y] r IH]; intros N S; cbn.
  - split; [intros b []|exact I].
  - inversion N as [|? ? Nk' Nr]; subst. destruct S as [S1 S2]. cbn in *.
    destruct (PyFloat.ltb k' k) eqn:L; cbn.
    + split; [|exact (IH Nr S2)].
      intros b Hb. apply PyFacts.in_insert in Hb. destruct Hb as [->|Hb].
      * apply PyFacts.ltb_leb, L.
      * exact (S1 b Hb).
    + assert (G : PyFloat.leb k k' = true) by (apply not_lt_ge; trivial).
      split; [|split; assumption].
      intros b [<-|Hb]; [exact G|].
      exact (leb_trans _ _ _ G (S1 b Hb)).
Qed.

Lemma sort_keyed_sorted l :
  Forall (fun b => PyFloat.is_nan (fst b) = false) l ->
  sorted_keys (Py.sort_keyed l).
Proof.
  induction l as [|[k x] r IH]; intros N; cbn; [exact I|].
  inversion N as [|? ? Nk Nr]; subst. apply insert_sorted; [exact Nk| |auto].
  apply Forall_forall. intros b Hb. apply (proj1 (PyFacts.in_sort_keyed _ _)) in Hb.
  exact (proj1 (Forall_forall _ _) Nr b Hb).
Qed.

Lemma sorted_keys_ascending kl :
  sorted_keys kl ->
  Forall (fun b => StateStore.timestamp_of (snd b) = Some (fst b)) kl ->
  ascending (map snd kl).
Proof.
  induction kl as [|[k x] r IH]; cbn; [trivial|].
  intros [S1 S2] F. inversion F as [|? ? Fk Fr]; subst. cbn in *.
  split; [|exact (IH S2 Fr)].
  intros y Hy. apply in_map_iff in Hy. destruct Hy as ([k' y'] & <- & Hb).
  exists k, k'. split; [exact Fk|]. split.
  - exact (proj1 (Forall_forall _ _) Fr _ Hb).
  - exact (S1 _ Hb).
Qed.

(** Sorting by timestamp puts a history in order, NaN apart. *)
Lemma sorted_ascending l l' :
  Py.sorted StateStore.timestamp_of l = Some l' ->
  (forall x t, In x l -> StateStore.timestamp_of x = Some t ->
               PyFloat.is_nan t = false) ->
  ascending l'.
Proof.
  unfold Py.sorted.
  destruct (Py.with_keys StateStore.timestamp_of l) as [kl|] eqn:W;
    [|discriminate].
  intros [= <-] N.
  destruct (PyFacts.with_keys_spec _ _ _ W) as [M F].
  assert (Nk : Forall (fun b => PyFloat.is_nan (fst b) = false) kl).
  { apply Forall_forall. intros [k x] Hb.
    pose proof (proj1 (Forall_forall _ _) F _ Hb) as Kx. cbn in *.
    apply (N x k); [|exact Kx].
    rewrite <- M. apply in_map_iff. now exists (k, x). }
  apply sorted_keys_ascending.
  - now apply sort_keyed_sorted.
  - apply Forall_forall. intros b Hb. apply (proj1 (PyFacts.in_sort_keyed _ _)) in Hb.
    exact (proj1 (Forall_forall _ _) F b Hb).
Qed.

(** *** What the clean-up leaves *)

Lemma left_of_in cutoff h h' x : left_of cutoff h h' -> In x h' -> In x h.
Proof.
  intros [->|F] Hx; [exact Hx|].
  exact (proj1 (PyFacts.filter_in _ _ _ _ F Hx)).
Qed.

Lemma left_of_ascending cutoff h h' :
  left_of cutoff h h' -> ascending h -> ascending h'.
Proof. intros [->|F]; [trivial | exact (filter_ascending _ _ _ F)]. Qed.

Lemma left_of_fresh cutoff h h' x :
  left_of cutoff h h' -> In x h ->
  StateStore.fresh_enough cutoff x = Some true -> In x h'.
Proof.
  intros [->|F] Hx Fx; [exact Hx | exact (filter_complete _ _ _ _ F Hx Fx)].
Qed.

(** Data that has a [latest] field goes through the clean-up, if it
    goes, with the field and the fresh part of its history. *)
Lemma cleanup_data_shaped cutoff latest h data :
  shaped cutoff latest h data ->
  match StateStore.cleanup_data cutoff data with
  | StateStore.Keep data' => shaped cutoff latest h data'
  | StateStore.Delete => False
  | StateStore.Fail => True
  end.
Proof.
  intros (d & h' & -> & L & H & K). cbn. unfold Dict.mem at 1. rewrite H.
  destruct (Py.filter (StateStore.fresh_enough cutoff) h') as [kept|] eqn:F;
    [|exact I].
  assert (M : Dict.mem (Dict.put "history" (VList kept) d) "latest" = true).
  { rewrite mem_put. cbn. unfold Dict.mem. now rewrite L. }
  rewrite M, andb_false_r.
  exists (Dict.put "history" (VList kept) d), kept.
  split; [reflexivity|]. split.
  { rewrite DictFacts.get_put_other; [exact L | discriminate]. }
  split; [apply DictFacts.get_put_same|].
  destruct K as [->|K]; [now right|].
  right. rewrite <- F. rewrite (filter_idem _ _ _ K) in F.
  injection F as <-. rewrite (filter_idem _ _ _ K). exact K.
Qed.

(** The clean-up, turn by turn, for what is stored under one key. *)
Lemma cleanup_loop_inv cutoff key (P : pyobject -> Prop) :
  (forall data, P data ->
     match StateStore.cleanup_data cutoff data with
     | StateStore.Keep data' => P data'
     | StateStore.Delete => False
     | StateStore.Fail => True
     end) ->
  forall keys st,
    (exists data, Dict.get st key = Some data /\ P data) ->
    exists data,
      Dict.get (snd (StateStore.cleanup_loop cutoff keys st)) key = Some data
      /\ P data.
Proof.
  intros H keys. induction keys as [|a rest IH]; intros st (data & G & HP); cbn.
  - now exists data.
  - destruct (StateStore.reserved a); [apply IH; now exists data|].
    destruct (Dict.get st a) as [da|] eqn:Ga; [|now exists data].
    destruct (String.eqb_spec a key) as [->|N].
    + rewrite G in Ga. injection Ga as <-. specialize (H data HP).
      destruct (StateStore.cleanup_data cutoff data) as [data'| |].
      * apply IH. exists data'. split; [apply DictFacts.get_put_same|exact H].
      * destruct H.
      * now exists data.
    + destruct (StateStore.cleanup_data cutoff da) as [data'| |].
      * apply IH. exists data. now rewrite DictFacts.get_put_other.
      * apply IH. exists data. now rewrite DictFacts.get_del_other.
      * now exists data.
Qed.

(** *** [set] *)

Lemma state_save_state now s :
  StateStore.state (StateStore.save_state now s)
  = snd (StateStore.cleanup_loop (StateStore.cutoff s now)
           (Dict.keys (StateStore.state s)) (StateStore.state s)).
Proof.
  unfold StateStore.save_state, StateStore._cleanup_old_data.
  now destruct (StateStore.cleanup_loop _ _ _).
Qed.

Lemma timestamp_of_entry v t :
  StateStore.timestamp_of (StateStore.entry v t) = Some t.
Proof. reflexivity. Qed.

Lemma apart_timestamped t x :
  StateStore.apart t x = Some true ->
  exists tx, StateStore.timestamp_of x = Some tx
             /\ PyFloat.is_nan tx = false /\ PyFloat.is_nan t = false.
Proof.
  unfold StateStore.apart.
  destruct (StateStore.timestamp_of x) as [tx|]; [|discriminate].
  intros [= H]. exists tx. split; [reflexivity|]. exact (far_not_nan _ _ H).
Qed.

(** The items [set] goes through are those of the stored history. *)
Lemma iter_history d items x t :
  Py.iter (Dict.get_default d "history" (VList [])) = Some items ->
  In x items -> StateStore.apart t x = Some true ->
  In x (history_of (VDict d)).
Proof.
  unfold Dict.get_default. cbn [history_of].
  destruct (Dict.get d "history") as [[| | | s | l | dd]|]; cbn;
    try discriminate; intros [= <-] Hx A; try exact Hx.
  - apply in_map_iff in Hx. destruct Hx as (c & <- & _). discriminate.
  - apply in_map_iff in Hx. destruct Hx as (c & <- & _). discriminate.
Qed.

(** What [set] leaves under its key before it saves. *)
Lemma upsert_shape key v t st st' :
  StateStore.upsert key v t st = (Returned, st') ->
  exists d h,
    Dict.get st' key = Some (VDict d)
    /\ Dict.get d "latest" = Some (StateStore.entry v t)
    /\ Dict.get d "history" = Some (VList h)
    /\ In (StateStore.entry v t) h
    /\ ascending h
    /\ forall item, In item h ->
         item = StateStore.entry v t
         \/ (In item (history st key) /\ StateStore.apart t item = Some true).
Proof.
  unfold StateStore.upsert.
  assert (First : forall st0,
            exists d h,
              Dict.get (Dict.put key (StateStore.first_record v t) st0) key
              = Some (VDict d)
              /\ Dict.get d "latest" = Some (StateStore.entry v t)
              /\ Dict.get d "history" = Some (VList h)
              /\ In (StateStore.entry v t) h
              /\ ascending h
              /\ forall item, In item h ->
                   item = StateStore.entry v t
                   \/ (In item (history st key)
                       /\ StateStore.apart t item = Some true)).
  { intros st0. rewrite DictFacts.get_put_same.
    eexists _, [StateStore.entry v t]. split; [reflexivity|].
    split; [reflexivity|]. split; [reflexivity|]. split; [now left|].
    split; [split; [intros y []|exact I]|].
    intros item [<-|[]]. now left. }
  destruct (Dict.get st key) as [data|] eqn:G.
  2:{ intros [= <-]. apply First. }
  destruct data as [| | | | |d]; try (intros [= <-]; apply First).
  set (d1 := Dict.put "latest" (StateStore.entry v t) d).
  destruct (Py.iter (Dict.get_default d1 "history" (VList []))) as [items|] eqn:It;
    [|discriminate].
  destruct (Py.filter (StateStore.apart t) items) as [kept|] eqn:F;
    [|discriminate].
  destruct (Py.sorted StateStore.timestamp_of (kept ++ [StateStore.entry v t]))
    as [h|] eqn:S; [|discriminate].
  intros [= <-]. rewrite DictFacts.get_put_same.
  exists (Dict.put "history" (VList h) d1), h.
  split; [reflexivity|]. split.
  { rewrite DictFacts.get_put_other by discriminate.
    apply DictFacts.get_put_same. }
  split; [apply DictFacts.get_put_same|].
  assert (Hd1 : Dict.get_default d1 "history" (VList [])
                = Dict.get_default d "history" (VList [])).
  { unfold Dict.get_default, d1.
    now rewrite DictFacts.get_put_other by discriminate. }
  rewrite Hd1 in It.
  assert (Old : forall x, In x kept ->
                  In x (history st key) /\ StateStore.apart t x = Some true).
  { intros x Hx. destruct (PyFacts.filter_in _ _ _ _ F Hx) as [Hi A].
    split; [|exact A]. unfold history. rewrite G.
    exact (iter_history _ _ _ _ It Hi A). }
  split.
  { apply (PyFacts.sorted_in _ _ _ _ S). apply in_or_app. right. now left. }
  split.
  { destruct kept as [|k0 kept'].
    - cbn in S. injection S as <-. split; [intros y []|exact I].
    - assert (Nt : PyFloat.is_nan t = false).
      { destruct (Old k0 (or_introl eq_refl)) as [_ A].
        now destruct (apart_timestamped _ _ A) as (tx & _ & _ & Nt). }
      apply (sorted_ascending _ _ S). intros x tx Hx Tx.
      apply in_app_or in Hx. destruct Hx as [Hx|[<-|[]]].
      + destruct (Old x Hx) as [_ A].
        destruct (apart_timestamped _ _ A) as (tx' & Tx' & Nx & _).
        congruence.
      + cbn in Tx. congruence. }
  intros item Hi. apply (PyFacts.sorted_in _ _ _ _ S) in Hi.
  apply in_app_or in Hi. destruct Hi as [Hi|[<-|[]]]; [right|now left].
  exact (Old item Hi).
Qed.

(** What [set] leaves under its key when it has returned: the new
    entry as [latest], and a history in the order of its timestamps
    whose other items are items of the old history more than one
    second away from the new one.  The new entry is in the history
    when its timestamp is not below the cutoff of the clean-up. *)
Lemma set_shape key v timestamp t0 now s s' :
  StateStore.set key v timestamp t0 now s = (Returned, s') ->
  let t := stamp timestamp t0 in
  exists d h,
    Dict.get (StateStore.state s') key = Some (VDict d)
    /\ Dict.get d "latest" = Some (StateStore.entry v t)
    /\ Dict.get d "history" = Some (VList h)
    /\ ascending h
    /\ (forall item, In item h ->
          item = StateStore.entry v t
          \/ (In item (history (StateStore.state s) key)
              /\ StateStore.apart t item = Some true))
    /\ ((t >=? StateStore.cutoff s now)%py = true ->
        In (StateStore.entry v t) h).
Proof.
  unfold StateStore.set. fold (stamp timestamp t0). intros E. cbv zeta.
  set (t := stamp timestamp t0) in *.
  destruct (StateStore.upsert key v t (StateStore.state s)) as [[|] st] eqn:U;
    [|discriminate].
  injection E as <-.
  destruct (upsert_shape _ _ _ _ _ U) as (d & h & G & L & H & He & A & O).
  destruct (cleanup_loop_inv (StateStore.cutoff s now) key
              (shaped (StateStore.cutoff s now) (StateStore.entry v t) h)
              (cleanup_data_shaped _ _ _) (Dict.keys st) st)
    as (data & G' & d' & h' & -> & L' & H' & K).
  { exists (VDict d). split; [exact G|]. exists d, h. repeat split; trivial.
    now left. }
  rewrite state_save_state.
  exists d', h'. split; [exact G'|]. split; [exact L'|]. split; [exact H'|].
  split; [exact (left_of_ascending _ _ _ K A)|]. split.
  - intros item Hi. apply O. exact (left_of_in _ _ _ _ K Hi).
  - intros Fr. apply (left_of_fresh _ _ _ _ K He).
    unfold StateStore.fresh_enough. cbn. now rewrite Fr.
Qed.

(** *** The clean-up a second time *)

Lemma cleanup_data_stable cutoff data data' :
  StateStore.cleanup_data cutoff data = StateStore.Keep data' ->
  stable cutoff data'.
Proof.
  unfold stable. destruct data as [| | | | |d]; cbn; try (now intros [= <-]).
  destruct (Dict.mem d "history") eqn:M.
  - destruct (Dict.get d "history") as [[| | | | h |]|] eqn:G;
      try (intros [= <-]; cbn; rewrite M, G; reflexivity).
    destruct (Py.filter (StateStore.fresh_enough cutoff) h) as [kept|] eqn:F;
      [|discriminate].
    match goal with
    | |- (if ?c then _ else _) = _ -> _ => destruct c eqn:C
    end; [discriminate|].
    intros [= <-]. cbn. rewrite mem_put. cbn.
    rewrite DictFacts.get_put_same, (filter_idem _ _ _ F), put_put.
    now rewrite C.
  - destruct (Dict.mem d "timestamp") eqn:T.
    + destruct (Py.num (Dict.get_default d "timestamp" (VNum PyFloat.zero)))
        as [t|] eqn:Ts; [|discriminate].
      destruct (PyFloat.ltb t cutoff) eqn:L; [discriminate|].
      intros [= <-]. cbn. now rewrite M, T, Ts, L.
    + intros [= <-]. cbn. now rewrite M, T.
Qed.

(** After a clean-up that has returned, every key it looks at holds
    stable data. *)
Lemma cleanup_loop_stabilises cutoff keys st st' :
  StateStore.cleanup_loop cutoff keys st = (Returned, st') ->
  (forall k data, StateStore.reserved k = false -> Dict.get st k = Some data ->
     In k keys \/ stable cutoff data) ->
  forall k data, StateStore.reserved k = false -> Dict.get st' k = Some data ->
    stable cutoff data.
Proof.
  revert st. induction keys as [|a rest IH]; intros st; cbn.
  - intros [= <-] H k data R G. destruct (H k data R G) as [[]|S]. exact S.
  - destruct (StateStore.reserved a) eqn:Ra.
    + intros E H. apply (IH _ E). intros k data R G.
      destruct (H k data R G) as [[<-|I]|S]; [congruence|now left|now right].
    + destruct (Dict.get st a) as [da|] eqn:Ga; [|discriminate].
      destruct (StateStore.cleanup_data cutoff da) as [da'| |] eqn:C;
        [| |discriminate]; intros E H; apply (IH _ E); intros k data R G.
      * destruct (String.eqb_spec a k) as [->|N].
        -- rewrite DictFacts.get_put_same in G. injection G as <-.
           right. exact (cleanup_data_stable _ _ _ C).
        -- rewrite DictFacts.get_put_other in G by exact N.
           destruct (H k data R G) as [[->|I]|S];
             [congruence|now left|now right].
      * destruct (String.eqb_spec a k) as [->|N].
        -- now rewrite DictFacts.get_del_same in G.
        -- rewrite DictFacts.get_del_other in G by exact N.
           destruct (H k data R G) as [[->|I]|S];
             [congruence|now left|now right].
Qed.

(** The clean-up changes nothing in a store whose data are stable. *)
Lemma cleanup_loop_fixed cutoff keys st :
  (forall k, In k keys -> In k (Dict.keys st)) ->
  (forall k data, StateStore.reserved k = false -> Dict.get st k = Some data ->
     stable cutoff data) ->
  StateStore.cleanup_loop cutoff keys st = (Returned, st).
Proof.
  intros K H. induction keys as [|a rest IH]; cbn; [reflexivity|].
  assert (IH' : StateStore.cleanup_loop cutoff rest st = (Returned, st)).
  { apply IH. intros k Hk. apply K. now right. }
  destruct (StateStore.reserved a) eqn:Ra; [exact IH'|].
  destruct (in_keys_get st a (K a (or_introl eq_refl))) as [da Ga].
  rewrite Ga, (H a da Ra Ga), (put_same _ _ _ Ga). exact IH'.
Qed.

Lemma cleanup_loop_idem cutoff st st' :
  StateStore.cleanup_loop cutoff (Dict.keys st) st = (Returned, st') ->
  StateStore.cleanup_loop cutoff (Dict.keys st') st' = (Returned, st').
Proof.
  intros E. apply cleanup_loop_fixed; [trivial|].
  apply (cleanup_loop_stabilises _ _ _ _ E).
  intros k data _ G. left. exact (DictFacts.get_in_keys _ _ _ G).
Qed.

(** *** Keys that stay *)

Lemma cleanup_data_tracked cutoff latest data :
  (exists d, data = VDict d /\ Dict.get d "latest" = Some latest
             /\ Dict.mem d "history" = true) ->
  match StateStore.cleanup_data cutoff data with
  | StateStore.Keep data' =>
      exists d, data' = VDict d /\ Dict.get d "latest" = Some latest
                /\ Dict.mem d "history" = true
  | StateStore.Delete => False
  | StateStore.Fail => True
  end.
Proof.
  intros (d & -> & L & M). cbn. rewrite M.
  destruct (Dict.get d "history") as [[| | | | h |]|] eqn:G;
    try (exists d; now repeat split).
  destruct (Py.filter (StateStore.fresh_enough cutoff) h) as [kept|] eqn:F;
    [|exact I].
  assert (M' : Dict.mem (Dict.put "history" (VList kept) d) "latest" = true).
  { rewrite mem_put. cbn. unfold Dict.mem. now rewrite L. }
  rewrite M', andb_false_r.
  exists (Dict.put "history" (VList kept) d). split; [reflexivity|]. split.
  - rewrite DictFacts.get_put_other; [exact L | discriminate].
  - rewrite mem_put. reflexivity.
Qed.

(** A key with a [latest] field and a [history] field keeps both,
    and what the first holds, in every clean-up. *)
Lemma save_state_keeps now s k latest :
  (exists d, Dict.get (StateStore.state s) k = Some (VDict d)
             /\ Dict.get d "latest" = Some latest
             /\ Dict.mem d "history" = true) ->
  exists d, Dict.get (StateStore.state (StateStore.save_state now s)) k
            = Some (VDict d)
            /\ Dict.get d "latest" = Some latest
            /\ Dict.mem d "history" = true.
Proof.
  intros (d & G & L & M). rewrite state_save_state.
  destruct (cleanup_loop_inv (StateStore.cutoff s now) k _
              (cleanup_data_tracked _ latest)
              (Dict.keys (StateStore.state s)) (StateStore.state s))
    as (data & G' & d' & -> & L' & M').
  - exists (VDict d). split; [exact G|]. now exists d.
  - now exists d'.
Qed.

Lemma set_last_alert_time_keeps alert_key timestamp t0 now s k latest :
  k <> "last_alert_times" ->
  (exists d, Dict.get (StateStore.state s) k = Some (VDict d)
             /\ Dict.get d "latest" = Some latest
             /\ Dict.mem d "history" = true) ->
  exists d,
    Dict.get
      (StateStore.state
         (snd (StateStore.set_last_alert_time alert_key timestamp t0 now s))) k
    = Some (VDict d)
    /\ Dict.get d "latest" = Some latest
    /\ Dict.mem d "history" = true.
Proof.
  intros N (d & G & L & M). unfold StateStore.set_last_alert_time.
  set (st := if Dict.mem (StateStore.state s) "last_alert_times"
             then StateStore.state s
             else Dict.put "last_alert_times" (VDict []) (StateStore.state s)).
  assert (Gst : Dict.get st k = Some (VDict d)).
  { unfold st.
    destruct (Dict.mem (StateStore.state s) "last_alert_times"); [exact G|].
    rewrite DictFacts.get_put_other; [exact G | congruence]. }
  destruct (Dict.get st "last_alert_times") as [[| | | | |table]|];
    try (exists d; cbn; now repeat split).
  apply save_state_keeps. exists d. cbn.
  rewrite DictFacts.get_put_other by congruence. now repeat split.
Qed.

(** [set], when it has returned, leaves its key with the new entry
    as [latest]. *)
Lemma set_keeps_latest key v timestamp t0 now s s' :
  StateStore.set key v timestamp t0 now s = (Returned, s') ->
  exists d, Dict.get (StateStore.state s') key = Some (VDict d)
            /\ Dict.get d "latest"
               = Some (StateStore.entry v (stamp timestamp t0))
            /\ Dict.mem d "history" = true.
Proof.
  intros E. destruct (set_shape _ _ _ _ _ _ _ E) as (d & h & G & L & H & _).
  exists d. split; [exact G|]. split; [exact L|]. unfold Dict.mem. now rewrite H.
Qed.

(** A [set] on another key keeps the [latest] field of a key. *)
Lemma set_other_keeps key v timestamp t0 now s k latest :
  key <> k ->
  (exists d, Dict.get (StateStore.state s) k = Some (VDict d)
             /\ Dict.get d "latest" = Some latest
             /\ Dict.mem d "history" = true) ->
  exists d,
    Dict.get (StateStore.state (snd (StateStore.set key v timestamp t0 now s))) k
    = Some (VDict d)
    /\ Dict.get d "latest" = Some latest
    /\ Dict.mem d "history" = true.
Proof.
  intros N (d & G & L & M). unfold StateStore.set.
  pose proof (StoreFacts.upsert_other key v
                match timestamp with Some t => t | None => t0 end
                (StateStore.state s) k N) as O.
  destruct (StateStore.upsert key v _ (StateStore.state s)) as [[|] st];
    cbn in O.
  - apply save_state_keeps. exists d. cbn. rewrite O. now repeat split.
  - exists d. cbn. rewrite O. now repeat split.
Qed.

End HistoryFacts.

(** ** Reading what [set] has written *)

Module ReadFacts.
Import StoreSpec HistorySpec OrderFacts PyFloatFacts HistoryFacts.

Lemma set_max_history_minutes key v timestamp t0 now s :
  StateStore.max_history_minutes
    (snd (StateStore.set key v timestamp t0 now s))
  = StateStore.max_history_minutes s.
Proof.
  unfold StateStore.set.
  destruct (StateStore.upsert key v _ (StateStore.state s)) as [[|] st];
    [|reflexivity].
  cbn. unfold StateStore.save_state, StateStore._cleanup_old_data.
  now destruct (StateStore.cleanup_loop _ _ _).
Qed.

(** [get_history] on a key that holds a history list. *)
Lemma get_history_of_list s key minutes current_time d h :
  Dict.get (StateStore.state s) key = Some (VDict d) ->
  Dict.get d "history" = Some (VList h) ->
  StateStore.get_history s key minutes current_time
  = Py.filter
      (StateStore.fresh_enough (current_time - PyFloat.of_Z (minutes * 60))%py)
      h.
Proof.
  intros G H. unfold StateStore.get_history. rewrite G. cbn.
  unfold Dict.mem, Dict.get_default. rewrite H. reflexivity.
Qed.

(** The history [get_history] answers with after a [set]. *)
Lemma set_get_history key v timestamp t0 now s s' minutes later :
  StateStore.set key v timestamp t0 now s = (Returned, s') ->
  let t := stamp timestamp t0 in
  exists h,
    StateStore.get_history s' key minutes later = Some h
    /\ (forall item, In item h ->
          item = StateStore.entry v t
          \/ (In item (history (StateStore.state s) key)
              /\ StateStore.apart t item = Some true))
    /\ ((t >=? StateStore.cutoff s now)%py = true ->
        (t >=? later - PyFloat.of_Z (minutes * 60))%py = true ->
        In (StateStore.entry v t) h).
Proof.
  intros E. cbv zeta.
  destruct (set_shape _ _ _ _ _ _ _ E) as (d & h & G & _ & H & _ & O & Fr).
  rewrite (get_history_of_list _ _ _ _ _ _ G H).
  destruct (PyFacts.filter_some
              (StateStore.fresh_enough (later - PyFloat.of_Z (minutes * 60))%py)
              h) as [h2 F].
  { apply Forall_forall. intros x Hx. unfold StateStore.fresh_enough.
    destruct (O x Hx) as [->|[_ A]]; [discriminate|].
    destruct (apart_timestamped _ _ A) as (tx & -> & _). discriminate. }
  exists h2. split; [exact F|]. split.
  - intros item Hi. apply O. exact (proj1 (PyFacts.filter_in _ _ _ _ F Hi)).
  - intros F1 F2. apply (filter_complete _ _ _ _ F (Fr F1)).
    unfold StateStore.fresh_enough. cbn. now rewrite F2.
Qed.

(** What [get_history] answers with is fresh enough. *)
Lemma get_history_fresh s key minutes current_time h x :
  StateStore.get_history s key minutes current_time = Some h -> In x h ->
  StateStore.fresh_enough (current_time - PyFloat.of_Z (minutes * 60))%py x
  = Some true.
Proof.
  unfold StateStore.get_history.
  destruct (Dict.get (StateStore.state s) key) as [data|];
    [|now intros [= <-] []].
  set (c := (current_time - PyFloat.of_Z (minutes * 60))%py).
  assert (Body :
    (if Py.dict_has data "history"
     then history <- Py.get data "history" (VList []);;
          items <- Py.iter history;; Py.filter (StateStore.fresh_enough c) items
     else if Py.dict_has data "timestamp"
          then b <- StateStore.fresh_enough c data;;
               Some (if b then [data] else [])
          else Some []) = Some h -> In x h ->
    StateStore.fresh_enough c x = Some true).
  { destruct (Py.dict_has data "history").
    - destruct (Py.get data "history" (VList [])) as [hist|]; [|discriminate].
      destruct (Py.iter hist) as [items|]; [|discriminate].
      intros F Hx. exact (proj2 (PyFacts.filter_in _ _ _ _ F Hx)).
    - destruct (Py.dict_has data "timestamp"); [|now intros [= <-] []].
      destruct (StateStore.fresh_enough c data) as [[|]|] eqn:Fd;
        try discriminate; intros [= <-] []; try contradiction.
      now subst. }
  destruct data; exact Body.
Qed.

(** The last item of a history sorted by timestamp. *)
Lemma sorted_last l l' :
  Py.sorted StateStore.timestamp_of l = Some l' -> l <> [] ->
  (forall x t, In x l -> StateStore.timestamp_of x = Some t ->
               PyFloat.is_nan t = false) ->
  In (last l' VNone) l
  /\ forall y, In y l -> before y (last l' VNone).
Proof.
  unfold Py.sorted.
  destruct (Py.with_keys StateStore.timestamp_of l) as [kl|] eqn:W;
    [|discriminate].
  intros [= <-] Nl N.
  destruct (PyFacts.with_keys_spec _ _ _ W) as [M F].
  rewrite Forall_forall in F.
  assert (Nkl : kl <> []) by (intros ->; cbn in M; congruence).
  assert (Fk : Forall (fun b => PyFloat.is_nan (fst b) = false) kl).
  { apply Forall_forall. intros [k x] Hb. pose proof (F _ Hb) as Kx. cbn in *.
    apply (N x k); [|exact Kx]. rewrite <- M. apply in_map_iff. now exists (k, x). }
  destruct (PyFacts.last_sort_keyed kl (PyFloat.zero, VNone) Fk Nkl)
    as [Hin Hmax].
  change VNone with (snd (PyFloat.zero, VNone)). rewrite last_map.
  destruct (last (Py.sort_keyed kl) (PyFloat.zero, VNone)) as [k x] eqn:El.
  cbn [snd]. pose proof (F _ Hin) as Kx. cbn in Kx. split.
  - rewrite <- M. apply in_map_iff. now exists (k, x).
  - intros y Hy. rewrite <- M in Hy. apply in_map_iff in Hy.
    destruct Hy as ([k' y'] & <- & Hb). pose proof (F _ Hb) as Ky. cbn in *.
    exists k', k. split; [exact Ky|]. split; [exact Kx|]. exact (Hmax _ Hb).
Qed.

End ReadFacts.

(** ** The store: what [set] files and what the readers find *)

(** After [set] has returned, whatever the store held: the key holds
    the new entry as [latest]; its history is in the order of the
    timestamps; every item of it other than the new entry is an item
    of the old history whose timestamp is more than one second away
    from the new one; the new entry is in it when its timestamp is not
    below the cutoff of the clean-up. *)
Theorem set_files_in_order
  (key : string) (v : pyobject) (timestamp : option PyFloat.t)
  (t0 now : PyFloat.t) (s s' : StateStore.self) :
  StateStore.set key v timestamp t0 now s = (Returned, s') ->
  let t := HistorySpec.stamp timestamp t0 in
  HistorySpec.latest_of (StateStore.state s') key = Some (StateStore.entry v t)
  /\ HistorySpec.ascending (StoreSpec.history (StateStore.state s') key)
  /\ (forall item, In item (StoreSpec.history (StateStore.state s') key) ->
        item = StateStore.entry v t
        \/ (In item (StoreSpec.history (StateStore.state s) key)
            /\ exists ti, StateStore.timestamp_of item = Some ti
                          /\ (PyFloat.abs (ti - t) >? PyFloat.one)%py = true))
  /\ ((t >=? StateStore.cutoff s now)%py = true ->
      In (StateStore.entry v t) (StoreSpec.history (StateStore.state s') key)).
Proof.
  intros E. cbv zeta.
  destruct (HistoryFacts.set_shape _ _ _ _ _ _ _ E)
    as (d & h & G & L & H & A & O & Fr).
  unfold HistorySpec.latest_of, StoreSpec.history. rewrite G. cbn. rewrite H.
  split; [exact L|]. split; [exact A|]. split; [|exact Fr].
  intros item Hi. destruct (O item Hi) as [->|[Old Ap]]; [now left|right].
  split; [exact Old|]. unfold StateStore.apart in Ap.
  destruct (StateStore.timestamp_of item) as [ti|]; [|discriminate].
  exists ti. split; [reflexivity|]. now injection Ap.
Qed.

Lemma set_files_in_order_witness :
  let s := Examples.store1 in
  let r := StateStore.set "dvol" (VNum (Examples.t 55)) (Some (Examples.t 1060))
             (Examples.t 1060) (Examples.t 1060) s in
  r = (Returned, snd r)
  /\ HistorySpec.latest_of (StateStore.state (snd r)) "dvol"
     = Some (StateStore.entry (VNum (Examples.t 55)) (Examples.t 1060))
  /\ HistorySpec.ascending (StoreSpec.history (StateStore.state (snd r)) "dvol")
  /\ (forall item, In item (StoreSpec.history (StateStore.state (snd r)) "dvol") ->
        item = StateStore.entry (VNum (Examples.t 55)) (Examples.t 1060)
        \/ (In item (StoreSpec.history (StateStore.state s) "dvol")
            /\ exists ti, StateStore.timestamp_of item = Some ti
                          /\ (PyFloat.abs (ti - Examples.t 1060) >? PyFloat.one)%py
                             = true))
  /\ ((Examples.t 1060 >=? StateStore.cutoff s (Examples.t 1060))%py = true ->
      In (StateStore.entry (VNum (Examples.t 55)) (Examples.t 1060))
        (StoreSpec.history (StateStore.state (snd r)) "dvol")).
Proof.
  cbv zeta. split; [vm_compute; reflexivity|].
  apply (set_files_in_order "dvol" (VNum (Examples.t 55))
           (Some (Examples.t 1060)) (Examples.t 1060) (Examples.t 1060)
           Examples.store1).
  vm_compute; reflexivity.
Defined.

(** What [set] has filed, [get_history] finds: when the timestamp is
    not below the cutoff of the clean-up nor below the start of the
    window asked for, the answer holds the new entry; whatever else it
    holds was in the history before. *)
Theorem set_then_get_history
  (key : string) (v : pyobject) (timestamp : option PyFloat.t)
  (t0 now : PyFloat.t) (s s' : StateStore.self)
  (minutes : Z) (later : PyFloat.t) :
  StateStore.set key v timestamp t0 now s = (Returned, s') ->
  let t := HistorySpec.stamp timestamp t0 in
  (t >=? StateStore.cutoff s now)%py = true ->
  (t >=? later - PyFloat.of_Z (minutes * 60))%py = true ->
  exists h,
    StateStore.get_history s' key minutes later = Some h
    /\ In (StateStore.entry v t) h
    /\ forall item, In item h ->
         item = StateStore.entry v t
         \/ In item (StoreSpec.history (StateStore.state s) key).
Proof.
  intros E. cbv zeta. intros F1 F2.
  destruct (ReadFacts.set_get_history _ _ _ _ _ _ _ minutes later E)
    as (h & G & O & I).
  exists h. split; [exact G|]. split; [exact (I F1 F2)|].
  intros item Hi. destruct (O item Hi) as [->|[Old _]]; [now left|now right].
Qed.

Lemma set_then_get_history_witness :
  let s := Examples.store1 in
  let r := StateStore.set "dvol" (VNum (Examples.t 55)) (Some (Examples.t 1060))
             (Examples.t 1060) (Examples.t 1060) s in
  let t := Examples.t 1060 in
  r = (Returned, snd r)
  /\ (t >=? StateStore.cutoff s (Examples.t 1060))%py = true
  /\ (t >=? Examples.t 1120 - PyFloat.of_Z (5 * 60))%py = true
  /\ exists h,
       StateStore.get_history (snd r) "dvol" 5 (Examples.t 1120) = Some h
       /\ In (StateStore.entry (VNum (Examples.t 55)) t) h
       /\ forall item, In item h ->
            item = StateStore.entry (VNum (Examples.t 55)) t
            \/ In item (StoreSpec.history (StateStore.state s) "dvol").
Proof.
  cbv zeta. split; [vm_compute; reflexivity|].
  split; [vm_compute; reflexivity|]. split; [vm_compute; reflexivity|].
  apply (set_then_get_history "dvol" (VNum (Examples.t 55))
           (Some (Examples.t 1060)) (Examples.t 1060) (Examples.t 1060)
           Examples.store1 _ 5 (Examples.t 1120));
    vm_compute; reflexivity.
Defined.

(** What [set] has filed, [get_latest] answers, when no item of the
    history carries a later timestamp and the clean-up has not pruned
    the new entry. *)
Theorem set_then_get_latest
  (key : string) (v : pyobject) (timestamp : option PyFloat.t)
  (t0 now : PyFloat.t) (s s' : StateStore.self) :
  StateStore.set key v timestamp t0 now s = (Returned, s') ->
  let t := HistorySpec.stamp timestamp t0 in
  (t >=? StateStore.cutoff s now)%py = true ->
  (forall item ti,
     In item (StoreSpec.history (StateStore.state s) key) ->
     StateStore.timestamp_of item = Some ti -> (ti <=? t)%py = true) ->
  StateStore.get_latest s' key = Some (StateStore.entry v t).
Proof.
  intros E. cbv zeta. intros Fr Le.
  set (t := HistorySpec.stamp timestamp t0) in *.
  destruct (HistoryFacts.set_shape _ _ _ _ _ _ _ E)
    as (d & h & G & _ & H & _ & O & I).
  fold t in O, I. specialize (I Fr).
  assert (Nt : PyFloat.is_nan t = false).
  { unfold PyFloat.geb in Fr. exact (proj2 (PyFloatFacts.leb_not_nan _ _ Fr)). }
  assert (Nh : h <> []) by (intros ->; destruct I).
  assert (N : forall x tx, In x h -> StateStore.timestamp_of x = Some tx ->
                PyFloat.is_nan tx = false).
  { intros x tx Hx Tx. destruct (O x Hx) as [->|[_ A]].
    - cbn in Tx. congruence.
    - destruct (HistoryFacts.apart_timestamped _ _ A) as (tx' & Tx' & Nx & _).
      congruence. }
  destruct (PyFacts.with_keys_some StateStore.timestamp_of h) as [kl W].
  { apply Forall_forall. intros x Hx. destruct (O x Hx) as [->|[_ A]];
      [discriminate|].
    destruct (HistoryFacts.apart_timestamped _ _ A) as (tx & -> & _).
    discriminate. }
  assert (S : Py.sorted StateStore.timestamp_of h
              = Some (map snd (Py.sort_keyed kl)))
    by (unfold Py.sorted; now rewrite W).
  destruct (ReadFacts.sorted_last _ _ S Nh N) as [Lin Lmax].
  set (latest := last (map snd (Py.sort_keyed kl)) VNone) in *.
  assert (El : latest = StateStore.entry v t).
  { destruct (O latest Lin) as [->|[Old A]]; [reflexivity|exfalso].
    destruct (Lmax _ I) as (te & tl & Te & Tl & L1). cbn in Te.
    injection Te as <-.
    pose proof (Le latest tl Old Tl) as L2.
    unfold StateStore.apart in A. rewrite Tl in A. injection A as A.
    rewrite (OrderFacts.same_not_far _ _ L2 L1) in A. discriminate. }
  unfold StateStore.get_latest. rewrite G. cbn -[Py.sorted last].
  unfold Dict.mem, Dict.get_default. rewrite H. cbn -[Py.sorted last].
  destruct h as [|x0 h0]; [congruence|]. rewrite S. fold latest.
  rewrite El. reflexivity.
Qed.

Lemma set_then_get_latest_witness :
  let s := Examples.store1 in
  let r := StateStore.set "dvol" (VNum (Examples.t 55)) (Some (Examples.t 1060))
             (Examples.t 1060) (Examples.t 1060) s in
  let t := Examples.t 1060 in
  r = (Returned, snd r)
  /\ (t >=? StateStore.cutoff s (Examples.t 1060))%py = true
  /\ (forall item ti,
        In item (StoreSpec.history (StateStore.state s) "dvol") ->
        StateStore.timestamp_of item = Some ti -> (ti <=? t)%py = true)
  /\ StateStore.get_latest (snd r) "dvol"
     = Some (StateStore.entry (VNum (Examples.t 55)) t).
Proof.
  cbv zeta.
  assert (Le : forall item ti,
             In item (StoreSpec.history (StateStore.state Examples.store1) "dvol") ->
             StateStore.timestamp_of item = Some ti ->
             (ti <=? Examples.t 1060)%py = true).
  { intros item ti [<-|[]] [= <-]. vm_compute. reflexivity. }
  split; [vm_compute; reflexivity|]. split; [vm_compute; reflexivity|].
  split; [exact Le|].
  apply (set_then_get_latest "dvol" (VNum (Examples.t 55))
           (Some (Examples.t 1060)) (Examples.t 1060) (Examples.t 1060)
           Examples.store1);
    [vm_compute; reflexivity | vm_compute; reflexivity | exact Le].
Defined.

(** [get_value_at_time] answers [None] when [get_history] finds
    nothing in the retention window, and otherwise the value of an
    item of that history whose timestamp no other item is closer to
    the target than; it raises only when [get_history] does. *)
Theorem get_value_at_time_closest
  (s : StateStore.self) (key : string) (target_time current_time : PyFloat.t)
  (h : list pyobject) :
  StateStore.get_history s key (StateStore.max_history_minutes s) current_time
  = Some h ->
  match h with
  | [] => StateStore.get_value_at_time s key target_time current_time
          = Some VNone
  | _ :: _ =>
      exists closest d v,
        In closest h
        /\ StateStore.distance target_time closest = Some d
        /\ Py.get closest "value" VNone = Some v
        /\ StateStore.get_value_at_time s key target_time current_time = Some v
        /\ forall x dx, In x h -> StateStore.distance target_time x = Some dx ->
             (dx <? d)%py = false
  end.
Proof.
  intros G. unfold StateStore.get_value_at_time. rewrite G.
  destruct h as [|x0 h0]; [reflexivity|].
  set (h := x0 :: h0) in *. cbn [Py.truthy negb].
  assert (T : forall x, In x h -> exists d t,
                x = VDict d /\ StateStore.timestamp_of x = Some t).
  { intros x Hx. pose proof (ReadFacts.get_history_fresh _ _ _ _ _ _ G Hx) as F.
    unfold StateStore.fresh_enough in F.
    destruct (StateStore.timestamp_of x) as [t|] eqn:Tx; [|discriminate].
    destruct x; try discriminate. now eexists _, _. }
  destruct (MinFacts.min_by_some (StateStore.distance target_time) h)
    as [m Em].
  { discriminate. }
  { apply Forall_forall. intros x Hx. destruct (T x Hx) as (d & t & _ & Tx).
    unfold StateStore.distance. rewrite Tx. discriminate. }
  rewrite Em.
  destruct (MinFacts.min_by_spec _ _ _ Em) as (Hin & km & Km & Min).
  destruct (T m Hin) as (d & t & -> & _).
  exists (VDict d), km, (Dict.get_default d "value" VNone).
  repeat split; trivial.
Qed.

Lemma get_value_at_time_closest_witness :
  let s := snd (StateStore.set "dvol" (VNum (Examples.t 55))
                  (Some (Examples.t 1060)) (Examples.t 1060) (Examples.t 1060)
                  Examples.store1) in
  let h := [StateStore.entry (VNum (Examples.t 50)) (Examples.t 1000);
            StateStore.entry (VNum (Examples.t 55)) (Examples.t 1060)] in
  StateStore.get_history s "dvol" (StateStore.max_history_minutes s)
    (Examples.t 1100) = Some h
  /\ exists closest d v,
       In closest h
       /\ StateStore.distance (Examples.t 1040) closest = Some d
       /\ Py.get closest "value" VNone = Some v
       /\ StateStore.get_value_at_time s "dvol" (Examples.t 1040)
            (Examples.t 1100) = Some v
       /\ forall x dx, In x h ->
            StateStore.distance (Examples.t 1040) x = Some dx ->
            (dx <? d)%py = false.
Proof.
  cbv zeta. split; [vm_compute; reflexivity|].
  apply (get_value_at_time_closest
           (snd (StateStore.set "dvol" (VNum (Examples.t 55))
                   (Some (Examples.t 1060)) (Examples.t 1060) (Examples.t 1060)
                   Examples.store1))
           "dvol" (Examples.t 1040) (Examples.t 1100)
           [StateStore.entry (VNum (Examples.t 50)) (Examples.t 1000);
            StateStore.entry (VNum (Examples.t 55)) (Examples.t 1060)]).
  vm_compute; reflexivity.
Defined.

(** The value [set] has filed under a finite timestamp is the one
    [get_value_at_time] answers for that timestamp, as long as the
    entry is within the retention window: every other item of the
    history is more than one second away. *)
Theorem set_then_get_value_at_time
  (key : string) (v : pyobject) (timestamp : option PyFloat.t)
  (t0 now : PyFloat.t) (s s' : StateStore.self) (later : PyFloat.t) :
  StateStore.set key v timestamp t0 now s = (Returned, s') ->
  let t := HistorySpec.stamp timestamp t0 in
  PyFloat.is_finite t = true ->
  (t >=? StateStore.cutoff s now)%py = true ->
  (t >=? StateStore.cutoff s later)%py = true ->
  StateStore.get_value_at_time s' key t later = Some v.
Proof.
  intros E. cbv zeta. intros Fin F1 F2.
  set (t := HistorySpec.stamp timestamp t0) in *.
  assert (M : StateStore.max_history_minutes s'
              = StateStore.max_history_minutes s).
  { pose proof (ReadFacts.set_max_history_minutes key v timestamp t0 now s) as M.
    now rewrite E in M. }
  destruct (ReadFacts.set_get_history _ _ _ _ _ _ _
              (StateStore.max_history_minutes s) later E) as (h & G & O & I).
  fold t in O, I. specialize (I F1 F2).
  unfold StateStore.get_value_at_time. rewrite M, G.
  destruct h as [|x0 h0]; [destruct I|].
  set (h := x0 :: h0) in *. cbn [Py.truthy negb].
  destruct (MinFacts.min_by_some (StateStore.distance t) h) as [m Em].
  { discriminate. }
  { apply Forall_forall. intros x Hx. unfold StateStore.distance.
    destruct (O x Hx) as [->|[_ A]]; [discriminate|].
    destruct (HistoryFacts.apart_timestamped _ _ A) as (tx & -> & _).
    discriminate. }
  rewrite Em.
  destruct (MinFacts.min_by_spec _ _ _ Em) as (Hin & km & Km & Min).
  destruct (O m Hin) as [->|[_ A]]; [reflexivity|exfalso].
  unfold StateStore.apart in A. unfold StateStore.distance in Km.
  destruct (StateStore.timestamp_of m) as [tm|]; [|discriminate].
  injection Km as <-. injection A as A.
  specialize (Min (StateStore.entry v t) PyFloat.zero I).
  rewrite (OrderFacts.zero_below_far _ A) in Min.
  assert (D : StateStore.distance t (StateStore.entry v t) = Some PyFloat.zero).
  { unfold StateStore.distance. cbn. now rewrite (OrderFacts.sub_self t Fin). }
  specialize (Min D). discriminate.
Qed.

Lemma set_then_get_value_at_time_witness :
  let s := Examples.store1 in
  let r := StateStore.set "dvol" (VNum (Examples.t 55)) (Some (Examples.t 1060))
             (Examples.t 1060) (Examples.t 1060) s in
  let t := Examples.t 1060 in
  r = (Returned, snd r)
  /\ PyFloat.is_finite t = true
  /\ (t >=? StateStore.cutoff s (Examples.t 1060))%py = true
  /\ (t >=? StateStore.cutoff s (Examples.t 4000))%py = true
  /\ StateStore.get_value_at_time (snd r) "dvol" t (Examples.t 4000)
     = Some (VNum (Examples.t 55)).
Proof.
  cbv zeta. split; [vm_compute; reflexivity|].
  split; [vm_compute; reflexivity|]. split; [vm_compute; reflexivity|].
  split; [vm_compute; reflexivity|].
  apply (set_then_get_value_at_time "dvol" (VNum (Examples.t 55))
           (Some (Examples.t 1060)) (Examples.t 1060) (Examples.t 1060)
           Examples.store1 _ (Examples.t 4000));
    vm_compute; reflexivity.
Defined.

(** ** The clean-up *)

(** A clean-up that has gone through leaves a store on which the same
    clean-up changes nothing. *)
Theorem cleanup_twice (now : PyFloat.t) (s : StateStore.self) :
  fst (StateStore._cleanup_old_data now s) = Returned ->
  StateStore._cleanup_old_data now (StateStore.save_state now s)
  = (Returned, StateStore.save_state now s).
Proof.
  unfold StateStore.save_state, StateStore._cleanup_old_data.
  destruct (StateStore.cleanup_loop (StateStore.cutoff s now)
              (Dict.keys (StateStore.state s)) (StateStore.state s))
    as [o st] eqn:E.
  cbn [fst snd]. intros ->.
  change (StateStore.cutoff (StateStore.with_state s st) now)
    with (StateStore.cutoff s now).
  change (StateStore.state (StateStore.with_state s st)) with st.
  now rewrite (HistoryFacts.cleanup_loop_idem _ _ _ E).
Qed.

Lemma cleanup_twice_witness :
  let s := snd (StateStore.set "dvol" (VNum (Examples.t 55))
                  (Some (Examples.t 1060)) (Examples.t 1060) (Examples.t 1060)
                  Examples.store1) in
  let now := Examples.t 4650 in
  fst (StateStore._cleanup_old_data now s) = Returned
  /\ StateStore.state (StateStore.save_state now s) <> StateStore.state s
  /\ StateStore._cleanup_old_data now (StateStore.save_state now s)
     = (Returned, StateStore.save_state now s).
Proof.
  cbv zeta. split; [vm_compute; reflexivity|]. split; [vm_compute; discriminate|].
  apply (cleanup_twice (Examples.t 4650)
           (snd (StateStore.set "dvol" (VNum (Examples.t 55))
                   (Some (Examples.t 1060)) (Examples.t 1060) (Examples.t 1060)
                   Examples.store1))).
  vm_compute; reflexivity.
Defined.

(** A key that holds a [latest] field and a [history] field, as every
    key does that [set] has written, is never removed: not by the
    clean-up, not by a [set] on any key, not by the record of an alert
    time.  The clean-up keeps its [latest] field as it is. *)
Theorem tracked_keys_stay
  (s : StateStore.self) (k : string) (now : PyFloat.t) :
  HistorySpec.tracked (StateStore.state s) k ->
  (HistorySpec.tracked (StateStore.state (StateStore.save_state now s)) k
   /\ HistorySpec.latest_of (StateStore.state (StateStore.save_state now s)) k
      = HistorySpec.latest_of (StateStore.state s) k)
  /\ (forall key v timestamp t0,
        HistorySpec.tracked
          (StateStore.state (snd (StateStore.set key v timestamp t0 now s))) k)
  /\ (forall alert_key timestamp t0,
        k <> "last_alert_times" ->
        HistorySpec.tracked
          (StateStore.state
             (snd (StateStore.set_last_alert_time alert_key timestamp t0 now s)))
          k).
Proof.
  pose proof (fun s0 latest => HistoryFacts.save_state_keeps now s0 k latest)
    as Save.
  intros (d & latest & G & L & M). split; [|split].
  - destruct (Save s latest) as (d' & G' & L' & M'); [now exists d|].
    split; [now exists d', latest|].
    unfold HistorySpec.latest_of. rewrite G, G'. congruence.
  - intros key v timestamp t0. unfold StateStore.set.
    set (t := match timestamp with Some t => t | None => t0 end).
    destruct (String.eqb_spec key k) as [->|N].
    + destruct (StateStore.upsert k v t (StateStore.state s)) as [[|] st] eqn:U.
      * destruct (HistoryFacts.upsert_shape _ _ _ _ _ U)
          as (d1 & h1 & G1 & L1 & H1 & _).
        destruct (Save (StateStore.with_state s st) (StateStore.entry v t))
          as (d' & G' & L' & M'); [|now exists d', (StateStore.entry v t)].
        exists d1. repeat split; trivial. unfold Dict.mem. now rewrite H1.
      * revert U. unfold StateStore.upsert. rewrite G.
        destruct (Py.iter _) as [items|]; cbn;
          [destruct (Py.filter _ items) as [kept|]; cbn;
           [destruct (Py.sorted _ _); cbn; [discriminate|]|]|];
          intros [= <-]; cbn;
          (exists (Dict.put "latest" (StateStore.entry v t) d),
             (StateStore.entry v t));
          (split; [apply DictFacts.get_put_same|]);
          (split; [apply DictFacts.get_put_same|]);
          rewrite HistoryFacts.mem_put; exact M.
    + pose proof (StoreFacts.upsert_other key v t (StateStore.state s) k N) as O.
      destruct (StateStore.upsert key v t (StateStore.state s)) as [[|] st];
        cbn in O.
      * destruct (Save (StateStore.with_state s st) latest)
          as (d' & G' & L' & M'); [|now exists d', latest].
        exists d. cbn. rewrite O. now repeat split.
      * exists d, latest. cbn. rewrite O. now repeat split.
  - intros alert_key timestamp t0 N. unfold StateStore.set_last_alert_time.
    set (st := if Dict.mem (StateStore.state s) "last_alert_times"
               then StateStore.state s
               else Dict.put "last_alert_times" (VDict []) (StateStore.state s)).
    assert (Gst : Dict.get st k = Some (VDict d)).
    { unfold st.
      destruct (Dict.mem (StateStore.state s) "last_alert_times"); [exact G|].
      rewrite DictFacts.get_put_other; [exact G | congruence]. }
    destruct (Dict.get st "last_alert_times") as [[| | | | |table]|];
      try (exists d, latest; cbn; now repeat split).
    destruct (Save (StateStore.with_state s
                      (Dict.put "last_alert_times"
                         (VDict (Dict.put alert_key
                                   (VNum match timestamp with
                                         | Some t => t
                                         | None => t0
                                         end) table)) st)) latest)
      as (d' & G' & L' & M'); [|now exists d', latest].
    exists d. cbn. rewrite DictFacts.get_put_other by congruence.
    now repeat split.
Qed.

Lemma tracked_keys_stay_witness :
  let s := Examples.store1 in
  let now := Examples.t 900000 in
  HistorySpec.tracked (StateStore.state s) "dvol"
  /\ (HistorySpec.tracked (StateStore.state (StateStore.save_state now s)) "dvol"
      /\ HistorySpec.latest_of (StateStore.state (StateStore.save_state now s))
           "dvol"
         = HistorySpec.latest_of (StateStore.state s) "dvol")
  /\ (forall key v timestamp t0,
        HistorySpec.tracked
          (StateStore.state (snd (StateStore.set key v timestamp t0 now s)))
          "dvol")
  /\ (forall alert_key timestamp t0,
        "dvol" <> "last_alert_times" ->
        HistorySpec.tracked
          (StateStore.state
             (snd (StateStore.set_last_alert_time alert_key timestamp t0 now s)))
          "dvol").
Proof.
  cbv zeta.
  assert (T : HistorySpec.tracked (StateStore.state Examples.store1) "dvol").
  { eexists _, _. vm_compute. repeat split. }
  split; [exact T|].
  exact (tracked_keys_stay Examples.store1 "dvol" (Examples.t 900000) T).
Defined.

(** The table of last alert times: when the store has none or has a
    dict for it, [set_last_alert_time] returns, [get_last_alert_time]
    then answers the timestamp for the key and what it answered before
    for every other key; when the store holds anything else under
    ["last_alert_times"], [set_last_alert_time] raises and the store is
    as it was. *)
Theorem last_alert_time_round_trip
  (s : StateStore.self) (alert_key : string) (t t0 now : PyFloat.t) :
  match Dict.get (StateStore.state s) "last_alert_times" with
  | None | Some (VDict _) =>
      exists s',
        StateStore.set_last_alert_time alert_key (Some t) t0 now s
        = (Returned, s')
        /\ StateStore.get_last_alert_time s' alert_key = Some (VNum t)
        /\ forall other, other <> alert_key ->
             StateStore.get_last_alert_time s' other
             = StateStore.get_last_alert_time s other
  | Some _ =>
      StateStore.set_last_alert_time alert_key (Some t) t0 now s = (Raised, s)
  end.
Proof.
  assert (Ok : StateStore.get_last_alert_time s alert_key <> None ->
               exists s',
                 StateStore.set_last_alert_time alert_key (Some t) t0 now s
                 = (Returned, s')
                 /\ StateStore.get_last_alert_time s' alert_key = Some (VNum t)
                 /\ forall other, other <> alert_key ->
                      StateStore.get_last_alert_time s' other
                      = StateStore.get_last_alert_time s other).
  { intros N.
    destruct (MonitorFacts.set_last_alert_time_records s alert_key t t0 now N)
      as (s' & E & G).
    exists s'. split; [exact E|]. split; [exact G|].
    intros other No.
    pose proof (MonitorFacts.set_last_alert_time_other s other alert_key
                  (Some t) t0 now (fun H => No (eq_sym H))) as O.
    now rewrite E in O. }
  assert (Bad : forall x,
            Dict.get (StateStore.state s) "last_alert_times" = Some x ->
            (forall d, x <> VDict d) ->
            StateStore.set_last_alert_time alert_key (Some t) t0 now s
            = (Raised, s)).
  { intros x G N. unfold StateStore.set_last_alert_time, Dict.mem.
    rewrite G, G. destruct s. destruct x; try reflexivity.
    now destruct (N d). }
  destruct (Dict.get (StateStore.state s) "last_alert_times")
    as [[| | | | |table]|] eqn:G;
    try (apply (Bad _ eq_refl); discriminate);
    apply Ok; unfold StateStore.get_last_alert_time; rewrite G; discriminate.
Qed.

(** [set] raises exactly when the key holds a dict whose history
    cannot be gone through, or has an item without a numeric
    timestamp.  It has then replaced the [latest] field of the key and
    done nothing else: no entry is added to the history and the store
    is neither cleaned nor saved. *)
Theorem set_raises_half_done
  (key : string) (v : pyobject) (timestamp : option PyFloat.t)
  (t0 now : PyFloat.t) (s : StateStore.self) :
  let t := HistorySpec.stamp timestamp t0 in
  let r := StateStore.set key v timestamp t0 now s in
  (fst r = Raised <->
   exists d,
     Dict.get (StateStore.state s) key = Some (VDict d)
     /\ (Py.iter (Dict.get_default d "history" (VList [])) = None
         \/ exists items item,
              Py.iter (Dict.get_default d "history" (VList [])) = Some items
              /\ In item items /\ StateStore.timestamp_of item = None))
  /\ (forall d,
        fst r = Raised ->
        Dict.get (StateStore.state s) key = Some (VDict d) ->
        StateStore.state (snd r)
        = Dict.put key (VDict (Dict.put "latest" (StateStore.entry v t) d))
            (StateStore.state s)).
Proof.
  cbv zeta. unfold StateStore.set. fold (HistorySpec.stamp timestamp t0).
  set (t := HistorySpec.stamp timestamp t0).
  assert (U : forall d,
            Dict.get (StateStore.state s) key = Some (VDict d) ->
            let hist := Dict.get_default d "history" (VList []) in
            StateStore.upsert key v t (StateStore.state s)
            = match
                (items <- Py.iter hist ;;
                 kept <- Py.filter (StateStore.apart t) items ;;
                 Py.sorted StateStore.timestamp_of
                   (kept ++ [StateStore.entry v t]))
              with
              | None =>
                  (Raised,
                   Dict.put key
                     (VDict (Dict.put "latest" (StateStore.entry v t) d))
                     (StateStore.state s))
              | Some history =>
                  (Returned,
                   Dict.put key
                     (VDict (Dict.put "history" (VList history)
                               (Dict.put "latest" (StateStore.entry v t) d)))
                     (Dict.put key
                        (VDict (Dict.put "latest" (StateStore.entry v t) d))
                        (StateStore.state s)))
              end).
  { intros d G. cbv zeta. unfold StateStore.upsert. rewrite G.
    unfold Dict.get_default.
    now rewrite DictFacts.get_put_other by discriminate. }
  assert (Sorted : forall kept,
            Forall (fun x => StateStore.apart t x = Some true) kept ->
            Py.sorted StateStore.timestamp_of (kept ++ [StateStore.entry v t])
            <> None).
  { intros kept K. unfold Py.sorted.
    destruct (PyFacts.with_keys_some StateStore.timestamp_of
                (kept ++ [StateStore.entry v t])) as [kl ->]; [|discriminate].
    apply Forall_app. split; [|repeat constructor; discriminate].
    apply Forall_forall. intros x Hx.
    pose proof (proj1 (Forall_forall _ _) K x Hx) as A.
    destruct (HistoryFacts.apart_timestamped _ _ A) as (tx & -> & _).
    discriminate. }
  split; [split|].
  - destruct (Dict.get (StateStore.state s) key) as [data|] eqn:G.
    2:{ unfold StateStore.upsert. rewrite G. discriminate. }
    destruct data as [| | | | |d];
      try (unfold StateStore.upsert; rewrite G; discriminate).
    rewrite (U d eq_refl). intros R. exists d. split; [reflexivity|].
    destruct (Py.iter (Dict.get_default d "history" (VList []))) as [items|];
      [right|now left].
    cbn in R.
    destruct (Py.filter (StateStore.apart t) items) as [kept|] eqn:F.
    + exfalso. cbn in R.
      destruct (Py.sorted StateStore.timestamp_of
                  (kept ++ [StateStore.entry v t])) eqn:S; [discriminate|].
      apply (Sorted kept); [|exact S].
      apply Forall_forall. intros x Hx.
      exact (proj2 (PyFacts.filter_in _ _ _ _ F Hx)).
    + destruct (HistoryFacts.filter_none _ _ F) as (x & Hx & A).
      exists items, x. split; [reflexivity|]. split; [exact Hx|].
      unfold StateStore.apart in A.
      now destruct (StateStore.timestamp_of x).
  - intros (d & G & Bad). rewrite (U d G).
    destruct Bad as [->|(items & item & -> & Hi & Ti)]; [reflexivity|].
    cbn.
    destruct (Py.filter (StateStore.apart t) items) as [kept|] eqn:F;
      [|reflexivity].
    exfalso. pose proof (PyFacts.filter_all _ _ _ F) as A.
    apply (proj1 (Forall_forall _ _) A item Hi).
    unfold StateStore.apart. now rewrite Ti.
  - intros d R G. rewrite (U d G) in *.
    destruct (items <- Py.iter (Dict.get_default d "history" (VList [])) ;;
              kept <- Py.filter (StateStore.apart t) items ;;
              Py.sorted StateStore.timestamp_of
                (kept ++ [StateStore.entry v t])); [discriminate|reflexivity].
Qed.

Lemma set_raises_half_done_witness :
  let s := StateStore.with_state Examples.store0
             [("dvol", VDict [("history", VNum (Examples.t 1))])] in
  let r := StateStore.set "dvol" (VNum (Examples.t 50)) None
             (Examples.t 1000) (Examples.t 1000) s in
  fst r = Raised
  /\ StateStore.state (snd r)
     = [("dvol",
         VDict [("history", VNum (Examples.t 1));
                ("latest",
                 StateStore.entry (VNum (Examples.t 50)) (Examples.t 1000))])].
Proof.
  cbv zeta.
  pose proof (set_raises_half_done "dvol" (VNum (Examples.t 50)) None
                (Examples.t 1000) (Examples.t 1000)
                (StateStore.with_state Examples.store0
                   [("dvol", VDict [("history", VNum (Examples.t 1))])]))
    as [Iff Half].
  assert (R : fst (StateStore.set "dvol" (VNum (Examples.t 50)) None
                     (Examples.t 1000) (Examples.t 1000)
                     (StateStore.with_state Examples.store0
                        [("dvol", VDict [("history", VNum (Examples.t 1))])]))
              = Raised).
  { apply (proj2 Iff). eexists. split; [reflexivity|]. left. reflexivity. }
  split; [exact R|].
  rewrite (Half _ R eq_refl). reflexivity.
Defined.

(** ** Calls that are not private *)

Module PublicFacts.
Import DeribitClient ClientSpec.

Lemma seq_shift_S (k : nat) : seq 0 (S k) = 0%nat :: map S (seq 0 k).
Proof. cbn. now rewrite <- seq_shift. Qed.

(** The loop of a call that is not private, from the attempt numbered
    [start] on, [len] attempts being left: it sends the same request
    [k] times, waits after each attempt but the last, and ends at the
    first reply that ends the call or when the attempts are used up. *)
Lemma attempts_public auth e method_name params id0 retry_times a c :
  is_private method_name = false ->
  forall len start n,
    Z.of_nat (start + len) = retry_times ->
    exists k res n',
      attempts auth e method_name params id0 retry_times
        (map Z.of_nat (seq start len)) a (c, n) = (Some res, (c, n'))
      /\ (k <= len)%nat /\ ((1 <= len)%nat -> (1 <= k)%nat)
      /\ sent n'
         = (sent n ++ repeat (own_request method_name params id0 a) k)%list
      /\ clock_reads n' = clock_reads n
      /\ slept n'
         = (slept n
            ++ map (fun i => wait_after (post e (List.length (sent n) + i))
                               (Z.of_nat (start + i)))
                 (seq 0 (k - 1)))%list
      /\ (forall i, (i < k - 1)%nat ->
            ends_call (post e (List.length (sent n) + i)) = false)
      /\ match k with
         | O => res = VNone
         | S j =>
             let r := post e (List.length (sent n) + j) in
             if ends_call r then res = auth_result r
             else k = len /\ res = VNone
         end.
Proof.
  intros Pub len. induction len as [|len IH]; intros start n E.
  - exists 0%nat, VNone, n. cbn. rewrite !app_nil_r.
    repeat split; trivial; lia.
  - cbn [seq map attempts requests_post fst snd].
    set (req := {| method := method_name; params := params; id := id0;
                   authorization := a |}).
    set (r := post e (List.length (sent n))).
    set (n1 := {| sent := sent n ++ [req]; slept := slept n;
                  clock_reads := clock_reads n |}).
    assert (Ends : ends_call r = true ->
              exists res,
                (Some res, (c, n1)) = (Some res, (c, n1))
                /\ res = auth_result r) by (intros _; now eexists).
    assert (One : forall res,
              (ends_call r = true -> res = auth_result r) ->
              (ends_call r = false -> len = 0%nat /\ res = VNone) ->
              exists k res' n',
                (Some res, (c, n1)) = (Some res', (c, n'))
                /\ (k <= S len)%nat /\ ((1 <= S len)%nat -> (1 <= k)%nat)
                /\ sent n' = (sent n ++ repeat req k)%list
                /\ clock_reads n' = clock_reads n
                /\ slept n'
                   = (slept n
                      ++ map (fun i =>
                                wait_after (post e (List.length (sent n) + i))
                                  (Z.of_nat (start + i)))
                           (seq 0 (k - 1)))%list
                /\ (forall i, (i < k - 1)%nat ->
                      ends_call (post e (List.length (sent n) + i)) = false)
                /\ match k with
                   | O => res' = VNone
                   | S j =>
                       let r := post e (List.length (sent n) + j) in
                       if ends_call r then res' = auth_result r
                       else k = S len /\ res' = VNone
                   end).
    { intros res H1 H2. exists 1%nat, res, n1. split; [reflexivity|].
      split; [lia|]. split; [lia|]. split; [reflexivity|].
      split; [reflexivity|]. split; [cbn; now rewrite app_nil_r|].
      split; [intros i Hi; lia|].
      cbv zeta. rewrite Nat.add_0_r. fold r.
      destruct (ends_call r); [now apply H1|].
      destruct (H2 eq_refl) as [-> ->]. now split. }
    assert (Again : ends_call r = false ->
              forall w, w = wait_after r (Z.of_nat start) ->
              exists k res n',
                (if (Z.of_nat start <? retry_times - 1)%Z
                 then attempts auth e method_name params id0 retry_times
                        (map Z.of_nat (seq (S start) len)) a
                        (c, time_sleep w n1)
                 else attempts auth e method_name params id0 retry_times
                        (map Z.of_nat (seq (S start) len)) a (c, n1))
                = (Some res, (c, n'))
                /\ (k <= S len)%nat /\ ((1 <= S len)%nat -> (1 <= k)%nat)
                /\ sent n' = (sent n ++ repeat req k)%list
                /\ clock_reads n' = clock_reads n
                /\ slept n'
                   = (slept n
                      ++ map (fun i =>
                                wait_after (post e (List.length (sent n) + i))
                                  (Z.of_nat (start + i)))
                           (seq 0 (k - 1)))%list
                /\ (forall i, (i < k - 1)%nat ->
                      ends_call (post e (List.length (sent n) + i)) = false)
                /\ match k with
                   | O => res = VNone
                   | S j =>
                       let r := post e (List.length (sent n) + j) in
                       if ends_call r then res = auth_result r
                       else k = S len /\ res = VNone
                   end).
    { intros NotEnd w ->. destruct len as [|len].
      - replace (Z.of_nat start <? retry_times - 1)%Z with false
          by (symmetry; apply Z.ltb_ge; lia).
        cbn [seq map attempts].
        apply One; [congruence | now intros _].
      - replace (Z.of_nat start <? retry_times - 1)%Z with true
          by (symmetry; apply Z.ltb_lt; lia).
        destruct (IH (S start) (time_sleep (wait_after r (Z.of_nat start)) n1))
          as (k & res & n' & Ek & K1 & K2 & Sn & Cl & Sl & Ne & Last); [lia|].
        assert (Len : List.length (sent (time_sleep
                                       (wait_after r (Z.of_nat start)) n1))
                      = S (List.length (sent n))).
        { cbn. rewrite length_app. cbn. lia. }
        rewrite Len in *.
        destruct k as [|k]; [lia|].
        exists (S (S k)), res, n'. split; [exact Ek|].
        split; [lia|]. split; [lia|]. split.
        { rewrite Sn. cbn [sent time_sleep n1 repeat].
          rewrite <- app_assoc. reflexivity. }
        split; [exact Cl|]. split.
        { rewrite Sl. cbn [slept time_sleep n1].
          replace (S (S k) - 1)%nat with (S (S k - 1)) by lia.
          rewrite seq_shift_S. cbn [map]. rewrite map_map, <- app_assoc.
          cbn [app]. rewrite !Nat.add_0_r. fold r. do 2 f_equal.
          apply map_ext. intros i. do 2 f_equal; lia. }
        split.
        { intros [|i] Hi; [now rewrite Nat.add_0_r|].
          replace (List.length (sent n) + S i)%nat
            with (S (List.length (sent n)) + i)%nat by lia.
          apply Ne. lia. }
        cbv zeta in *.
        replace (List.length (sent n) + S k)%nat
          with (S (List.length (sent n)) + k)%nat by lia.
        destruct (ends_call (post e (S (List.length (sent n)) + k)));
          [exact Last|].
        destruct Last as [-> ->]. now split. }
    unfold r in *. clear r.
    destruct (post e (List.length (sent n))) as [status json| | | | |] eqn:R;
      rewrite ?R in One, Again; cbn [ends_call] in One, Again.
    + destruct (status =? 200)%Z eqn:S200.
      * destruct json as [code msg|result];
          [rewrite Pub, andb_false_r|];
          apply One; try congruence; intros _; cbn; rewrite ?S200;
          reflexivity.
      * exact (Again eq_refl _ eq_refl).
    + exact (Again eq_refl _ eq_refl).
    + exact (Again eq_refl _ eq_refl).
    + exact (Again eq_refl _ eq_refl).
    + apply One; [now intros _ | congruence].
    + exact (Again eq_refl _ eq_refl).
Qed.

Lemma range_seq retry_times :
  Py.range retry_times = map Z.of_nat (seq 0 (Z.to_nat retry_times)).
Proof. reflexivity. Qed.

(** What a public call does, whole. *)
Lemma public_call e method_name params retry_times c n :
  is_private method_name = false ->
  exists k res n',
    _make_request e method_name params retry_times (c, n)
    = (Some res, (with_request_id c (request_id c + 1), n'))
    /\ (k <= Z.to_nat retry_times)%nat
    /\ (1 <= retry_times -> (1 <= k)%nat)
    /\ sent n'
       = (sent n
          ++ repeat (own_request method_name params (request_id c + 1) None) k)%list
    /\ clock_reads n' = clock_reads n
    /\ slept n'
       = (slept n
          ++ map (fun i => wait_after (post e (List.length (sent n) + i))
                             (Z.of_nat i))
               (seq 0 (k - 1)))%list
    /\ (forall i, (i < k - 1)%nat ->
          ends_call (post e (List.length (sent n) + i)) = false)
    /\ match k with
       | O => res = VNone
       | S j =>
           let r := post e (List.length (sent n) + j) in
           if ends_call r then res = auth_result r
           else Z.of_nat k = retry_times /\ res = VNone
       end.
Proof.
  intros Pub. rewrite (ClientFacts.make_request_public _ _ _ _ _ _ Pub).
  rewrite range_seq.
  destruct (Z.le_gt_cases 0 retry_times) as [Pos|Neg].
  - destruct (attempts_public (authenticate e) e method_name params
                (request_id c + 1) retry_times None
                (with_request_id c (request_id c + 1)) Pub
                (Z.to_nat retry_times) 0%nat n)
      as (k & res & n' & E & K1 & K2 & Sn & Cl & Sl & Ne & Last); [lia|].
    exists k, res, n'. split; [exact E|]. split; [exact K1|].
    split; [intros; apply K2; lia|]. split; [exact Sn|]. split; [exact Cl|].
    split; [exact Sl|]. split; [exact Ne|].
    destruct k as [|k]; [exact Last|]. cbv zeta in *.
    destruct (ends_call _); [exact Last|]. destruct Last as [L ->].
    split; [lia|reflexivity].
  - replace (Z.to_nat retry_times) with 0%nat by lia. cbn.
    exists 0%nat, VNone, n. cbn. rewrite !app_nil_r.
    repeat split; trivial; lia.
Qed.

End PublicFacts.

(** ** What the client makes of the answers *)

Module AnswerFacts.
Import DeribitClient ClientSpec.

Lemma abs_not_negative (x : PyFloat.t) : not_negative (PyFloat.abs x).
Proof. destruct x as [s|s| |s m e]; reflexivity. Qed.

Lemma mul_abs_not_negative (x y : PyFloat.t) :
  not_negative (PyFloat.abs x * PyFloat.abs y)%py.
Proof.
  destruct x as [sx|sx| |sx mx ex], y as [sy|sy| |sy my ey]; try reflexivity.
  unfold not_negative, PyFloat.mul, PyFloat.abs, SFabs, SFmul.
  cbn [xorb]. unfold binary_round_aux.
  destruct (shr_fexp prec emax (Z.pos (mx * my)) (ex + ey) loc_Exact)
    as [mrs' e'].
  destruct (shr_fexp prec emax _ e' loc_Exact) as [mrs'' e''].
  destruct (shr_m mrs'') as [|m|m]; try reflexivity.
  destruct (e'' <=? emax - prec)%Z; reflexivity.
Qed.

Lemma total_greeks_not_negative b order_book size gamma vega gamma_total vega_total :
  total_greeks b order_book size gamma vega = Some (gamma_total, vega_total) ->
  not_negative gamma_total /\ not_negative vega_total.
Proof.
  unfold total_greeks.
  destruct (if Py.truthy order_book then py_in "greeks" order_book
            else Some false) as [[|]|]; try discriminate.
  - destruct (Py.get order_book "greeks" (VDict [])) as [g|]; [|discriminate].
    destruct (Py.dict_has g "gamma").
    + destruct (float_or_0 b g "gamma") as [gpu|]; [|discriminate].
      destruct (float_or_0 b g "vega") as [vpu|]; [|discriminate].
      destruct (PyFloat.abs size >? tiny)%py; intros [= <- <-]; split;
        auto using abs_not_negative, mul_abs_not_negative.
    + intros [= <- <-]; split; apply abs_not_negative.
  - intros [= <- <-]; split; apply abs_not_negative.
Qed.

Lemma position_of_sound b e kind pos s p s' :
  position_of b e kind pos s = (Some (Some p), s') -> sound_position p.
Proof.
  unfold position_of.
  destruct (v <- Py.get pos "size" (VNum PyFloat.zero) ;; float_ b v)
    as [size|]; [|discriminate].
  destruct (PyFloat.abs size <? tiny)%py eqn:Small; [discriminate|].
  destruct (Py.get pos "instrument_name" (VStr "")) as [name|]; [|discriminate].
  destruct (own_greeks b pos) as [[[[[mark_iv gamma] delta] theta] vega]|];
    [|discriminate].
  destruct (_make_request e "public/get_order_book" _ _ s)
    as [[order_book|] s1]; [|discriminate].
  destruct (total_greeks b order_book size gamma vega)
    as [[gamma_total vega_total]|] eqn:T; [|discriminate].
  destruct (Py.get pos "kind" (VStr kind)) as [k|]; [|discriminate].
  intros [= <- <-].
  destruct (total_greeks_not_negative _ _ _ _ _ _ _ T) as [G V].
  unfold sound_position. cbn.
  repeat split; trivial; [apply abs_not_negative|].
  destruct (size >? PyFloat.zero)%py; [now left | now right].
Qed.

Lemma collect_positions_sound b e kind result :
  forall s positions s',
    collect_positions b e kind result s = (Some positions, s') ->
    Forall sound_position positions
    /\ (List.length positions <= List.length result)%nat.
Proof.
  induction result as [|pos rest IH]; intros s positions s'; cbn.
  - intros [= <- <-]. split; [constructor|cbn; lia].
  - destruct (position_of b e kind pos s) as [[p|] s1] eqn:P; [|discriminate].
    destruct (collect_positions b e kind rest s1) as [[more|] s2] eqn:C;
      [|discriminate].
    intros [= <- <-]. destruct (IH _ _ _ C) as [F L].
    destruct p as [p|]; [|split; [exact F|cbn; lia]].
    split; [|cbn; lia]. constructor; [|exact F].
    exact (position_of_sound _ _ _ _ _ _ _ P).
Qed.

(** A private call that meets timeouts only fails after at most three
    requests, and does not raise. *)
Lemma private_call_unreachable e method_name params c n :
  is_private method_name = true ->
  (forall k, post e k = Timeout) ->
  exists c' n' new,
    _make_request e method_name params 3 (c, n) = (Some VNone, (c', n'))
    /\ sent n' = (sent n ++ new)%list
    /\ (token c' = token c /\ token_expires_at c' = token_expires_at c)
    /\ ((session_valid e c n = false
         /\ new = [auth_request c (request_id c + 1)]
         /\ slept n' = slept n)
        \/ (session_valid e c n = true
            /\ new = repeat (own_request method_name params (request_id c + 1)
                               (Some (token c))) 3
            /\ slept n' = (slept n ++ [1; 2])%list)).
Proof.
  intros Priv Down. destruct (session_valid e c n) eqn:V.
  - rewrite (ClientFacts.make_request_valid _ _ _ _ _ _ Priv V).
    change (Py.range 3) with [0; 1; 2].
    destruct (ClientFacts.attempts_all_timeout (authenticate e) e method_name
                params (request_id c + 1) (Some (token c))
                (with_request_id c (request_id c + 1)) (after_check e c n))
      as (n' & E & Sn & Sl); [intros k _; apply Down|].
    exists (with_request_id c (request_id c + 1)), n',
      (repeat (own_request method_name params (request_id c + 1)
                 (Some (token c))) 3).
    split; [exact E|]. rewrite ClientFacts.sent_after_check in Sn.
    split; [exact Sn|]. split; [now split|]. right.
    split; [reflexivity|]. split; [reflexivity|].
    rewrite Sl. unfold after_check. now destruct (Py.truthy (token c)).
  - rewrite (ClientFacts.make_request_stale _ _ _ _ _ _ Priv V).
    rewrite (ClientFacts.authenticate_timeout e c (after_check e c n))
      by apply Down.
    exists (with_request_id c (request_id c + 1)),
      (after_post (auth_request c (request_id c + 1)) (after_check e c n)),
      [auth_request c (request_id c + 1)].
    split; [reflexivity|]. split.
    { cbn. now rewrite ClientFacts.sent_after_check. }
    split; [now split|]. left. split; [reflexivity|]. split; [reflexivity|].
    cbn. unfold after_check. now destruct (Py.truthy (token c)).
Qed.

End AnswerFacts.

(** ** The index and the orders *)

Module IndexFacts.
Import DeribitClient ClientSpec.

Lemma public_index : is_private "public/get_volatility_index_data" = false.
Proof. reflexivity. Qed.

(** [get_btc_dvol] when the clock can be read in milliseconds. *)
Lemma get_btc_dvol_unfold b e c n end_timestamp :
  trunc (time_time e (clock_reads n) * PyFloat.of_Z 1000)%py
  = Some end_timestamp ->
  get_btc_dvol b e (c, n)
  = match
      _make_request e "public/get_volatility_index_data"
        (dvol_params "BTC" (end_timestamp - 2 * ms_per_day) end_timestamp "1H")
        default_retry_times (c, snd (read_clock e n))
    with
    | (None, s') => (None, s')
    | (Some result, (c', n')) =>
        let '(reading, n'') := dvol_reading b e result n' in
        (reading, (c', n''))
    end.
Proof.
  intros E. unfold get_btc_dvol, now_ms, read_clock. cbn [fst snd].
  now rewrite E.
Qed.

(** A public call whose first reply is a response of status 200. *)
Lemma public_call_first e method_name params c n json :
  is_private method_name = false ->
  post e (List.length (sent n)) = Response 200 json ->
  _make_request e method_name params default_retry_times (c, n)
  = (Some (auth_result (Response 200 json)),
     (with_request_id c (request_id c + 1),
      after_post (own_request method_name params (request_id c + 1) None) n)).
Proof.
  intros Pub R. rewrite (ClientFacts.make_request_public _ _ _ _ _ _ Pub).
  change (Py.range default_retry_times) with [0; 1; 2].
  cbn [attempts requests_post]. rewrite R. cbn [Z.eqb Pos.eqb].
  destruct json; [rewrite Pub, andb_false_r|]; reflexivity.
Qed.

Lemma public_call_unreachable e method_name params c n :
  is_private method_name = false ->
  (forall k, (k < 3)%nat -> post e (List.length (sent n) + k) = Timeout) ->
  exists n',
    _make_request e method_name params default_retry_times (c, n)
    = (Some VNone, (with_request_id c (request_id c + 1), n'))
    /\ sent n'
       = (sent n ++ repeat (own_request method_name params (request_id c + 1)
                              None) 3)%list
    /\ slept n' = (slept n ++ [1; 2])%list
    /\ clock_reads n' = clock_reads n.
Proof.
  intros Pub Down.
  destruct (PublicFacts.public_call e method_name params default_retry_times
              c n Pub) as (k & res & n2 & E2 & _ & _ & _ & Cl & _).
  revert E2. rewrite (ClientFacts.make_request_public _ _ _ _ _ _ Pub).
  change (Py.range default_retry_times) with [0; 1; 2].
  change default_retry_times with 3.
  destruct (ClientFacts.attempts_all_timeout (authenticate e) e method_name
              params (request_id c + 1) None
              (with_request_id c (request_id c + 1)) n Down)
    as (n' & E & Sn & Sl).
  rewrite E. intros [= _ <-].
  exists n'. now repeat split.
Qed.

(** What [collect_orders] keeps and what it makes of it. *)
Lemma collect_orders_spec b kind result orders :
  collect_orders b kind result = Some orders ->
  Forall (fun info =>
            exists order order_kind amount filled,
              In order result
              /\ Py.get order "kind" (VStr "") = Some order_kind
              /\ Py.get info "kind" VNone = Some order_kind
              /\ match kind with
                 | Some k => k = "" \/ order_kind = VStr k
                 | None => True
                 end
              /\ Py.get info "amount" VNone = Some (VNum amount)
              /\ Py.get info "filled" VNone = Some (VNum filled)
              /\ Py.get info "remaining" VNone
                 = Some (VNum (amount - filled)%py)) orders.
Proof.
  revert orders. induction result as [|order rest IH]; intros orders; cbn.
  - intros [= <-]. constructor.
  - destruct (Py.get order "kind" (VStr "")) as [order_kind|] eqn:K;
      [|discriminate].
    assert (Rest : forall l, collect_orders b kind rest = Some l ->
              Forall (fun info =>
                exists order0 order_kind amount filled,
                  (order = order0 \/ In order0 rest)
                  /\ Py.get order0 "kind" (VStr "") = Some order_kind
                  /\ Py.get info "kind" VNone = Some order_kind
                  /\ match kind with
                     | Some k => k = "" \/ order_kind = VStr k
                     | None => True
                     end
                  /\ Py.get info "amount" VNone = Some (VNum amount)
                  /\ Py.get info "filled" VNone = Some (VNum filled)
                  /\ Py.get info "remaining" VNone
                     = Some (VNum (amount - filled)%py)) l).
    { intros l C. specialize (IH l C). rewrite Forall_forall in *.
      intros info Hi. destruct (IH info Hi) as (o & ok & a & f & I & R).
      exists o, ok, a, f. split; [now right | exact R]. }
    match goal with
    | |- (if ?skip then _ else _) = _ -> _ => destruct skip eqn:Skip
    end; [apply Rest|].
    destruct (order_info b order order_kind) as [info|] eqn:O; [|discriminate].
    destruct (collect_orders b kind rest) as [more|]; [|discriminate].
    intros [= <-]. constructor; [|now apply Rest].
    revert O. unfold order_info.
    destruct (Py.get order "order_id" _); [|discriminate].
    destruct (Py.get order "instrument_name" _); [|discriminate].
    destruct (Py.get order "direction" _); [|discriminate].
    destruct (v <- Py.get order "price" _ ;; float_ b v); [|discriminate].
    destruct (v <- Py.get order "amount" _ ;; float_ b v) as [amount|];
      [|discriminate].
    destruct (v <- Py.get order "filled_amount" _ ;; float_ b v) as [filled|];
      [|discriminate].
    destruct (Py.get order "order_type" _); [|discriminate].
    destruct (Py.get order "order_state" _); [|discriminate].
    destruct (Py.get order "time_in_force" _); [|discriminate].
    destruct (Py.get order "creation_timestamp" _); [|discriminate].
    destruct (Py.get order "last_update_timestamp" _); [|discriminate].
    intros [= <-]. exists order, order_kind, amount, filled.
    split; [now left|]. split; [exact K|]. split; [reflexivity|].
    split; [|repeat split].
    destruct kind as [k|]; [|exact I].
    destruct (String.eqb_spec k ""); [now left|right].
    cbn in Skip. unfold differs in Skip.
    destruct order_kind; try discriminate.
    apply negb_false_iff, String.eqb_eq in Skip. now subst.
Qed.

End IndexFacts.

(** ** The client: calls that are not private *)

Import DeribitClient ClientSpec.



(** Three bodies that are no JSON, each a [RequestException] of
    [response.json()]: three requests, waits of one and two seconds
    between them, and [None]. *)
Example body_without_json_is_tried_again :
  let e := Examples.scripted
             [RequestException; RequestException; RequestException] in
  let r := _make_request e "public/get_order_book" VNone 3
             (Examples.client1, net0) in
  fst r = Some VNone
  /\ Examples.wire (snd (snd r))
     = [("public/get_order_book", 8, None); ("public/get_order_book", 8, None);
        ("public/get_order_book", 8, None)]
  /\ slept (snd (snd r)) = [1; 2].
Proof. vm_compute. repeat split. Qed.

(** The waits of a call that is not private: one after every attempt
    but the last, of [2 ** attempt] seconds, and of three seconds more
    after an SSL error; none after the last attempt. *)
Theorem public_call_backs_off
  (e : env) (method_name : string) (params : pyobject) (retry_times : Z)
  (c : self) (n : net) :
  is_private method_name = false ->
  exists k,
    sent (snd (snd (_make_request e method_name params retry_times (c, n))))
    = (sent n
       ++ repeat (own_request method_name params (request_id c + 1) None) k)%list
    /\ slept (snd (snd (_make_request e method_name params retry_times (c, n))))
       = (slept n
          ++ map (fun i => wait_after (post e (List.length (sent n) + i))
                             (Z.of_nat i))
               (seq 0 (k - 1)))%list.
Proof.
  intros Pub.
  destruct (PublicFacts.public_call e method_name params retry_times c n Pub)
    as (k & res & n' & E & _ & _ & Sn & _ & Sl & _).
  exists k. rewrite E. now split.
Qed.

Lemma public_call_backs_off_witness :
  let e := Examples.scripted [SSLError; Timeout; RequestException] in
  let m := "public/get_order_book" in
  let r := _make_request e m VNone 3 (Examples.client1, net0) in
  is_private m = false
  /\ slept (snd (snd r)) = [4; 2]
  /\ exists k,
       sent (snd (snd r))
       = (sent net0
          ++ repeat (own_request m VNone (request_id Examples.client1 + 1) None)
               k)%list
       /\ slept (snd (snd r))
          = (slept net0
             ++ map (fun i => wait_after (post e (List.length (sent net0) + i))
                                (Z.of_nat i))
                  (seq 0 (k - 1)))%list.
Proof.
  cbv zeta. split; [reflexivity|]. split; [vm_compute; reflexivity|].
  exact (public_call_backs_off
           (Examples.scripted [SSLError; Timeout; RequestException])
           "public/get_order_book" VNone 3 Examples.client1 net0 eq_refl).
Defined.

(** ** The client: authentication *)

(** [authenticate] sends one request and takes one identifier.  It
    answers [False] exactly when the reply brings no result that is
    true, and the token and its expiry are then what they were.  It
    answers [True] when the result is a dict, not empty, whose
    [expires_in] (3600 when absent) is a number: the token is the [access_token] of the
    result and expires at [time.time() + expires_in - 60].  It raises
    in the cases left: with a result that is no dict the session is
    untouched; with an [expires_in] that is no number the token has
    been replaced and the expiry has not. *)
Theorem authenticate_outcome (e : env) (c : self) (n : net) :
  let result := auth_result (post e (List.length (sent n))) in
  let sent_once n' :=
    sent n' = (sent n ++ [auth_request c (request_id c + 1)])%list in
  match authenticate e (c, n) with
  | (Some false, (c', n')) =>
      Py.truthy result = false
      /\ c' = with_request_id c (request_id c + 1)
      /\ sent_once n' /\ clock_reads n' = clock_reads n
  | (Some true, (c', n')) =>
      exists d x,
        result = VDict d
        /\ d <> []
        /\ Py.num (Dict.get_default d "expires_in" (VNum (PyFloat.of_Z 3600)))
           = Some x
        /\ token c' = Dict.get_default d "access_token" VNone
        /\ token_expires_at c'
           = ((time_time e (clock_reads n) + x) - PyFloat.of_Z 60)%py
        /\ request_id c' = request_id c + 1
        /\ sent_once n' /\ clock_reads n' = S (clock_reads n)
  | (None, (c', n')) =>
      Py.truthy result = true
      /\ token_expires_at c' = token_expires_at c
      /\ sent_once n'
      /\ ((is_dict result = false /\ token c' = token c)
          \/ exists d,
               result = VDict d
               /\ Py.num (Dict.get_default d "expires_in"
                            (VNum (PyFloat.of_Z 3600))) = None
               /\ token c' = Dict.get_default d "access_token" VNone)
  end.
Proof.
  cbv zeta. unfold authenticate. cbn [fst snd].
  rewrite ClientFacts.auth_call_result.
  set (result := auth_result (post e (List.length (sent n)))).
  destruct (Py.truthy result) eqn:T.
  2:{ repeat split. }
  destruct result as [| | | | |d] eqn:R; cbn [Py.get];
    try (split; [reflexivity|]; split; [reflexivity|];
         split; [reflexivity|]; left; now split).
  cbn [read_clock after_post clock_reads].
  destruct (Py.num (Dict.get_default d "expires_in" (VNum (PyFloat.of_Z 3600))))
    as [x|] eqn:X.
  - exists d, x. split; [reflexivity|]. split; [now intros ->|].
    repeat split; trivial.
  - split; [reflexivity|]. split; [reflexivity|]. split; [reflexivity|].
    right. exists d. repeat split; trivial.
Qed.

(** ** The client: positions, index and orders *)

(** Every position [get_account_option_positions] returns has a size
    that is not below [1e-8], and a size, a Gamma and a Vega that are
    not negative; its direction is ["buy"] or ["sell"]. *)
Theorem positions_are_sound
  (b : builtins) (e : env) (currency kind : string) (s s' : self * net)
  (positions : list untyped_position) :
  get_account_option_positions b e currency kind s = (Some positions, s') ->
  Forall sound_position positions.
Proof.
  unfold get_account_option_positions.
  destruct (_make_request e "private/get_positions" _ _ s) as [[result|] s1];
    [|discriminate].
  assert (C : collect_positions b e kind (as_list result) s1
              = (Some positions, s') -> Forall sound_position positions).
  { intros C. exact (proj1 (AnswerFacts.collect_positions_sound _ _ _ _ _ _ _ C)). }
  destruct result; try exact C. intros [= <- <-]. constructor.
Qed.

Lemma positions_are_sound_witness :
  let e := Examples.scripted [Examples.positions_reply; Examples.order_book_reply] in
  let r := get_account_option_positions Examples.builtins0 e "BTC" "option"
             (Examples.client1, net0) in
  map typed (match fst r with Some l => l | None => [] end)
  = [Some {| instrument_name := "BTC-27DEC24-100000-C"; kind := "option";
             direction := "sell"; size := float:(2.0); mark_iv := float:(61.5);
             gamma := float:(0.0006); delta := float:(-1.1);
             theta := float:(12.0); vega := float:(40.0) |}]
  /\ exists positions,
       r = (Some positions, snd r) /\ Forall sound_position positions.
Proof.
  cbv zeta. split; [vm_compute; reflexivity|].
  eexists. split; [vm_compute; reflexivity|].
  apply (positions_are_sound Examples.builtins0
           (Examples.scripted [Examples.positions_reply; Examples.order_book_reply])
           "BTC" "option" (Examples.client1, net0)
           (snd (get_account_option_positions Examples.builtins0
                   (Examples.scripted
                      [Examples.positions_reply; Examples.order_book_reply])
                   "BTC" "option" (Examples.client1, net0)))).
  vm_compute; reflexivity.
Defined.

(** The reading of the index is the close of the latest data point.
    When the first reply to [get_btc_dvol] brings a dict whose [data]
    is a list that ends with a data point of five fields or more, a
    timestamp that [int] reads, a close that [float] reads and
    numbers in between: one request is sent, for the two days that
    end at the reading of the clock in milliseconds, and the answer
    holds that close and the timestamp in seconds. *)
Theorem get_btc_dvol_reads_last_candle
  (b : builtins) (e : env) (c : self) (n : net) (end_timestamp : Z)
  (d : Dict.t pyobject) (candles more : list pyobject)
  (ts o h l cl : pyobject) (ms : Z) (close seconds : PyFloat.t) :
  trunc (time_time e (clock_reads n) * PyFloat.of_Z 1000)%py
  = Some end_timestamp ->
  post e (List.length (sent n)) = Response 200 (Result (VDict d)) ->
  Dict.get d "data" = Some (VList candles) ->
  last candles VNone = VList (ts :: o :: h :: l :: cl :: more) ->
  int_ b ts = Some ms -> ms_to_seconds ms = Some seconds ->
  fromtimestamp_ok b seconds = true ->
  float_ b cl = Some close ->
  formats o && formats h && formats l && formats cl = true ->
  exists n',
    get_btc_dvol b e (c, n)
    = (Some (Some {| value := close; timestamp := seconds;
                     iv_percentile := None |}),
       (with_request_id c (request_id c + 1), n'))
    /\ sent n'
       = (sent n
          ++ [own_request "public/get_volatility_index_data"
                (dvol_params "BTC" (end_timestamp - 2 * 86400000)
                   end_timestamp "1H")
                (request_id c + 1) None])%list
    /\ slept n' = slept n.
Proof.
  intros End R Data Last Ts Sec Ok Close Fmt.
  rewrite (IndexFacts.get_btc_dvol_unfold _ _ _ _ _ End).
  rewrite (IndexFacts.public_call_first e _ _ c (snd (read_clock e n)) _
             IndexFacts.public_index R).
  cbn [auth_result Z.eqb Pos.eqb].
  assert (Td : Py.truthy (VDict d) = true).
  { destruct d; [discriminate Data | reflexivity]. }
  assert (Tc : Py.truthy (VList candles) = true).
  { destruct candles; [discriminate Last | reflexivity]. }
  unfold dvol_reading. rewrite Td. cbn [negb].
  unfold dict_reading. cbn [Py.get]. unfold Dict.get_default.
  rewrite Data, Tc. cbn [negb]. rewrite Last. unfold candle_reading.
  replace (Z.of_nat (List.length (ts :: o :: h :: l :: cl :: more)) <? 5)%Z
    with false by (symmetry; apply Z.ltb_ge; cbn [List.length]; lia).
  cbn [nth]. rewrite Ts, Close, Sec, Ok.
  apply andb_prop in Fmt. destruct Fmt as [Fmt ->].
  apply andb_prop in Fmt. destruct Fmt as [Fmt ->].
  apply andb_prop in Fmt. destruct Fmt as [-> ->].
  cbn [andb]. eexists. split; [reflexivity|]. split; reflexivity.
Qed.

Lemma get_btc_dvol_reads_last_candle_witness :
  let e := Examples.scripted [Examples.dvol_reply] in
  let b := Examples.builtins0 in
  let c := Examples.client1 in
  let ts := VNum (Examples.t 1700003600000) in
  let seconds := Examples.t 1700003600 in
  trunc (time_time e (clock_reads net0) * PyFloat.of_Z 1000)%py = Some 1000000
  /\ int_ b ts = Some 1700003600000
  /\ ms_to_seconds 1700003600000 = Some seconds
  /\ exists n',
       get_btc_dvol b e (c, net0)
       = (Some (Some {| value := float:(53.1); timestamp := seconds;
                        iv_percentile := None |}),
          (with_request_id c (request_id c + 1), n'))
       /\ sent n'
          = (sent net0
             ++ [own_request "public/get_volatility_index_data"
                   (dvol_params "BTC" (1000000 - 2 * 86400000) 1000000 "1H")
                   (request_id c + 1) None])%list
       /\ slept n' = slept net0.
Proof.
  cbv zeta. split; [vm_compute; reflexivity|]. split; [vm_compute; reflexivity|].
  split; [vm_compute; reflexivity|].
  apply (get_btc_dvol_reads_last_candle Examples.builtins0
           (Examples.scripted [Examples.dvol_reply]) Examples.client1 net0
           1000000
           [("data",
             VList [VList [VNum (Examples.t 1700000000000); VNum float:(52.0);
                           VNum float:(52.9); VNum float:(51.8);
                           VNum float:(52.4)];
                    VList [VNum (Examples.t 1700003600000); VNum float:(52.4);
                           VNum float:(53.5); VNum float:(52.2);
                           VNum float:(53.1)]]);
            ("continuation", VNone)]
           [VList [VNum (Examples.t 1700000000000); VNum float:(52.0);
                   VNum float:(52.9); VNum float:(51.8); VNum float:(52.4)];
            VList [VNum (Examples.t 1700003600000); VNum float:(52.4);
                   VNum float:(53.5); VNum float:(52.2); VNum float:(53.1)]]
           [] (VNum (Examples.t 1700003600000)) (VNum float:(52.4))
           (VNum float:(53.5)) (VNum float:(52.2)) (VNum float:(53.1))
           1700003600000 float:(53.1) (Examples.t 1700003600));
    vm_compute; reflexivity.
Defined.

(** The orders [get_open_orders] returns, when it is given a kind:
    each is made of an order of the answer, has that kind, and a
    [remaining] that is its amount less what was filled. *)
Theorem open_orders_of_kind
  (b : builtins) (e : env) (currency kind : string) (s s' : self * net)
  (orders : list pyobject) :
  kind <> "" ->
  get_open_orders b e currency (Some kind) s = (Some orders, s') ->
  Forall (fun info =>
            Py.get info "kind" VNone = Some (VStr kind)
            /\ exists amount filled,
                 Py.get info "amount" VNone = Some (VNum amount)
                 /\ Py.get info "filled" VNone = Some (VNum filled)
                 /\ Py.get info "remaining" VNone
                    = Some (VNum (amount - filled)%py)) orders.
Proof.
  intros K. unfold get_open_orders.
  destruct (_make_request e "private/get_open_orders_by_currency" _ _ s)
    as [[result|] s1]; [|discriminate].
  assert (C : collect_orders b (Some kind) (as_list result) = Some orders ->
              Forall (fun info =>
                Py.get info "kind" VNone = Some (VStr kind)
                /\ exists amount filled,
                     Py.get info "amount" VNone = Some (VNum amount)
                     /\ Py.get info "filled" VNone = Some (VNum filled)
                     /\ Py.get info "remaining" VNone
                        = Some (VNum (amount - filled)%py)) orders).
  { intros C. pose proof (IndexFacts.collect_orders_spec _ _ _ _ C) as F.
    rewrite Forall_forall in *. intros info Hi.
    destruct (F info Hi) as (o & ok & a & f & _ & _ & Ik & Kd & R).
    destruct Kd as [-> | ->]; [congruence|]. split; [exact Ik|]. now exists a, f. }
  destruct result; intros [= E <-]; try exact (C E).
  subst orders. constructor.
Qed.

Lemma open_orders_of_kind_witness :
  let e := Examples.scripted [Examples.orders_reply] in
  let r := get_open_orders Examples.builtins0 e "ETH" (Some "option")
             (Examples.client1, net0) in
  "option" <> ""
  /\ option_map (@List.length pyobject) (fst r) = Some 1%nat
  /\ exists orders,
       r = (Some orders, snd r)
       /\ Forall (fun info =>
                    Py.get info "kind" VNone = Some (VStr "option")
                    /\ exists amount filled,
                         Py.get info "amount" VNone = Some (VNum amount)
                         /\ Py.get info "filled" VNone = Some (VNum filled)
                         /\ Py.get info "remaining" VNone
                            = Some (VNum (amount - filled)%py)) orders.
Proof.
  cbv zeta. split; [discriminate|]. split; [vm_compute; reflexivity|].
  eexists. split; [vm_compute; reflexivity|].
  apply (open_orders_of_kind Examples.builtins0
           (Examples.scripted [Examples.orders_reply]) "ETH" "option"
           (Examples.client1, net0)
           (snd (get_open_orders Examples.builtins0
                   (Examples.scripted [Examples.orders_reply]) "ETH"
                   (Some "option") (Examples.client1, net0))));
    [discriminate | vm_compute; reflexivity].
Defined.

(** The Greeks of the order book take precedence.  For a position of
    a size above [1e-8] in magnitude whose order book is answered at
    once with a [greeks] dict that has a [gamma]: one request is sent
    for the order book, and the position returned carries the Gamma
    and the Vega of one contract, in magnitude, times the magnitude of
    the size, whatever Gamma and Vega the position itself reported;
    its size is the magnitude of the size, its direction ["buy"] for a
    size above zero and ["sell"] otherwise. *)
Theorem order_book_greeks_win
  (b : builtins) (e : env) (kind_ : string) (pos : pyobject)
  (c : self) (n : net) (size : PyFloat.t) (name : pyobject)
  (mark_iv_ gamma_ delta_ theta_ vega_ : PyFloat.t)
  (ob g : Dict.t pyobject) (gamma_per_unit vega_per_unit : PyFloat.t) :
  (v <- Py.get pos "size" (VNum PyFloat.zero) ;; float_ b v) = Some size ->
  (PyFloat.abs size >? tiny)%py = true ->
  Py.get pos "instrument_name" (VStr "") = Some name ->
  own_greeks b pos = Some (mark_iv_, gamma_, delta_, theta_, vega_) ->
  post e (List.length (sent n)) = Response 200 (Result (VDict ob)) ->
  Dict.get ob "greeks" = Some (VDict g) ->
  Dict.mem g "gamma" = true ->
  float_or_0 b (VDict g) "gamma" = Some gamma_per_unit ->
  float_or_0 b (VDict g) "vega" = Some vega_per_unit ->
  exists p n',
    position_of b e kind_ pos (c, n)
    = (Some (Some p), (with_request_id c (request_id c + 1), n'))
    /\ sent n'
       = (sent n ++ [own_request "public/get_order_book"
                       (order_book_params name) (request_id c + 1) None])%list
    /\ u_gamma p = (PyFloat.abs gamma_per_unit * PyFloat.abs size)%py
    /\ u_vega p = (PyFloat.abs vega_per_unit * PyFloat.abs size)%py
    /\ u_size p = PyFloat.abs size
    /\ u_direction p = (if (size >? PyFloat.zero)%py then "buy" else "sell")
    /\ u_instrument_name p = name
    /\ (u_mark_iv p, u_delta p, u_theta p) = (mark_iv_, delta_, theta_).
Proof.
  intros Size Big Name Own R Greeks Gamma Gpu Vpu.
  unfold position_of. rewrite Size.
  assert (Small : (PyFloat.abs size <? tiny)%py = false)
    by (apply OrderFacts.ltb_asym; exact Big).
  rewrite Small, Name, Own.
  rewrite (IndexFacts.public_call_first e "public/get_order_book" _ c n _
             eq_refl R).
  cbn [auth_result Z.eqb Pos.eqb].
  assert (Tob : Py.truthy (VDict ob) = true).
  { destruct ob; [discriminate Greeks | reflexivity]. }
  unfold total_greeks. rewrite Tob. cbn [py_in Py.get].
  assert (Gd : Dict.get_default ob "greeks" (VDict []) = VDict g)
    by (unfold Dict.get_default; now rewrite Greeks).
  assert (Gm : Dict.mem ob "greeks" = true)
    by (unfold Dict.mem; now rewrite Greeks).
  rewrite Gm, Gd. cbn [Py.dict_has]. rewrite Gamma, Gpu, Vpu, Big.
  destruct pos; try discriminate Name. cbn [Py.get].
  eexists _, _. split; [reflexivity|]. repeat split.
Qed.

Lemma order_book_greeks_win_witness :
  let e := Examples.scripted [Examples.order_book_reply] in
  let b := Examples.builtins0 in
  let c := Examples.client1 in
  let pos := VDict [("instrument_name", VStr "BTC-27DEC24-100000-C");
                    ("size", VNum float:(-2.0));
                    ("gamma", VNum float:(-0.0004));
                    ("vega", VNum float:(-45.0))] in
  let size := float:(-2.0) in
  let name := VStr "BTC-27DEC24-100000-C" in
  (PyFloat.abs size >? tiny)%py = true
  /\ own_greeks b pos
     = Some (PyFloat.zero, float:(-0.0004), PyFloat.zero, PyFloat.zero,
             float:(-45.0))
  /\ exists p n',
       position_of b e "option" pos (c, net0)
       = (Some (Some p), (with_request_id c (request_id c + 1), n'))
       /\ sent n'
          = (sent net0 ++ [own_request "public/get_order_book"
                             (order_book_params name) (request_id c + 1) None])%list
       /\ u_gamma p = (PyFloat.abs float:(0.0003) * PyFloat.abs size)%py
       /\ u_vega p = (PyFloat.abs float:(20.0) * PyFloat.abs size)%py
       /\ u_size p = PyFloat.abs size
       /\ u_direction p = (if (size >? PyFloat.zero)%py then "buy" else "sell")
       /\ u_instrument_name p = name
       /\ (u_mark_iv p, u_delta p, u_theta p)
          = (PyFloat.zero, PyFloat.zero, PyFloat.zero).
Proof.
  cbv zeta. split; [vm_compute; reflexivity|]. split; [vm_compute; reflexivity|].
  apply (order_book_greeks_win Examples.builtins0
           (Examples.scripted [Examples.order_book_reply]) "option"
           (VDict [("instrument_name", VStr "BTC-27DEC24-100000-C");
                   ("size", VNum float:(-2.0));
                   ("gamma", VNum float:(-0.0004));
                   ("vega", VNum float:(-45.0))])
           Examples.client1 net0 float:(-2.0)
           (VStr "BTC-27DEC24-100000-C")
           PyFloat.zero float:(-0.0004) PyFloat.zero PyFloat.zero float:(-45.0)
           [("greeks", VDict [("gamma", VNum float:(0.0003));
                              ("vega", VNum float:(20.0))])]
           [("gamma", VNum float:(0.0003)); ("vega", VNum float:(20.0))]
           float:(0.0003) float:(20.0));
    vm_compute; reflexivity.
Defined.

(** ** The checks of a cycle, step by step *)

Module CycleFacts.
Import Monitor CycleSpec.

Lemma triple_ret {A : Type} P (a : A) : triple P (ret a) P.
Proof. intros w H. exact H. Qed.

Lemma triple_lift {A : Type} P (o : option A) : triple P (lift o) P.
Proof. intros w H. exact H. Qed.

Lemma triple_bind {A B : Type} P Q R (m : M A) (k : A -> M B) :
  triple P m Q -> (forall a, triple Q (k a) R) -> (forall w, Q w -> R w) ->
  triple P (bind m k) R.
Proof.
  intros Hm Hk QR w H. unfold bind. specialize (Hm w H).
  destruct (m w) as [[a|] w1]; cbn in *; [exact (Hk a w1 Hm) | exact (QR w1 Hm)].
Qed.

Lemma triple_weaken {A : Type} (P Q Q' : world -> Prop) (m : M A) :
  triple P m Q -> (forall w, Q w -> Q' w) -> triple P m Q'.
Proof. intros H W w Hw. exact (W _ (H w Hw)). Qed.

Section Steps.

Variables (e : env) (m : self) (now : PyFloat.t).

(** A family of properties that counts the alerts: [fire] goes one
    up, the store does not count. *)
Variable P : nat -> world -> Prop.

Hypothesis P_up : forall k w, P k w -> P (S k) w.

Hypothesis P_fire :
  forall key k, triple (P k) (fire e m key now) (P (S k)).

Hypothesis P_set :
  forall key v timestamp k,
    key <> "last_alert_times" ->
    triple (P k) (state_store_set e key v timestamp) (P k).

Hypothesis P_get_history :
  forall key minutes k, triple (P k) (state_store_get_history e key minutes) (P k).

Lemma P_le j k w : (j <= k)%nat -> P j w -> P k w.
Proof. induction 1; auto. Qed.

Lemma check_levels_step metric instrument x l1 l2 l3 k :
  triple (P k) (check_levels e m metric instrument x l1 l2 l3 now) (P (S k)).
Proof.
  unfold check_levels. destruct (alert_level x l1 l2 l3) as [[level sev]|].
  - apply P_fire.
  - intros w H. apply P_up. exact H.
Qed.

Lemma check_position_step position k :
  DeribitClient.instrument_name position <> "last_alert_times" ->
  triple (P k) (check_position e m position now) (P (2 + k)).
Proof.
  intros N. unfold check_position, _check_gamma_levels, _check_vega_threshold.
  assert (Up2 : forall j w, (j <= 2 + k)%nat -> P j w -> P (2 + k) w)
    by (intros j w; apply P_le).
  assert (First :
    triple (P k)
      (state_store_set e (DeribitClient.instrument_name position)
         (position_record position) now ;;;
       check_levels e m "gamma" (DeribitClient.instrument_name position)
         (PyFloat.abs (DeribitClient.gamma position))
         (or_default (level_1_light (gamma_thresholds m)) float:(0.0001))
         (or_default (level_2_medium (gamma_thresholds m)) float:(0.0005))
         (or_default (level_3_heavy (gamma_thresholds m)) float:(0.001)) now ;;;
       check_levels e m "vega" (DeribitClient.instrument_name position)
         (PyFloat.abs (DeribitClient.vega position))
         (or_default (level_1_light (vega_thresholds m)) float:(10.0))
         (or_default (level_2_medium (vega_thresholds m)) float:(30.0))
         (or_default (level_3_heavy (vega_thresholds m)) float:(50.0)) now)
      (P (2 + k))).
  { apply (triple_bind _ (P k)); [now apply P_set| |intros w; apply Up2; lia].
    intros _.
    apply (triple_bind _ (P (S k)));
      [apply check_levels_step| |intros w; apply Up2; lia].
    intros _. apply check_levels_step. }
  apply (triple_bind _ (P k)); [apply P_get_history| |intros w; apply Up2; lia].
  intros history_5m.
  destruct (negb (Py.truthy (VList history_5m))); [exact First|].
  apply (triple_bind _ (P k)); [apply triple_lift| |intros w; apply Up2; lia].
  intros history_sorted.
  destruct (negb (Py.truthy (VList history_sorted))); [exact First|].
  apply (triple_bind _ (P (S k)));
    [apply check_levels_step| |intros w; apply Up2; lia].
  intros _.
  apply (triple_bind _ (P (2 + k)));
    [apply check_levels_step| |intros w H; exact H].
  intros _. now apply P_set.
Qed.

Lemma check_positions_step positions :
  named_apart positions ->
  forall k,
    triple (P k) (_check_positions e m positions now)
      (P (2 * List.length positions + k)).
Proof.
  induction 1 as [|position rest N _ IH]; intros k; cbn [_check_positions].
  - apply triple_ret.
  - apply (triple_bind _ (P (2 + k))); [now apply check_position_step| |].
    + intros _. eapply triple_weaken; [apply IH|].
      intros w. apply P_le. cbn [List.length]. lia.
    + intros w. apply P_le. cbn [List.length]. lia.
Qed.

Lemma check_dvol_step dvol_data k :
  triple (P k) (_check_dvol e m dvol_data now) (P (3 + k)).
Proof.
  unfold _check_dvol.
  assert (Up3 : forall j w, (j <= 3 + k)%nat -> P j w -> P (3 + k) w)
    by (intros j w; apply P_le).
  assert (Save : forall j, (j <= 3 + k)%nat ->
            triple (P j)
              (state_store_set e "dvol" (VNum (DeribitClient.value dvol_data)) now)
              (P (3 + k))).
  { intros j L. eapply triple_weaken; [apply P_set; discriminate|].
    intros w. now apply Up3. }
  apply (triple_bind _ (P k)); [apply P_get_history| |intros w; apply Up3; lia].
  intros history_5m.
  destruct (negb (Py.truthy (VList history_5m))); [apply Save; lia|].
  apply (triple_bind _ (P k)); [apply triple_lift| |intros w; apply Up3; lia].
  intros [|nearest rest]; [apply Save; lia|].
  apply (triple_bind _ (P k)); [apply triple_lift| |intros w; apply Up3; lia].
  intros previous.
  assert (Main :
    triple (P k)
      (let* previous_dvol := lift (Py.num previous) in
       (match matched_specific_value
                (specific_values (dvol_value_thresholds m))
                (or_default (specific_value_tolerance (dvol_value_thresholds m))
                   float:(0.5)) (DeribitClient.value dvol_data) with
        | Some target_value =>
            fire e m ("dvol_specific_" ++ str_of e target_value) now
        | None => ret tt
        end) ;;;
       (if should_alert_abs_value (dvol_value_thresholds m)
             (DeribitClient.value dvol_data)
        then fire e m "dvol_abs_value" now else ret tt) ;;;
       (if should_alert_change (dvol_value_thresholds m)
             (DeribitClient.value dvol_data) previous_dvol
        then fire e m "dvol_change" now else ret tt) ;;;
       state_store_set e "dvol" (VNum (DeribitClient.value dvol_data)) now)
      (P (3 + k))).
  { apply (triple_bind _ (P k)); [apply triple_lift| |intros w; apply Up3; lia].
    intros previous_dvol.
    apply (triple_bind _ (P (1 + k))); [| |intros w; apply Up3; lia].
    { destruct (matched_specific_value _ _ _);
        [apply P_fire | intros w H; apply P_up; exact H]. }
    intros _.
    apply (triple_bind _ (P (2 + k))); [| |intros w; apply Up3; lia].
    { destruct (should_alert_abs_value _ _);
        [apply P_fire | intros w H; apply P_up; exact H]. }
    intros _.
    apply (triple_bind _ (P (3 + k))); [| |intros w H; exact H].
    { destruct (should_alert_change _ _ _);
        [apply P_fire | intros w H; apply P_up; exact H]. }
    intros _. apply P_set. discriminate. }
  destruct previous; try exact Main. apply Save. lia.
Qed.

End Steps.

(** *** The alerts of a cycle *)

Lemma within_start m now w0 : within m now w0 0 w0.
Proof.
  exists []. rewrite app_nil_r. repeat split; trivial; constructor.
Qed.

Lemma within_up m now w0 k w : within m now w0 k w -> within m now w0 (S k) w.
Proof.
  intros (new & A & L & T & D & U & F). exists new.
  repeat split; trivial. lia.
Qed.

Lemma within_ext m now w0 k w w' :
  alerts w' = alerts w -> table w' = table w ->
  within m now w0 k w -> within m now w0 k w'.
Proof.
  intros Ea Et (new & A & L & T & D & U & F). exists new.
  rewrite Ea, Et. now repeat split.
Qed.

Lemma should_alert_reads m key now w :
  snd (_should_alert m key now w) = w.
Proof.
  unfold _should_alert, bind, lift, ret.
  destruct (StateStore.get_last_alert_time (state_store w) key)
    as [[| |x| | |]|]; cbn; try reflexivity.
  now destruct b.
Qed.

Lemma fire_within e m now w0 key k :
  triple (within m now w0 k) (fire e m key now) (within m now w0 (S k)).
Proof.
  intros w H. pose proof (within_up _ _ _ _ _ H) as Same.
  destruct H as (new & A & L & T & D & U & F). unfold fire, bind.
  pose proof (should_alert_reads m key now w) as R.
  destruct (_should_alert m key now w) as [[ok|] w1]; cbn in R; subst w1;
    [|exact Same].
  destruct ok; cbn [negb]; [|exact Same].
  destruct (enable_alert m) eqn:En; [|exact Same].
  unfold send_feishu_alert.
  set (ok := if String.eqb (feishu_webhook_url m) "" then false
             else feishu e (List.length (alerts w))).
  set (a := {| alert_key := key; current_time := now; success := ok |}).
  set (w2 := {| state_store := state_store w; clock_reads := clock_reads w;
                alerts := (alerts w ++ [a])%list |}).
  assert (Grown : forall w3,
            alerts w3 = alerts w2 ->
            (ok = false -> table w3 = table w) ->
            within m now w0 (S k) w3).
  { intros w3 Ea Et. exists (new ++ [a])%list.
    split; [rewrite Ea; cbn; rewrite A; now rewrite app_assoc|].
    split; [rewrite length_app; cbn; lia|].
    split; [apply Forall_app; split; [exact T|now repeat constructor]|].
    split; [congruence|]. split.
    - intros Url. apply Forall_app. split; [now apply U|].
      repeat constructor. unfold failed, a, ok. cbn. now rewrite Url.
    - intros Fa. apply Forall_app in Fa. destruct Fa as [Fn Fa].
      inversion Fa as [|? ? Fok _]; subst. unfold failed in Fok. cbn in Fok.
      rewrite (Et Fok). now apply F. }
  destruct ok eqn:Ok.
  - apply Grown; [|discriminate].
    unfold state_store_set_last_alert_time, on_store, bind, time_time_. cbn.
    now destruct (StateStore.set_last_alert_time _ _ _ _ _) as [[|] s'].
  - cbn. apply Grown; [reflexivity|]. now intros _.
Qed.

Lemma set_within e m now w0 key v timestamp k :
  key <> "last_alert_times" ->
  triple (within m now w0 k) (state_store_set e key v timestamp)
    (within m now w0 k).
Proof.
  intros N w H. refine (within_ext _ _ _ _ _ _ _ _ H).
  - apply MonitorFacts.state_store_set_alerts.
  - unfold table, state_store_set, on_store, bind, time_time_. cbn.
    pose proof (StoreFacts.set_reserved key v (Some timestamp)
                  (time_time e (clock_reads w)) (time_time e (clock_reads w))
                  (state_store w) "last_alert_times" eq_refl N) as R.
    now destruct (StateStore.set key v _ _ _ (state_store w)) as [[|] s'].
Qed.

Lemma get_history_within e m now w0 key minutes k :
  triple (within m now w0 k) (state_store_get_history e key minutes)
    (within m now w0 k).
Proof.
  intros w H. refine (within_ext _ _ _ _ _ _ _ _ H); reflexivity.
Qed.

Lemma check_positions_within e m now positions w :
  named_apart positions ->
  within m now w (2 * List.length positions)
    (snd (_check_positions e m positions now w)).
Proof.
  intros N.
  pose proof (check_positions_step e m now (within m now w)
                (within_up m now w) (fire_within e m now w)
                (set_within e m now w) (get_history_within e m now w)
                positions N 0 w (within_start m now w)) as H.
  now rewrite Nat.add_0_r in H.
Qed.

Lemma check_dvol_within e m now dvol_data w :
  within m now w 3 (snd (_check_dvol e m dvol_data now w)).
Proof.
  exact (check_dvol_step e m now (within m now w)
           (within_up m now w) (fire_within e m now w)
           (set_within e m now w) (get_history_within e m now w)
           dvol_data 0 w (within_start m now w)).
Qed.

End CycleFacts.

(** ** What a check records *)

Module RecordFacts.
Import Monitor CycleSpec.

Lemma bind_returns {A B : Type} (m : M A) (k : A -> M B) w b w' :
  bind m k w = (Some b, w') ->
  exists a w1, m w = (Some a, w1) /\ k a w1 = (Some b, w').
Proof.
  unfold bind. destruct (m w) as [[a|] w1]; [|discriminate].
  intros E. now exists a, w1.
Qed.

Lemma state_store_set_holds e key v timestamp w w' :
  state_store_set e key v timestamp w = (Some tt, w') ->
  holds_latest w' key (StateStore.entry v timestamp).
Proof.
  unfold state_store_set, on_store, bind, time_time_. cbn.
  destruct (StateStore.set key v (Some timestamp) _ _ (state_store w))
    as [[|] s'] eqn:E; [|discriminate].
  intros [= <-]. exact (HistoryFacts.set_keeps_latest _ _ _ _ _ _ _ E).
Qed.

Lemma fire_holds e m key now w name latest :
  name <> "last_alert_times" ->
  holds_latest w name latest ->
  holds_latest (snd (fire e m key now w)) name latest.
Proof.
  intros N H. unfold fire, bind.
  pose proof (CycleFacts.should_alert_reads m key now w) as R.
  destruct (_should_alert m key now w) as [[ok|] w1]; cbn in R; subst w1;
    [|exact H].
  destruct ok; cbn [negb]; [|exact H].
  destruct (enable_alert m); [|exact H].
  unfold send_feishu_alert.
  destruct (if String.eqb (feishu_webhook_url m) "" then false
            else feishu e (List.length (alerts w))); [|exact H].
  unfold state_store_set_last_alert_time, on_store, bind, time_time_. cbn.
  pose proof (HistoryFacts.set_last_alert_time_keeps key (Some now)
                (time_time e (clock_reads w)) (time_time e (clock_reads w))
                (state_store w) name latest N H) as K.
  now destruct (StateStore.set_last_alert_time _ _ _ _ _) as [[|] s'].
Qed.

Lemma check_levels_holds e m metric instrument x l1 l2 l3 now w name latest :
  name <> "last_alert_times" ->
  holds_latest w name latest ->
  holds_latest (snd (check_levels e m metric instrument x l1 l2 l3 now w))
    name latest.
Proof.
  intros N H. unfold check_levels.
  destruct (alert_level x l1 l2 l3) as [[level sev]|]; [|exact H].
  now apply fire_holds.
Qed.

Lemma check_position_records e m position now w w' :
  DeribitClient.instrument_name position <> "last_alert_times" ->
  check_position e m position now w = (Some tt, w') ->
  holds_latest w' (DeribitClient.instrument_name position)
    (StateStore.entry (position_record position) now).
Proof.
  intros N. unfold check_position, _check_gamma_levels, _check_vega_threshold.
  set (name := DeribitClient.instrument_name position) in *.
  set (gamma_check := check_levels e m "gamma" name _ _ _ _ now).
  set (vega_check := check_levels e m "vega" name _ _ _ _ now).
  assert (First : forall w0 w1,
            (state_store_set e name (position_record position) now ;;;
             gamma_check ;;; vega_check) w0 = (Some tt, w1) ->
            holds_latest w1 name
              (StateStore.entry (position_record position) now)).
  { assert (Hg : forall w0 latest,
              holds_latest w0 name latest ->
              holds_latest (snd (gamma_check w0)) name latest)
      by (intros; unfold gamma_check; now apply check_levels_holds).
    assert (Hv : forall w0 latest,
              holds_latest w0 name latest ->
              holds_latest (snd (vega_check w0)) name latest)
      by (intros; unfold vega_check; now apply check_levels_holds).
    intros w0 w1 E.
    destruct (bind_returns _ _ _ _ _ E) as ([] & w2 & E1 & E2).
    destruct (bind_returns _ _ _ _ _ E2) as ([] & w3 & E3 & E4).
    cbv beta in *.
    pose proof (state_store_set_holds _ _ _ _ _ _ E1) as H2.
    pose proof (Hg _ _ H2) as H3. rewrite E3 in H3. cbn [snd] in H3.
    pose proof (Hv _ _ H3) as H4. now rewrite E4 in H4. }
  intros E. destruct (bind_returns _ _ _ _ _ E) as (history_5m & w1 & _ & E1).
  destruct (negb (Py.truthy (VList history_5m))); [exact (First _ _ E1)|].
  destruct (bind_returns _ _ _ _ _ E1) as (history_sorted & w2 & _ & E2).
  destruct (negb (Py.truthy (VList history_sorted))); [exact (First _ _ E2)|].
  destruct (bind_returns _ _ _ _ _ E2) as ([] & w3 & _ & E3).
  destruct (bind_returns _ _ _ _ _ E3) as ([] & w4 & _ & E4).
  exact (state_store_set_holds _ _ _ _ _ _ E4).
Qed.

Lemma check_dvol_records e m dvol_data now w w' :
  _check_dvol e m dvol_data now w = (Some tt, w') ->
  holds_latest w' "dvol"
    (StateStore.entry (VNum (DeribitClient.value dvol_data)) now).
Proof.
  unfold _check_dvol. intros E.
  pose proof (fun w0 w1 => state_store_set_holds e "dvol"
                (VNum (DeribitClient.value dvol_data)) now w0 w1) as Save.
  destruct (bind_returns _ _ _ _ _ E) as (history_5m & w1 & _ & E1).
  destruct (negb (Py.truthy (VList history_5m))); [exact (Save _ _ E1)|].
  destruct (bind_returns _ _ _ _ _ E1) as ([|nearest rest] & w2 & _ & E2);
    [exact (Save _ _ E2)|].
  destruct (bind_returns _ _ _ _ _ E2) as (previous & w3 & _ & E3).
  assert (Main : forall w0,
    (let* previous_dvol := lift (Py.num previous) in
     (match matched_specific_value
              (specific_values (dvol_value_thresholds m))
              (or_default (specific_value_tolerance (dvol_value_thresholds m))
                 float:(0.5)) (DeribitClient.value dvol_data) with
      | Some target_value =>
          fire e m ("dvol_specific_" ++ str_of e target_value) now
      | None => ret tt
      end) ;;;
     (if should_alert_abs_value (dvol_value_thresholds m)
           (DeribitClient.value dvol_data)
      then fire e m "dvol_abs_value" now else ret tt) ;;;
     (if should_alert_change (dvol_value_thresholds m)
           (DeribitClient.value dvol_data) previous_dvol
      then fire e m "dvol_change" now else ret tt) ;;;
     state_store_set e "dvol" (VNum (DeribitClient.value dvol_data)) now) w0
    = (Some tt, w') ->
    holds_latest w' "dvol"
      (StateStore.entry (VNum (DeribitClient.value dvol_data)) now)).
  { intros w0 E0.
    destruct (bind_returns _ _ _ _ _ E0) as (previous_dvol & w4 & _ & E4).
    destruct (bind_returns _ _ _ _ _ E4) as ([] & w5 & _ & E5).
    destruct (bind_returns _ _ _ _ _ E5) as ([] & w6 & _ & E6).
    destruct (bind_returns _ _ _ _ _ E6) as ([] & w7 & _ & E7).
    exact (Save _ _ E7). }
  destruct previous; try exact (Main _ E3). exact (Save _ _ E3).
Qed.

End RecordFacts.

(** ** The cycle *)

Module RunFacts.
Import Monitor CycleSpec.

Lemma sent_read_clock ce n :
  DeribitClient.sent (snd (DeribitClient.read_clock ce n))
  = DeribitClient.sent n.
Proof. reflexivity. Qed.

(** The positions of an exchange that cannot be reached: none. *)
Lemma get_positions_unreachable b ce currency kind c n :
  (forall k, DeribitClient.post ce k = DeribitClient.Timeout) ->
  exists c' n' new,
    DeribitClient.get_account_option_positions b ce currency kind (c, n)
    = (Some [], (c', n'))
    /\ DeribitClient.sent n' = (DeribitClient.sent n ++ new)%list
    /\ (List.length new <= 3)%nat
    /\ (DeribitClient.token c' = DeribitClient.token c
        /\ DeribitClient.token_expires_at c'
           = DeribitClient.token_expires_at c).
Proof.
  intros Down. unfold DeribitClient.get_account_option_positions.
  change DeribitClient.default_retry_times with 3.
  destruct (AnswerFacts.private_call_unreachable ce "private/get_positions"
              (DeribitClient.get_positions_params currency kind) c n
              eq_refl Down) as (c' & n' & new & E & Sn & Tk & Cases).
  rewrite E. exists c', n', new. split; [reflexivity|]. split; [exact Sn|].
  split; [|exact Tk].
  destruct Cases as [(_ & -> & _)|(_ & -> & _)]; cbn; lia.
Qed.

Lemma fetch_unreachable b ce :
  (forall k, DeribitClient.post ce k = DeribitClient.Timeout) ->
  forall names c n,
    exists c' n' new,
      fetch_positions b ce names (c, n) = (Some [], (c', n'))
      /\ DeribitClient.sent n' = (DeribitClient.sent n ++ new)%list
      /\ (List.length new <= 3 * List.length names)%nat
      /\ (DeribitClient.token c' = DeribitClient.token c
          /\ DeribitClient.token_expires_at c'
             = DeribitClient.token_expires_at c).
Proof.
  intros Down names. induction names as [|currency rest IH]; intros c n.
  - exists c, n, []. cbn. rewrite app_nil_r. repeat split. lia.
  - cbn [fetch_positions].
    destruct (get_positions_unreachable b ce currency "option" c n Down)
      as (c1 & n1 & new1 & E1 & S1 & L1 & T1).
    rewrite E1. destruct (IH c1 n1) as (c2 & n2 & new2 & E2 & S2 & L2 & T2).
    rewrite E2. exists c2, n2, (new1 ++ new2)%list.
    split; [reflexivity|]. split; [now rewrite S2, S1, app_assoc|].
    split; [rewrite length_app; cbn [List.length]; lia|].
    destruct T1 as [T1 X1], T2 as [T2 X2]. split; congruence.
Qed.

(** A private call of a client whose session is valid, answered at
    once. *)
Lemma private_call_first ce method_name params c n result :
  DeribitClient.is_private method_name = true ->
  ClientSpec.session_valid ce c n = true ->
  DeribitClient.post ce (List.length (DeribitClient.sent n))
  = DeribitClient.Response 200 (DeribitClient.Result result) ->
  DeribitClient._make_request ce method_name params
    DeribitClient.default_retry_times (c, n)
  = (Some result,
     (DeribitClient.with_request_id c (DeribitClient.request_id c + 1),
      ClientSpec.after_post
        (ClientSpec.own_request method_name params
           (DeribitClient.request_id c + 1) (Some (DeribitClient.token c)))
        (ClientSpec.after_check ce c n))).
Proof.
  intros Priv V R.
  rewrite (ClientFacts.make_request_valid _ _ _ _ _ _ Priv V).
  change (Py.range DeribitClient.default_retry_times) with [0; 1; 2].
  cbn [DeribitClient.attempts DeribitClient.requests_post].
  rewrite ClientFacts.sent_after_check, R. cbn [Z.eqb Pos.eqb].
  unfold ClientSpec.after_post, ClientSpec.own_request.
  now rewrite ClientFacts.sent_after_check.
Qed.

(** The [except] clause is an ending the embedding follows. *)
Lemma except_clause_followed error_logged :
  except_clause error_logged <> Untyped.
Proof. now destruct error_logged. Qed.

(** One turn of the loop over the positions sends requests for the
    order book only. *)
Lemma position_of_books b ce kind pos c n :
  exists r c' n' books,
    DeribitClient.position_of b ce kind pos (c, n) = (r, (c', n'))
    /\ DeribitClient.sent n' = (DeribitClient.sent n ++ books)%list
    /\ Forall (fun q => DeribitClient.method q = "public/get_order_book") books.
Proof.
  assert (Stay : forall r : option (option DeribitClient.untyped_position),
    exists r' c' n' books,
      (r, (c, n)) = (r', (c', n'))
      /\ DeribitClient.sent n' = (DeribitClient.sent n ++ books)%list
      /\ Forall (fun q => DeribitClient.method q = "public/get_order_book")
           books).
  { intros r. exists r, c, n, []. rewrite app_nil_r. repeat split. constructor. }
  unfold DeribitClient.position_of.
  destruct (size <- (v <- Py.get pos "size" (VNum PyFloat.zero) ;;
                     DeribitClient.float_ b v) ;;
            if (PyFloat.abs size <? DeribitClient.tiny)%py then Some None
            else
              instrument_name <- Py.get pos "instrument_name" (VStr "") ;;
              greeks <- DeribitClient.own_greeks b pos ;;
              Some (Some (size, instrument_name, greeks)))
    as [[[[size name] [[[[mark_iv gamma] delta] theta] vega]]|]|];
    try apply Stay.
  destruct (PublicFacts.public_call ce "public/get_order_book"
              (DeribitClient.order_book_params name)
              DeribitClient.default_retry_times c n eq_refl)
    as (k & res & n' & E & _ & _ & Sn & _).
  rewrite E.
  assert (F : Forall (fun q => DeribitClient.method q = "public/get_order_book")
                (repeat (ClientSpec.own_request "public/get_order_book"
                           (DeribitClient.order_book_params name)
                           (DeribitClient.request_id c + 1) None) k)).
  { apply Forall_forall. intros q Hq. now rewrite (repeat_spec _ _ _ Hq). }
  destruct (totals <- DeribitClient.total_greeks b res size gamma vega ;;
            k0 <- Py.get pos "kind" (VStr kind) ;; Some (totals, k0))
    as [[[gamma_total vega_total] k0]|];
    eexists _, _, n', _; (split; [reflexivity|]); split; eauto.
Qed.

(** The loop over the positions raises at a position whose size
    cannot be read, if not before. *)
Lemma collect_unreadable b ce kind pos :
  (v <- Py.get pos "size" (VNum PyFloat.zero) ;; DeribitClient.float_ b v)
  = None ->
  forall result, In pos result ->
  forall c n,
    exists c' n' books,
      DeribitClient.collect_positions b ce kind result (c, n) = (None, (c', n'))
      /\ DeribitClient.sent n' = (DeribitClient.sent n ++ books)%list
      /\ Forall (fun q => DeribitClient.method q = "public/get_order_book")
           books
      /\ (forall rest, result = pos :: rest -> books = []).
Proof.
  intros Size result. induction result as [|head rest IH]; intros I c n.
  - destruct I.
  - cbn [DeribitClient.collect_positions].
    destruct (v <- Py.get head "size" (VNum PyFloat.zero) ;;
              DeribitClient.float_ b v) as [size|] eqn:Head.
    + assert (I' : In pos rest).
      { destruct I as [->|I]; [congruence | exact I]. }
      destruct (position_of_books b ce kind head c n)
        as (r & c1 & n1 & books1 & E1 & S1 & F1).
      rewrite E1.
      assert (Last : forall rest0, head :: rest = pos :: rest0 ->
                forall books : list DeribitClient.request, books = []).
      { intros rest0 [= -> _]. congruence. }
      destruct r as [p|].
      * destruct (IH I' c1 n1) as (c2 & n2 & books2 & E2 & S2 & F2 & _).
        rewrite E2. exists c2, n2, (books1 ++ books2)%list.
        split; [reflexivity|]. split; [now rewrite S2, S1, app_assoc|].
        split; [now apply Forall_app | intros; eapply Last; eauto].
      * exists c1, n1, books1. split; [reflexivity|]. split; [exact S1|].
        split; [exact F1 | intros; eapply Last; eauto].
    + unfold DeribitClient.position_of. rewrite Head. cbn.
      exists c, n, []. rewrite app_nil_r. repeat split. constructor.
Qed.

End RunFacts.

(** ** The monitor: the alerts of a cycle *)

(** What the checks of a cycle hand to the webhook: the log of alerts
    only grows; the check of the positions adds two alerts at most
    for each position, the check of the index three at most, all at
    the time of the cycle. *)
Theorem checks_send_few_alerts
  (e : Monitor.env) (m : Monitor.self) (now : PyFloat.t)
  (positions : list DeribitClient.OptionPosition)
  (dvol_data : DeribitClient.DvolData) (w : Monitor.world) :
  CycleSpec.named_apart positions ->
  (exists new,
     Monitor.alerts (snd (Monitor._check_positions e m positions now w))
     = (Monitor.alerts w ++ new)%list
     /\ (List.length new <= 2 * List.length positions)%nat
     /\ Forall (fun a => Monitor.current_time a = now) new)
  /\ (exists new,
        Monitor.alerts (snd (Monitor._check_dvol e m dvol_data now w))
        = (Monitor.alerts w ++ new)%list
        /\ (List.length new <= 3)%nat
        /\ Forall (fun a => Monitor.current_time a = now) new).
Proof.
  intros N. split.
  - destruct (CycleFacts.check_positions_within e m now positions w N)
      as (new & A & L & T & _). now exists new.
  - destruct (CycleFacts.check_dvol_within e m now dvol_data w)
      as (new & A & L & T & _). now exists new.
Qed.

Lemma checks_send_few_alerts_witness :
  let e := Examples.env_at (Examples.t 1060) in
  let m := Examples.monitor0 in
  let now := Examples.t 1060 in
  let w := Examples.world_of Examples.store1 in
  let positions := [Examples.position0] in
  let dvol_data := Examples.dvol (Examples.t 65) now in
  CycleSpec.named_apart positions
  /\ Examples.keys_of (snd (Monitor._check_dvol e m dvol_data now w))
     = ["dvol_abs_value"; "dvol_change"]
  /\ (exists new,
        Monitor.alerts (snd (Monitor._check_positions e m positions now w))
        = (Monitor.alerts w ++ new)%list
        /\ (List.length new <= 2 * List.length positions)%nat
        /\ Forall (fun a => Monitor.current_time a = now) new)
  /\ (exists new,
        Monitor.alerts (snd (Monitor._check_dvol e m dvol_data now w))
        = (Monitor.alerts w ++ new)%list
        /\ (List.length new <= 3)%nat
        /\ Forall (fun a => Monitor.current_time a = now) new).
Proof.
  cbv zeta.
  assert (N : CycleSpec.named_apart [Examples.position0])
    by (repeat constructor; discriminate).
  split; [exact N|]. split; [vm_compute; reflexivity|].
  exact (checks_send_few_alerts (Examples.env_at (Examples.t 1060))
           Examples.monitor0 (Examples.t 1060) [Examples.position0]
           (Examples.dvol (Examples.t 65) (Examples.t 1060))
           (Examples.world_of Examples.store1) N).
Defined.

(** No delivery, no cool-down.  In the check of the positions and in
    the check of the index: with alerts disabled nothing is handed to
    the webhook; without a webhook URL no alert succeeds; and as long
    as no alert of the check succeeds, the table of last alert times
    is what it was. *)
Theorem no_delivery_no_record
  (e : Monitor.env) (m : Monitor.self) (now : PyFloat.t)
  (positions : list DeribitClient.OptionPosition)
  (dvol_data : DeribitClient.DvolData) (w w' : Monitor.world) :
  CycleSpec.named_apart positions ->
  w' = snd (Monitor._check_positions e m positions now w)
  \/ w' = snd (Monitor._check_dvol e m dvol_data now w) ->
  exists new,
    Monitor.alerts w' = (Monitor.alerts w ++ new)%list
    /\ (Monitor.enable_alert m = false -> new = [])
    /\ (Monitor.feishu_webhook_url m = "" -> Forall CycleSpec.failed new)
    /\ (Forall CycleSpec.failed new -> CycleSpec.table w' = CycleSpec.table w).
Proof.
  intros N [-> | ->].
  - destruct (CycleFacts.check_positions_within e m now positions w N)
      as (new & A & _ & _ & D & U & F). now exists new.
  - destruct (CycleFacts.check_dvol_within e m now dvol_data w)
      as (new & A & _ & _ & D & U & F). now exists new.
Qed.

Lemma no_delivery_no_record_witness :
  let e := Examples.env_at (Examples.t 1060) in
  let m := Examples.monitor_without_url in
  let now := Examples.t 1060 in
  let w := Examples.world_of Examples.store1 in
  let dvol_data := Examples.dvol (Examples.t 65) now in
  let w' := snd (Monitor._check_dvol e m dvol_data now w) in
  CycleSpec.named_apart [Examples.position0]
  /\ map Monitor.success (Monitor.alerts w') = [false; false]
  /\ exists new,
       Monitor.alerts w' = (Monitor.alerts w ++ new)%list
       /\ (Monitor.enable_alert m = false -> new = [])
       /\ (Monitor.feishu_webhook_url m = "" -> Forall CycleSpec.failed new)
       /\ (Forall CycleSpec.failed new
           -> CycleSpec.table w' = CycleSpec.table w).
Proof.
  cbv zeta.
  assert (N : CycleSpec.named_apart [Examples.position0])
    by (repeat constructor; discriminate).
  split; [exact N|]. split; [vm_compute; reflexivity|].
  exact (no_delivery_no_record (Examples.env_at (Examples.t 1060))
           Examples.monitor_without_url (Examples.t 1060)
           [Examples.position0]
           (Examples.dvol (Examples.t 65) (Examples.t 1060))
           (Examples.world_of Examples.store1) _ N (or_intror eq_refl)).
Defined.

(** What a check has seen it has recorded: when the check of a
    position returns, the store holds the position's record at the
    time of the cycle as the [latest] field of the instrument; when
    the check of the index returns, it holds the value of the index
    as the [latest] field of ["dvol"]; whether alerts were sent or
    not. *)
Theorem checks_record_what_they_see
  (e : Monitor.env) (m : Monitor.self) (now : PyFloat.t) (w : Monitor.world) :
  (forall position w',
     DeribitClient.instrument_name position <> "last_alert_times" ->
     Monitor.check_position e m position now w = (Some tt, w') ->
     HistorySpec.latest_of (StateStore.state (Monitor.state_store w'))
       (DeribitClient.instrument_name position)
     = Some (StateStore.entry (Monitor.position_record position) now))
  /\ (forall dvol_data w',
        Monitor._check_dvol e m dvol_data now w = (Some tt, w') ->
        HistorySpec.latest_of (StateStore.state (Monitor.state_store w')) "dvol"
        = Some (StateStore.entry (VNum (DeribitClient.value dvol_data)) now)).
Proof.
  split.
  - intros position w' N E.
    destruct (RecordFacts.check_position_records e m position now w w' N E)
      as (d & G & L & _).
    unfold HistorySpec.latest_of. now rewrite G.
  - intros dvol_data w' E.
    destruct (RecordFacts.check_dvol_records e m dvol_data now w w' E)
      as (d & G & L & _).
    unfold HistorySpec.latest_of. now rewrite G.
Qed.

Lemma checks_record_what_they_see_witness :
  let e := Examples.env_at (Examples.t 1060) in
  let m := Examples.monitor0 in
  let now := Examples.t 1060 in
  let w := Examples.world_of Examples.store1 in
  HistorySpec.latest_of
    (StateStore.state
       (Monitor.state_store
          (snd (Monitor.check_position e m Examples.position0 now w))))
    "BTC-27DEC24-100000-C"
  = Some (StateStore.entry (Monitor.position_record Examples.position0) now)
  /\ HistorySpec.latest_of
       (StateStore.state
          (Monitor.state_store
             (snd (Monitor._check_dvol e m (Examples.dvol (Examples.t 65) now)
                     now w))))
       "dvol"
     = Some (StateStore.entry (VNum (Examples.t 65)) now).
Proof.
  cbv zeta.
  pose proof (checks_record_what_they_see (Examples.env_at (Examples.t 1060))
                Examples.monitor0 (Examples.t 1060)
                (Examples.world_of Examples.store1)) as [Position Index].
  split.
  - apply (Position Examples.position0); [discriminate|].
    rewrite (surjective_pairing (Monitor.check_position _ _ _ _ _)) at 1.
    apply f_equal2; [vm_compute; reflexivity | reflexivity].
  - apply (Index (Examples.dvol (Examples.t 65) (Examples.t 1060))).
    rewrite (surjective_pairing (Monitor._check_dvol _ _ _ _ _)) at 1.
    apply f_equal2; [vm_compute; reflexivity | reflexivity].
Defined.

(** ** The monitor: the cycle *)

(** A cycle keeps what the cool-down rests on: if the store holds the
    time of the latest successful delivery for every key, and the
    successful deliveries of the log are spaced by the cool-down, the
    same holds after [run], whether it ends in its [try] block or in
    its [except] clause, and whether or not that clause raises in
    turn; the positions the exchange reports having strings for name
    and kind, and none the name of the table of last alert times. *)
Theorem run_keeps_the_cooldown
  (b : DeribitClient.builtins) (ce : DeribitClient.env) (e : Monitor.env)
  (m : Monitor.self) (error_logged : bool) (s : Monitor.system) :
  CooldownSpec.cooled m (Monitor.its_world s) ->
  (forall untyped c,
     Monitor.fetch_positions b ce Monitor.currencies (Monitor.client s)
     = (Some untyped, c) ->
     exists positions,
       Monitor.all_typed untyped = Some positions
       /\ CycleSpec.named_apart positions) ->
  fst (Monitor.run b ce e m error_logged s) <> Monitor.Untyped
  /\ CooldownSpec.cooled m
       (Monitor.its_world (snd (Monitor.run b ce e m error_logged s))).
Proof.
  intros C N. unfold Monitor.run, Monitor.time_time_.
  set (now := Monitor.time_time e (Monitor.clock_reads (Monitor.its_world s))).
  set (w := {| Monitor.state_store := Monitor.state_store (Monitor.its_world s);
               Monitor.clock_reads := S (Monitor.clock_reads (Monitor.its_world s));
               Monitor.alerts := Monitor.alerts (Monitor.its_world s) |}).
  assert (Cw : CooldownSpec.cooled m w)
    by (apply (CooldownFacts.cooled_ext m (Monitor.its_world s)); trivial).
  destruct (Monitor.fetch_positions b ce Monitor.currencies (Monitor.client s))
    as [[untyped|] c] eqn:F;
    [|split; [apply RunFacts.except_clause_followed|exact Cw]].
  destruct (N untyped c eq_refl) as (positions & -> & Np). clear N.
  rename Np into N.
  assert (Cp : CooldownSpec.cooled m
                 (snd match positions with
                      | [] => (Some tt, w)
                      | _ :: _ => Monitor._check_positions e m positions now w
                      end)).
  { destruct positions; [exact Cw|].
    exact (CooldownFacts.check_positions_cooled e m _ now N w Cw). }
  destruct (match positions with
            | [] => (Some tt, w)
            | _ :: _ => Monitor._check_positions e m positions now w
            end) as [[[]|] w1]; cbn [snd] in Cp;
    [|split; [apply RunFacts.except_clause_followed|exact Cp]].
  destruct (DeribitClient.get_btc_dvol b ce c) as [[[dvol_data|]|] c1];
    try (split; [first [discriminate | apply RunFacts.except_clause_followed]
                |exact Cp]).
  pose proof (CooldownFacts.check_dvol_cooled e m dvol_data now w1 Cp) as Cd.
  destruct (Monitor._check_dvol e m dvol_data now w1) as [[[]|] w2];
    (split; [first [discriminate | apply RunFacts.except_clause_followed]
            |exact Cd]).
Qed.

Lemma run_keeps_the_cooldown_witness :
  let ce := Examples.scripted
              [Examples.positions_reply; Examples.order_book_reply;
               Examples.rpc_result (VList []); Examples.rpc_result (VList []);
               Examples.rpc_result (VList []); Examples.dvol_reply] in
  let e := Examples.env_at (Examples.t 1000) in
  let r := Monitor.run Examples.builtins0 ce e Examples.monitor0 true
             Examples.system0 in
  fst r = Monitor.Completed
  /\ Examples.keys_of (Monitor.its_world (snd r))
     = ["BTC-27DEC24-100000-C_gamma_level_" ++ Monitor.severity_name Monitor.Medium;
        "BTC-27DEC24-100000-C_vega_level_" ++ Monitor.severity_name Monitor.Medium]
  /\ CooldownSpec.cooled Examples.monitor0 (Monitor.its_world Examples.system0)
  /\ fst r <> Monitor.Untyped
  /\ CooldownSpec.cooled Examples.monitor0 (Monitor.its_world (snd r)).
Proof.
  cbv zeta.
  assert (C : CooldownSpec.cooled Examples.monitor0
                (Monitor.its_world Examples.system0)).
  { split; [intros key a H; discriminate H | exact I]. }
  split; [vm_compute; reflexivity|]. split; [vm_compute; reflexivity|].
  split; [exact C|].
  apply (run_keeps_the_cooldown Examples.builtins0
           (Examples.scripted
              [Examples.positions_reply; Examples.order_book_reply;
               Examples.rpc_result (VList []); Examples.rpc_result (VList []);
               Examples.rpc_result (VList []); Examples.dvol_reply])
           (Examples.env_at (Examples.t 1000)) Examples.monitor0 true
           Examples.system0 C).
  intros untyped c F. vm_compute in F. injection F as <- _.
  eexists. split; [vm_compute; reflexivity|]. repeat constructor. discriminate.
Defined.

(** When the exchange cannot be reached (every request times out) and
    the clock is a finite number, a cycle ends without an exception:
    it has sent fifteen requests at most, the token and its expiry
    are what they were, no alert has been handed to the webhook and
    the store has not been touched. *)
Theorem run_unreachable_exchange
  (b : DeribitClient.builtins) (ce : DeribitClient.env) (e : Monitor.env)
  (m : Monitor.self) (error_logged : bool) (s : Monitor.system) :
  (forall k, DeribitClient.post ce k = DeribitClient.Timeout) ->
  (forall k, DeribitClient.trunc
               (DeribitClient.time_time ce k * PyFloat.of_Z 1000)%py <> None) ->
  exists c n,
    Monitor.run b ce e m error_logged s
    = (Monitor.Completed,
       {| Monitor.client := (c, n);
          Monitor.its_world := CycleSpec.clock_read (Monitor.its_world s) |})
    /\ DeribitClient.token c = DeribitClient.token (fst (Monitor.client s))
    /\ DeribitClient.token_expires_at c
       = DeribitClient.token_expires_at (fst (Monitor.client s))
    /\ (List.length (DeribitClient.sent n)
        <= List.length (DeribitClient.sent (snd (Monitor.client s))) + 15)%nat.
Proof.
  intros Down Clock. unfold Monitor.run, Monitor.time_time_.
  fold (CycleSpec.clock_read (Monitor.its_world s)).
  destruct (Monitor.client s) as [c0 n0]. cbn [fst snd].
  destruct (RunFacts.fetch_unreachable b ce Down Monitor.currencies c0 n0)
    as (c1 & n1 & new & F & Sn & L & Tk).
  rewrite F. cbn [Monitor.all_typed].
  destruct (DeribitClient.trunc
              (DeribitClient.time_time ce (DeribitClient.clock_reads n1)
               * PyFloat.of_Z 1000)%py) as [end_timestamp|] eqn:End;
    [|now destruct (Clock (DeribitClient.clock_reads n1))].
  rewrite (IndexFacts.get_btc_dvol_unfold _ _ _ _ _ End).
  destruct (IndexFacts.public_call_unreachable ce
              "public/get_volatility_index_data"
              (DeribitClient.dvol_params "BTC"
                 (end_timestamp - 2 * DeribitClient.ms_per_day)
                 end_timestamp "1H")
              c1 (snd (DeribitClient.read_clock ce n1))
              IndexFacts.public_index (fun k _ => Down _))
    as (n2 & E & Sn2 & _).
  rewrite E. cbn [DeribitClient.dvol_reading Py.truthy negb].
  eexists _, n2. split; [reflexivity|]. split; [exact (proj1 Tk)|].
  split; [exact (proj2 Tk)|].
  rewrite Sn2, RunFacts.sent_read_clock, Sn, !length_app.
  cbn [List.length repeat Monitor.currencies] in *. lia.
Qed.

Lemma run_unreachable_exchange_witness :
  let ce := Examples.scripted [] in
  let e := Examples.env_at (Examples.t 1000) in
  let s := Examples.system0 in
  (forall k, DeribitClient.post ce k = DeribitClient.Timeout)
  /\ (forall k, DeribitClient.trunc
                  (DeribitClient.time_time ce k * PyFloat.of_Z 1000)%py <> None)
  /\ exists c n,
       Monitor.run Examples.builtins0 ce e Examples.monitor0 true s
       = (Monitor.Completed,
          {| Monitor.client := (c, n);
             Monitor.its_world := CycleSpec.clock_read (Monitor.its_world s) |})
       /\ DeribitClient.token c = DeribitClient.token (fst (Monitor.client s))
       /\ DeribitClient.token_expires_at c
          = DeribitClient.token_expires_at (fst (Monitor.client s))
       /\ (List.length (DeribitClient.sent n)
           <= List.length (DeribitClient.sent (snd (Monitor.client s))) + 15)%nat.
Proof.
  cbv zeta.
  assert (Down : forall k, DeribitClient.post (Examples.scripted []) k
                           = DeribitClient.Timeout)
    by (intros [|k]; reflexivity).
  assert (Clock : forall k,
            DeribitClient.trunc
              (DeribitClient.time_time (Examples.scripted []) k
               * PyFloat.of_Z 1000)%py <> None)
    by (intros k; vm_compute; discriminate).
  split; [exact Down|]. split; [exact Clock|].
  exact (run_unreachable_exchange Examples.builtins0 (Examples.scripted [])
           (Examples.env_at (Examples.t 1000)) Examples.monitor0 true
           Examples.system0 Down Clock).
Defined.

(** One position that cannot be read silences the cycle.  When the
    session is valid and the first answer to the request for the
    positions holds a position, anywhere in it, whose [size] [float]
    does not read, [run] ends in its [except] clause, or with the
    exception that clause raises when it cannot log the first.
    Besides the request for the positions the client has sent
    requests for the order book only, for positions before the one
    that cannot be read, and none when that one comes first: the
    other currencies and the index are not asked for, nothing is
    checked, stored or sent. *)
Theorem run_unreadable_position
  (b : DeribitClient.builtins) (ce : DeribitClient.env) (e : Monitor.env)
  (m : Monitor.self) (error_logged : bool) (s : Monitor.system)
  (result pos : pyobject) :
  let c := fst (Monitor.client s) in
  let n := snd (Monitor.client s) in
  ClientSpec.session_valid ce c n = true ->
  DeribitClient.post ce (List.length (DeribitClient.sent n))
  = DeribitClient.Response 200 (DeribitClient.Result result) ->
  result <> VNone ->
  In pos (DeribitClient.as_list result) ->
  (v <- Py.get pos "size" (VNum PyFloat.zero) ;; DeribitClient.float_ b v)
  = None ->
  exists c' n' books,
    Monitor.run b ce e m error_logged s
    = (if error_logged then Monitor.Caught else Monitor.Escaped,
       {| Monitor.client := (c', n');
          Monitor.its_world := CycleSpec.clock_read (Monitor.its_world s) |})
    /\ DeribitClient.sent n'
       = (DeribitClient.sent n
          ++ ClientSpec.own_request "private/get_positions"
               (DeribitClient.get_positions_params "BTC" "option")
               (DeribitClient.request_id c + 1)
               (Some (DeribitClient.token c))
          :: books)%list
    /\ Forall (fun q => DeribitClient.method q = "public/get_order_book") books
    /\ (forall rest, DeribitClient.as_list result = pos :: rest -> books = []).
Proof.
  cbv zeta. destruct (Monitor.client s) as [c n] eqn:Cs. cbn [fst snd].
  intros V R NotNone I Size.
  unfold Monitor.run, Monitor.time_time_, Monitor.except_clause.
  fold (CycleSpec.clock_read (Monitor.its_world s)). rewrite Cs.
  cbn [Monitor.fetch_positions Monitor.currencies].
  unfold DeribitClient.get_account_option_positions.
  rewrite (RunFacts.private_call_first ce "private/get_positions" _ c n result
             eq_refl V R).
  destruct (RunFacts.collect_unreadable b ce "option" pos Size
              (DeribitClient.as_list result) I
              (DeribitClient.with_request_id c (DeribitClient.request_id c + 1))
              (ClientSpec.after_post
                 (ClientSpec.own_request "private/get_positions"
                    (DeribitClient.get_positions_params "BTC" "option")
                    (DeribitClient.request_id c + 1)
                    (Some (DeribitClient.token c)))
                 (ClientSpec.after_check ce c n)))
    as (c' & n' & books & E & Sn & F & Head).
  exists c', n', books.
  split; [destruct result; try congruence; now rewrite E|].
  split; [|split; [exact F | exact Head]].
  rewrite Sn. unfold ClientSpec.after_post. cbn [DeribitClient.sent].
  now rewrite ClientFacts.sent_after_check, <- app_assoc.
Qed.

Lemma run_unreadable_position_witness :
  let ce := Examples.scripted
              [Examples.second_unreadable_reply; Examples.order_book_reply;
               Examples.dvol_reply] in
  let e := Examples.env_at (Examples.t 1000) in
  let s := Examples.system0 in
  let r := Monitor.run Examples.builtins0 ce e Examples.monitor0 false s in
  fst r = Monitor.Escaped
  /\ Examples.wire (snd (Monitor.client (snd r)))
     = [("private/get_positions", 8, Some (VStr "token-1"));
        ("public/get_order_book", 9, None)]
  /\ Monitor.its_world (snd r) = CycleSpec.clock_read (Monitor.its_world s)
  /\ exists c' n' books,
       r = (Monitor.Escaped,
            {| Monitor.client := (c', n');
               Monitor.its_world := CycleSpec.clock_read (Monitor.its_world s) |})
       /\ DeribitClient.sent n'
          = (DeribitClient.sent (snd (Monitor.client s))
             ++ ClientSpec.own_request "private/get_positions"
                  (DeribitClient.get_positions_params "BTC" "option")
                  (DeribitClient.request_id (fst (Monitor.client s)) + 1)
                  (Some (DeribitClient.token (fst (Monitor.client s))))
             :: books)%list
       /\ Forall (fun q => DeribitClient.method q = "public/get_order_book")
            books
       /\ (forall rest,
             DeribitClient.as_list Examples.second_unreadable_result
             = Examples.unreadable_position :: rest ->
             books = []).
Proof.
  cbv zeta.
  split; [vm_compute; reflexivity|]. split; [vm_compute; reflexivity|].
  split; [vm_compute; reflexivity|].
  apply (run_unreadable_position Examples.builtins0
           (Examples.scripted
              [Examples.second_unreadable_reply; Examples.order_book_reply;
               Examples.dvol_reply])
           (Examples.env_at (Examples.t 1000)) Examples.monitor0 false
           Examples.system0 Examples.second_unreadable_result
           Examples.unreadable_position);
    [reflexivity | reflexivity | discriminate | right; left; reflexivity
    | reflexivity].
Defined.

(** ** The notifier *)

(** [send_feishu_alert] sends one request at most and never a second
    one.  Without a URL it sends nothing and answers [False].  With a
    URL it posts the title, an empty line and the message (and the
    details after them) once; it answers [True] exactly when the reply
    has status 200 and a JSON body that is a dict whose [code] equals
    zero. *)
Theorem feishu_alert_is_one_post
  (e : Notifier.env) (title message webhook_url : string)
  (detail : option (Dict.t pyobject)) (sent : list Notifier.request) :
  let r := Notifier.send_feishu_alert e title message webhook_url detail sent in
  (webhook_url = "" -> r = (false, sent))
  /\ (webhook_url <> "" ->
      exists text,
        snd r
        = (sent ++ [{| Notifier.url := webhook_url;
                       Notifier.json := Notifier.payload
                                          (title ++ Notifier.newline
                                           ++ Notifier.newline ++ message
                                           ++ text) |}])%list)
  /\ (fst r = true <->
      webhook_url <> ""
      /\ exists d,
           Notifier.post e (List.length sent)
           = Notifier.Response 200 (Some (VDict d))
           /\ Notifier.equals_zero (Dict.get_default d "code" VNone) = true).
Proof.
  cbv zeta. unfold Notifier.send_feishu_alert.
  destruct (String.eqb_spec webhook_url "") as [->|N].
  - split; [reflexivity|]. split; [congruence|].
    split; [discriminate | now intros [H _]].
  - split; [congruence|]. split.
    { intros _. unfold Notifier.full_message. now eexists. }
    cbn [fst]. split.
    + intros H. split; [exact N|].
      destruct (Notifier.post e (List.length sent)) as [status [result|]| | |];
        try discriminate.
      destruct (status =? 200)%Z eqn:S; [|discriminate].
      apply Z.eqb_eq in S. subst status.
      destruct result; try discriminate. now eexists.
    + intros (_ & d & -> & Z). exact Z.
Qed.

Lemma feishu_alert_is_one_post_witness :
  Notifier.send_feishu_alert Examples.webhook "Gamma" "heavy" "" None []
  = (false, [])
  /\ fst (Notifier.send_feishu_alert Examples.webhook "Gamma" "heavy"
            "https://open.feishu.cn/hook" None []) = true
  /\ List.length
       (snd (Notifier.send_feishu_alert Examples.webhook "Gamma" "heavy"
               "https://open.feishu.cn/hook" None [])) = 1%nat.
Proof.
  pose proof (feishu_alert_is_one_post Examples.webhook "Gamma" "heavy" ""
                None []) as [Silent _].
  pose proof (feishu_alert_is_one_post Examples.webhook "Gamma" "heavy"
                "https://open.feishu.cn/hook" None []) as [_ [Once Iff]].
  split; [exact (Silent eq_refl)|]. split.
  - apply (proj2 Iff). split; [discriminate|].
    eexists. split; reflexivity.
  - destruct (Once ltac:(discriminate)) as [text ->]. reflexivity.
Defined.
